(** * QuoteSync: authorization and quote lifecycle

    A shallow embedding of the parts of the application that decide who may
    do what to a quote and which organization a signed-in user acts in:

    - [lib/supabase.ts]: [getPermissions], [canPerformQuoteAction];
    - [stores/authStore.ts]: [signIn], [signOut], [fetchUserData],
      [switchOrganization], [initialize];
    - [pages/Quotes.tsx]: [getInitialStatus], [handleStatusChange] and the
      action buttons of the quote list;
    - [components/quotes/QuoteViewModal.tsx]: the permission checks of the
      modal;
    - the SQL the client code relies on: the function
      [get_user_organizations], the [updated_at] trigger of [quotes] and
      the constraints of the tables.

    JavaScript values are modelled as follows.  A string is a [string]; a
    value that may be [null] or [undefined] is an [option]; a timestamp is
    the integer reading of the clock; an amount of money is an integer number
    of cents (the columns are [numeric(10,2)]).  The local storage of the
    browser is a finite map from keys to strings. *)

From Stdlib Require Import ZArith String Ascii List Bool Lia.
From stdpp Require Import base option gmap strings list.

Open Scope string_scope.
Open Scope Z_scope.

(** ** JavaScript helpers *)

Module Js.

(** [a === b] on two strings. *)
Definition str_eq (a b : string) : bool := String.eqb a b.

(** [a === b] where [a] may be [undefined] ([user?.id], [user?.role]). *)
Definition opt_str_eq (a : option string) (b : string) : bool :=
  match a with
  | Some s => str_eq s b
  | None => false
  end.

(** Truthiness of a string: every string but the empty one. *)
Definition truthy_str (s : string) : bool := negb (str_eq s "").

(** Truthiness of a value that is a string, [null] or [undefined]. *)
Definition truthy_opt_str (o : option string) : bool :=
  match o with
  | Some s => truthy_str s
  | None => false
  end.

(** Truthiness of a value that is a boolean or [undefined]. *)
Definition truthy (v : option bool) : bool :=
  match v with
  | Some b => b
  | None => false
  end.

(** [a && b] where [a] is a boolean or [undefined] and [b] a boolean: the
    left operand when it is falsy, the right operand otherwise. *)
Definition and_ (a : option bool) (b : bool) : option bool :=
  match a with
  | Some true => Some b
  | _ => a
  end.

(** The line feed of the template [\n\n]. *)
Definition nl : string := String (ascii_of_nat 10) EmptyString.

End Js.

(** ** Data model ([types/index.ts] and the tables behind it) *)

Definition Timestamp := Z.

(** A row of [users].  The interface [User] of [types/index.ts] lists no
    role: roles are declared on [OrganizationUser] and [UserOrganization].
    The column [role] of the table ([text NOT NULL DEFAULT 'admin']) still
    comes with every [select('*')] and is what the pages read as
    [user.role]. *)
Record User := mkUser {
  user_id : string;
  email : string;
  full_name : string;
  role : string;
  is_active : bool;
  last_login : option Timestamp;
  user_created_at : Timestamp
}.

Record Organization := mkOrganization {
  org_id : string;
  org_name : string;
  org_created_at : Timestamp;
  default_tax_rate : Z;
  default_payment_terms : string;
  default_terms_conditions : string;
  default_quote_expiry_days : Z
}.

(** A row of [organization_users]. *)
Record OrganizationUser := mkOrganizationUser {
  ou_id : string;
  ou_user_id : string;
  ou_organization_id : string;
  ou_role : string;
  ou_status : string;
  ou_joined_at : Timestamp;
  ou_created_at : Timestamp
}.

(** A row returned by [get_user_organizations]. *)
Record UserOrganization := mkUserOrganization {
  organization_id : string;
  organization_name : string;
  user_role : string;
  user_status : string;
  joined_at : Timestamp
}.

Record Permission := mkPermission {
  can_create_quotes : bool;
  can_approve_quotes : bool;
  can_send_quotes : bool;
  can_manage_products : bool;
  can_manage_clients : bool;
  can_view_dashboard : bool;
  can_manage_users : bool;
  can_view_audit_logs : bool
}.

Inductive QuoteStatus :=
  | draft
  | pending_approval
  | approved
  | rejected
  | sent.

Definition status_eqb (a b : QuoteStatus) : bool :=
  match a, b with
  | draft, draft
  | pending_approval, pending_approval
  | approved, approved
  | rejected, rejected
  | sent, sent => true
  | _, _ => false
  end.

(** A row of [quotes] (the joined [client] and the items are left out). *)
Record Quote := mkQuote {
  quote_id : string;
  quote_number : string;
  client_id : string;
  status : QuoteStatus;
  subtotal : Z;
  discount_amount : Z;
  tax_amount : Z;
  total_amount : Z;
  valid_until : string;
  terms_conditions : option string;
  notes : option string;
  created_by : string;
  approved_by : option string;
  sent_at : option Timestamp;
  quote_organization_id : string;
  quote_created_at : Timestamp;
  quote_updated_at : Timestamp
}.

(** ** [lib/supabase.ts] *)

Module Supabase.

Definition admin_permissions : Permission :=
  {| can_create_quotes := true;
     can_approve_quotes := true;
     can_send_quotes := true;
     can_manage_products := true;
     can_manage_clients := true;
     can_view_dashboard := true;
     can_manage_users := true;
     can_view_audit_logs := true |}.

Definition manager_permissions : Permission :=
  {| can_create_quotes := true;
     can_approve_quotes := true;
     can_send_quotes := true;
     can_manage_products := true;
     can_manage_clients := true;
     can_view_dashboard := true;
     can_manage_users := false;
     can_view_audit_logs := true |}.

Definition agent_permissions : Permission :=
  {| can_create_quotes := true;
     can_approve_quotes := false;
     can_send_quotes := false;
     can_manage_products := false;
     can_manage_clients := false;
     can_view_dashboard := true;
     can_manage_users := false;
     can_view_audit_logs := false |}.

(** The own properties of the object literal [permissions]. *)
Definition permissions : gmap string Permission :=
  <["admin" := admin_permissions]>
    (<["manager" := manager_permissions]>
       (<["agent" := agent_permissions]> ∅)).

(** The object literal inherits from [Object.prototype]; these are the
    property names found there.  Each of them holds a function, except
    [__proto__], whose getter yields [Object.prototype] itself: all of them
    are truthy. *)
Definition Object_prototype_keys : list string :=
  [ "constructor"; "hasOwnProperty"; "isPrototypeOf";
    "propertyIsEnumerable"; "toLocaleString"; "toString"; "valueOf";
    "__proto__"; "__defineGetter__"; "__defineSetter__";
    "__lookupGetter__"; "__lookupSetter__" ].

Definition inherited (name : string) : bool :=
  existsb (Js.str_eq name) Object_prototype_keys.

(** What [getPermissions] can return: one of the three capability objects,
    or the member of [Object.prototype] found under the given name. *)
Inductive PermissionsValue :=
  | Capabilities (p : Permission)
  | PrototypeMember (name : string).

(** [permissions[role] || permissions.agent].  The lookup finds own
    properties first, then those of the prototype; only when both miss is
    the left operand [undefined] and the agent object returned. *)
Definition getPermissions (role : string) : PermissionsValue :=
  match permissions !! role with
  | Some p => Capabilities p
  | None =>
      if inherited role then PrototypeMember role
      else Capabilities agent_permissions
  end.

(** Reading a capability [v.can_...] from the returned value; a member of
    [Object.prototype] has no such property and the read is [undefined]. *)
Definition capability (field : Permission -> bool) (v : PermissionsValue)
  : option bool :=
  match v with
  | Capabilities p => Some (field p)
  | PrototypeMember _ => None
  end.

Inductive QuoteAction := Create | Edit | Approve | Reject | Send | Delete.

(** [canPerformQuoteAction(action, quote, userRole, userId)].  The result
    is a boolean or [undefined]; the [default] branch of the [switch] is
    unreachable for the six actions. *)
Definition canPerformQuoteAction (action : QuoteAction) (quote : Quote)
    (userRole userId : string) : option bool :=
  let permissions := getPermissions userRole in
  match action with
  | Create => capability can_create_quotes permissions
  | Edit =>
      Some (status_eqb (status quote) draft
            && (Js.str_eq (created_by quote) userId
                || negb (Js.str_eq userRole "agent")))
  | Approve | Reject =>
      Js.and_ (capability can_approve_quotes permissions)
              (status_eqb (status quote) pending_approval)
  | Send =>
      Js.and_ (capability can_send_quotes permissions)
              (status_eqb (status quote) approved)
  | Delete =>
      Some (Js.str_eq (created_by quote) userId
            || Js.str_eq userRole "admin")
  end.

End Supabase.

(** ** The backend as the client code sees it *)

Module Backend.

(** An error object: what a query returns in its [error] field, or what is
    thrown. *)
Inductive Err :=
  | PostgrestError (code : string)
  | AuthError (message : string)
  | JsError (message : string).

(** The requests the modelled code sends. *)
Inductive Query :=
  | users_select
  | users_update
  | rpc_get_user_organizations
  | organizations_select
  | organization_users_select
  | quotes_update
  | quotes_select
  | clients_select
  | products_select.

(** [auth.signInWithPassword]: the fields [data.user?.id] and [error]. *)
Record AuthResponse := mkAuthResponse {
  auth_user : option string;
  auth_error : option Err
}.

(** [auth.signOut]: resolves without error, resolves with an error, or
    rejects. *)
Inductive SignOutResponse :=
  | SignedOut
  | SignOutError (e : Err)
  | SignOutRejected (e : Err).

(** The tables hold the rows the row policies let the signed-in identity
    read and write; the policies themselves are the backend's business.
    [fault] tells which requests fail in transit or are refused. *)
Record t := mk {
  users : list User;
  organizations : list Organization;
  organization_users : list OrganizationUser;
  quotes : list Quote;
  session : option string;
  signInWithPassword : string -> string -> AuthResponse;
  signOut_response : SignOutResponse;
  fault : Query -> option Err
}.

Definition with_users (us : list User) (b : t) : t :=
  mk us (organizations b) (organization_users b) (quotes b) (session b)
     (signInWithPassword b) (signOut_response b) (fault b).

Definition with_quotes (qs : list Quote) (b : t) : t :=
  mk (users b) (organizations b) (organization_users b) qs (session b)
     (signInWithPassword b) (signOut_response b) (fault b).

Definition with_session (s : option string) (b : t) : t :=
  mk (users b) (organizations b) (organization_users b) (quotes b) s
     (signInWithPassword b) (signOut_response b) (fault b).

(** [.single()]: exactly one row, else the error PGRST116. *)
Definition single {A} (rows : list A) : Err + A :=
  match rows with
  | [r] => inr r
  | _ => inl (PostgrestError "PGRST116")
  end.

(** [.maybeSingle()]: no row is [null], one row is that row, more is the
    error PGRST116. *)
Definition maybeSingle {A} (rows : list A) : Err + option A :=
  match rows with
  | [] => inr None
  | [r] => inr (Some r)
  | _ => inl (PostgrestError "PGRST116")
  end.

(** [from('users').select('*').eq('id', userId).maybeSingle()] *)
Definition select_user (b : t) (userId : string) : Err + option User :=
  match fault b users_select with
  | Some e => inl e
  | None =>
      maybeSingle (List.filter (fun u => Js.str_eq (user_id u) userId)
                               (users b))
  end.

(** [from('organizations').select('*').eq('id', organizationId).single()] *)
Definition select_organization (b : t) (organizationId : string)
  : Err + Organization :=
  match fault b organizations_select with
  | Some e => inl e
  | None =>
      single (List.filter (fun o => Js.str_eq (org_id o) organizationId)
                          (organizations b))
  end.

(** [from('organization_users').select('*').eq('user_id', userId)
    .eq('organization_id', organizationId).eq('status', 'active').single()].
    With no user in the store the filter value is [undefined], which is
    not a uuid: the request is refused (22P02). *)
Definition select_membership (b : t) (userId : option string)
    (organizationId : string) : Err + OrganizationUser :=
  match fault b organization_users_select with
  | Some e => inl e
  | None =>
      match userId with
      | None => inl (PostgrestError "22P02")
      | Some uid =>
          single (List.filter
                    (fun m =>
                       Js.str_eq (ou_user_id m) uid
                       && Js.str_eq (ou_organization_id m) organizationId
                       && Js.str_eq (ou_status m) "active")
                    (organization_users b))
      end
  end.

(** Insertion into a list sorted by [key], after the elements with the
    same key. *)
Fixpoint insert_by {A} (key : A -> Z) (x : A) (l : list A) : list A :=
  match l with
  | [] => [x]
  | y :: l' => if key x <? key y then x :: l else y :: insert_by key x l'
  end.

(** [ORDER BY key ASC]. *)
Definition order_by {A} (key : A -> Z) (l : list A) : list A :=
  foldr (insert_by key) [] l.

(** The rows [organization_users ou JOIN organizations o ON
    ou.organization_id = o.id WHERE ou.user_id = user_uuid AND ou.status =
    'active'], before ordering. *)
Definition joined_memberships (b : t) (user_uuid : string)
  : list UserOrganization :=
  flat_map
    (fun m =>
       if Js.str_eq (ou_user_id m) user_uuid
          && Js.str_eq (ou_status m) "active"
       then
         map (fun o =>
                {| organization_id := ou_organization_id m;
                   organization_name := org_name o;
                   user_role := ou_role m;
                   user_status := ou_status m;
                   joined_at := ou_joined_at m |})
             (List.filter
                (fun o => Js.str_eq (ou_organization_id m) (org_id o))
                (organizations b))
       else [])
    (organization_users b).

(** The SQL function [get_user_organizations(user_uuid)]. *)
Definition get_user_organizations (b : t) (user_uuid : string)
  : list UserOrganization :=
  order_by joined_at (joined_memberships b user_uuid).

(** [rpc('get_user_organizations', { user_uuid })] *)
Definition rpc_user_organizations (b : t) (user_uuid : string)
  : Err + list UserOrganization :=
  match fault b rpc_get_user_organizations with
  | Some e => inl e
  | None => inr (get_user_organizations b user_uuid)
  end.

End Backend.

(** ** [stores/authStore.ts] *)

Module AuthStore.

Import Backend.

(** The data fields of [AuthState]. *)
Record AuthState := mkAuthState {
  user : option User;
  organization : option Organization;
  currentOrgMembership : option OrganizationUser;
  userOrganizations : list UserOrganization;
  permissions : option Supabase.PermissionsValue;
  loading : bool
}.

(** The state the store is created with. *)
Definition initial : AuthState :=
  {| user := None;
     organization := None;
     currentOrgMembership := None;
     userOrganizations := [];
     permissions := None;
     loading := true |}.

(** Everything an operation of the store can read or change.  [supabase] is
    false when the client is [null], which is also when
    [isSupabaseConfigured()] is false: both test the same two settings. *)
Record World := mkWorld {
  supabase : bool;
  backend : Backend.t;
  store : AuthState;
  localStorage : gmap string string;
  now : Timestamp
}.

Definition with_backend (b : Backend.t) (w : World) : World :=
  mkWorld (supabase w) b (store w) (localStorage w) (now w).

Definition with_store (s : AuthState) (w : World) : World :=
  mkWorld (supabase w) (backend w) s (localStorage w) (now w).

Definition with_localStorage (ls : gmap string string) (w : World) : World :=
  mkWorld (supabase w) (backend w) (store w) ls (now w).

(** An [async] function: it changes the world and either resolves with a
    value or rejects with an error. *)
Inductive Outcome (A : Type) :=
  | Resolved (a : A)
  | Rejected (e : Err).
Arguments Resolved {A} a.
Arguments Rejected {A} e.

Definition M (A : Type) : Type := World -> Outcome A * World.

Definition ret {A} (a : A) : M A := fun w => (Resolved a, w).

Definition throw {A} (e : Err) : M A := fun w => (Rejected e, w).

Definition bind {A B} (m : M A) (k : A -> M B) : M B :=
  fun w =>
    match m w with
    | (Resolved a, w') => k a w'
    | (Rejected e, w') => (Rejected e, w')
    end.

(** [try { m } catch (error) { h error }] *)
Definition try_catch {A} (m : M A) (h : Err -> M A) : M A :=
  fun w =>
    match m w with
    | (Resolved a, w') => (Resolved a, w')
    | (Rejected e, w') => h e w'
    end.

(** [try { m } finally { f }] *)
Definition try_finally {A} (m : M A) (f : M unit) : M A :=
  fun w =>
    match m w with
    | (r, w') =>
        match f w' with
        | (Resolved _, w'') => (r, w'')
        | (Rejected e, w'') => (Rejected e, w'')
        end
    end.

Definition get {A} (f : World -> A) : M A := fun w => (Resolved (f w), w).

Definition modify (f : World -> World) : M unit :=
  fun w => (Resolved tt, f w).

(** A query result [{ data, error }] followed by [if (error) throw error]. *)
Definition orThrow {A} (r : Err + A) : M A :=
  match r with
  | inl e => throw e
  | inr a => ret a
  end.

Notation "'let!' x ':=' m 'in' k" := (bind m (fun x => k))
  (at level 10, x name, m at level 100, k at level 200, only parsing).
Notation "'do!' m 'in' k" := (bind m (fun _ => k))
  (at level 10, m at level 100, k at level 200, only parsing).

(** [console.log], [console.warn] and [console.error] leave the world as it
    is. *)
Definition log : M unit := ret tt.

Definition currentOrganizationId : string := "currentOrganizationId".

(** [set({ user: null, organization: null, currentOrgMembership: null,
    userOrganizations: [], permissions: null })] *)
Definition cleared (s : AuthState) : AuthState :=
  {| user := None;
     organization := None;
     currentOrgMembership := None;
     userOrganizations := [];
     permissions := None;
     loading := loading s |}.

(** [supabase.auth.signOut()] *)
Definition auth_signOut : M (option Err) :=
  fun w =>
    match signOut_response (backend w) with
    | SignedOut =>
        (Resolved None, with_backend (with_session None (backend w)) w)
    | SignOutError e => (Resolved (Some e), w)
    | SignOutRejected e => (Rejected e, w)
    end.

Definition signOut : M unit :=
  do! log in
  do! try_catch
        (let! configured := get supabase in
         if configured then
           let! error := auth_signOut in
           match error with
           | Some _ => log
           | None => log
           end
         else ret tt)
        (fun _ => log) in
  do! log in
  do! modify (fun w =>
                with_localStorage
                  (base.delete currentOrganizationId (localStorage w)) w) in
  do! modify (fun w => with_store (cleared (store w)) w) in
  log.

(** The body of [switchOrganization] inside [try]. *)
Definition switchOrganization_body (organizationId : string) : M unit :=
  let! b := get backend in
  let! orgData := orThrow (select_organization b organizationId) in
  let! u := get (fun w => user (store w)) in
  let! membershipData :=
    orThrow (select_membership b (option_map user_id u) organizationId) in
  do! modify (fun w =>
                with_localStorage
                  (<[currentOrganizationId := organizationId]>
                     (localStorage w))
                  w) in
  do! modify (fun w =>
                with_store
                  {| user := user (store w);
                     organization := Some orgData;
                     currentOrgMembership := Some membershipData;
                     userOrganizations := userOrganizations (store w);
                     permissions :=
                       Some (Supabase.getPermissions
                               (ou_role membershipData));
                     loading := loading (store w) |}
                  w) in
  log.

Definition switchOrganization (organizationId : string) : M unit :=
  let! configured := get supabase in
  if configured then
    try_catch (switchOrganization_body organizationId)
              (fun error => do! log in throw error)
  else ret tt.

(** [orgsData?.find(org => org.organization_id === savedOrgId)] as a
    condition. *)
Definition has_organization (orgs : list UserOrganization) (id : string)
  : bool :=
  existsb (fun org => Js.str_eq (organization_id org) id) orgs.

(** [savedOrgId && orgsData?.find(...) ? savedOrgId
    : orgsData?.[0]?.organization_id] *)
Definition targetOrgId (savedOrgId : option string)
    (orgsData : list UserOrganization) : option string :=
  match savedOrgId with
  | Some saved =>
      if Js.truthy_str saved && has_organization orgsData saved
      then Some saved
      else option_map organization_id (head orgsData)
  | None => option_map organization_id (head orgsData)
  end.

(** The body of [fetchUserData] inside [try]. *)
Definition fetchUserData_body (userId : string) : M unit :=
  let! b := get backend in
  let! userData := orThrow (select_user b userId) in
  match userData with
  | None => do! log in signOut
  | Some userData =>
      let! orgsData := orThrow (rpc_user_organizations b userId) in
      do! log in
      do! modify (fun w =>
                    with_store
                      {| user := Some userData;
                         organization := organization (store w);
                         currentOrgMembership :=
                           currentOrgMembership (store w);
                         userOrganizations := orgsData;
                         permissions := permissions (store w);
                         loading := loading (store w) |}
                      w) in
      let! savedOrgId :=
        get (fun w => localStorage w !! currentOrganizationId) in
      match targetOrgId savedOrgId orgsData with
      | Some target =>
          if Js.truthy_str target then switchOrganization target
          else ret tt
      | None => ret tt
      end
  end.

Definition fetchUserData (userId : string) : M unit :=
  let! configured := get supabase in
  if configured then
    try_catch (fetchUserData_body userId) (fun _ => log)
  else ret tt.

(** [from('users').update({ last_login }).eq('id', id)]; the result of the
    request is not looked at. *)
Definition update_last_login (id : string) : M unit :=
  modify (fun w =>
            match fault (backend w) users_update with
            | Some _ => w
            | None =>
                with_backend
                  (with_users
                     (map (fun u =>
                             if Js.str_eq (user_id u) id
                             then mkUser (user_id u) (email u) (full_name u)
                                         (role u) (is_active u)
                                         (Some (now w)) (user_created_at u)
                             else u)
                          (users (backend w)))
                     (backend w))
                  w
            end).

(** [supabase.auth.signInWithPassword({ email, password })]; a sign-in
    without error opens the remote session of the identity. *)
Definition auth_signInWithPassword (email password : string)
  : M AuthResponse :=
  fun w =>
    let r := signInWithPassword (backend w) email password in
    match auth_error r with
    | Some _ => (Resolved r, w)
    | None =>
        (Resolved r, with_backend (with_session (auth_user r) (backend w)) w)
    end.

Definition signIn (email password : string) : M unit :=
  do! log in
  let! configured := get supabase in
  if negb configured then throw (JsError "Supabase is not configured")
  else
    let! r := auth_signInWithPassword email password in
    do! log in
    match auth_error r with
    | Some error => throw error
    | None =>
        match auth_user r with
        | Some id =>
            do! update_last_login id in
            fetchUserData id
        | None => ret tt
        end
    end.

Definition set_loading_false : M unit :=
  modify (fun w =>
            with_store
              {| user := user (store w);
                 organization := organization (store w);
                 currentOrgMembership := currentOrgMembership (store w);
                 userOrganizations := userOrganizations (store w);
                 permissions := permissions (store w);
                 loading := false |}
              w).

(** [initialize], up to the registration of the listener for later changes
    of the remote session, which runs nothing by itself. *)
Definition initialize : M unit :=
  do! log in
  try_finally
    (try_catch
       (let! configured := get supabase in
        if negb configured then
          do! log in set_loading_false
        else
          do! log in
          let! s := get (fun w => session (backend w)) in
          do! log in
          match s with
          | Some id => do! log in fetchUserData id
          | None => log
          end)
       (fun _ => log))
    (do! log in set_loading_false).

(** A restart of the process: the store is created anew, the local storage
    and the backend stay. *)
Definition restart (w : World) : World := with_store initial w.

End AuthStore.

(** ** [pages/Quotes.tsx] *)

Module QuotesPage.

Import Backend AuthStore.

(** The state of the page that the modelled handlers touch. *)
Record Page := mkPage {
  quotes : list Quote;
  viewingQuote : option Quote;
  page_loading : bool
}.

(** [user?.role] *)
Definition role_of (u : option User) : option string := option_map role u.

(** [user?.id] *)
Definition id_of (u : option User) : option string := option_map user_id u.

Definition getInitialStatus (u : option User) : QuoteStatus :=
  if Js.opt_str_eq (role_of u) "agent" then draft
  else if Js.opt_str_eq (role_of u) "manager"
          || Js.opt_str_eq (role_of u) "admin"
  then approved
  else draft.

(** [editingQuote?.status || getInitialStatus()] in [onSubmit]: the status
    written with the quote.  Every status is a non-empty string. *)
Definition initialStatus (editingQuote : option Quote) (u : option User)
  : QuoteStatus :=
  match editingQuote with
  | Some q => status q
  | None => getInitialStatus u
  end.

(** The object [updateData]; [None] is a key that is not set. *)
Record UpdateData := mkUpdateData {
  set_status : QuoteStatus;
  set_approved_by : option string;
  set_sent_at : option Timestamp;
  set_notes : option string
}.

(** [quotes.find(q => q.id === quoteId)] *)
Definition find_quote (qs : list Quote) (quoteId : string) : option Quote :=
  List.find (fun q => Js.str_eq (quote_id q) quoteId) qs.

(** [quote?.notes || ''] *)
Definition existingNotes (q : option Quote) : string :=
  match q with
  | Some q =>
      match notes q with
      | Some n => if Js.truthy_str n then n else ""
      | None => ""
      end
  | None => ""
  end.

(** [existingNotes + (existingNotes ? '\n\n' : '') + `Rejected: ${reason}`] *)
Definition rejection_notes (existing reason : string) : string :=
  existing
  ++ (if Js.truthy_str existing then Js.nl ++ Js.nl else "")
  ++ "Rejected: " ++ reason.

(** Lines 283-296 of [handleStatusChange]. *)
Definition build_updateData (u : option User) (cache : list Quote)
    (clock : Timestamp) (quoteId : string) (newStatus : QuoteStatus)
    (reason : option string) : UpdateData :=
  let by_ :=
    if status_eqb newStatus approved && Js.truthy_opt_str (id_of u)
    then id_of u else None in
  let at_ :=
    if status_eqb newStatus approved && Js.truthy_opt_str (id_of u)
    then None
    else if status_eqb newStatus sent then Some clock else None in
  let notes_ :=
    match reason with
    | Some r =>
        if status_eqb newStatus rejected && Js.truthy_str r
        then Some (rejection_notes
                     (existingNotes (find_quote cache quoteId)) r)
        else None
    | None => None
    end in
  mkUpdateData newStatus by_ at_ notes_.

(** One row under [UPDATE quotes SET ...]: the keys of [updateData] replace
    the columns, and the trigger [update_quotes_updated_at] stamps the
    row. *)
Definition update_row (d : UpdateData) (clock : Timestamp) (q : Quote)
  : Quote :=
  {| quote_id := quote_id q;
     quote_number := quote_number q;
     client_id := client_id q;
     status := set_status d;
     subtotal := subtotal q;
     discount_amount := discount_amount q;
     tax_amount := tax_amount q;
     total_amount := total_amount q;
     valid_until := valid_until q;
     terms_conditions := terms_conditions q;
     notes := match set_notes d with Some n => Some n | None => notes q end;
     created_by := created_by q;
     approved_by :=
       match set_approved_by d with
       | Some a => Some a
       | None => approved_by q
       end;
     sent_at :=
       match set_sent_at d with Some t => Some t | None => sent_at q end;
     quote_organization_id := quote_organization_id q;
     quote_created_at := quote_created_at q;
     quote_updated_at := clock |}.

(** [from('quotes').update(updateData).eq('id', quoteId)] on the table. *)
Definition update_quotes (d : UpdateData) (clock : Timestamp)
    (quoteId : string) (table : list Quote) : list Quote :=
  map (fun q => if Js.str_eq (quote_id q) quoteId
                then update_row d clock q else q)
      table.

(** [from('quotes').select(...).eq('organization_id', id)
    .order('created_at', { ascending: false })] *)
Definition select_quotes (b : Backend.t) (organizationId : string)
  : list Quote :=
  order_by (fun q => - quote_created_at q)
           (List.filter
              (fun q => Js.str_eq (quote_organization_id q) organizationId)
              (Backend.quotes b)).

(** [fetchData], as far as the quotes go: the three requests are awaited
    together and any error among them leaves the lists as they were. *)
Definition fetchData (w : World) (p : Page) : Page :=
  match option_map org_id (organization (store w)) with
  | Some id =>
      if Js.truthy_str id then
        if supabase w then
          match fault (backend w) quotes_select,
                fault (backend w) clients_select,
                fault (backend w) products_select with
          | None, None, None =>
              mkPage (select_quotes (backend w) id) (viewingQuote p) false
          | _, _, _ => mkPage (quotes p) (viewingQuote p) false
          end
        else mkPage (quotes p) (viewingQuote p) false
      else mkPage (quotes p) (viewingQuote p) false
  | None => mkPage (quotes p) (viewingQuote p) false
  end.

(** [handleStatusChange(quoteId, newStatus, reason)].  It returns nothing
    and never rejects: an error of the request is caught and logged. *)
Definition handleStatusChange (quoteId : string) (newStatus : QuoteStatus)
    (reason : option string) (w : World) (p : Page) : World * Page :=
  if negb (supabase w) then (w, p)
  else
    let updateData :=
      build_updateData (user (store w)) (quotes p) (now w) quoteId
                       newStatus reason in
    match fault (backend w) quotes_update with
    | Some _ => (w, p)
    | None =>
        let w' :=
          with_backend
            (with_quotes
               (update_quotes updateData (now w) quoteId
                              (Backend.quotes (backend w)))
               (backend w))
            w in
        let p' := fetchData w' p in
        (w', mkPage (quotes p') None (page_loading p'))
    end.

(** [permissions?.can_approve_quotes] and the like. *)
Definition capability_of (field : Permission -> bool)
    (perms : option Supabase.PermissionsValue) : option bool :=
  match perms with
  | Some v => Supabase.capability field v
  | None => None
  end.

(** The four triggers of the lifecycle and the status each one asks for. *)
Inductive Trigger :=
  | SubmitForApproval
  | ApproveQuote
  | RejectQuote
  | MarkSent.

Definition requested (t : Trigger) : QuoteStatus :=
  match t with
  | SubmitForApproval => pending_approval
  | ApproveQuote => approved
  | RejectQuote => rejected
  | MarkSent => sent
  end.

(** The status buttons of a row of the list (lines 730-772): the condition
    under which each one is rendered. *)
Definition row_offers (t : Trigger) (q : Quote)
    (perms : option Supabase.PermissionsValue) : bool :=
  match t with
  | SubmitForApproval => status_eqb (status q) draft
  | ApproveQuote | RejectQuote =>
      status_eqb (status q) pending_approval
      && Js.truthy (capability_of can_approve_quotes perms)
  | MarkSent =>
      status_eqb (status q) approved
      && Js.truthy (capability_of can_send_quotes perms)
  end.

(** The edit button of a row (lines 790-798). *)
Definition row_offers_edit (q : Quote) : bool := status_eqb (status q) draft.

(** A click on a status button of a row: nothing happens when the button is
    not rendered.  The prompt of the reject button gives [reason ||
    undefined]. *)
Definition click_row (t : Trigger) (q : Quote) (reason : option string)
    (w : World) (p : Page) : World * Page :=
  if row_offers t q (permissions (store w)) then
    handleStatusChange (quote_id q) (requested t)
      (match t with
       | RejectQuote =>
           match reason with
           | Some r => if Js.truthy_str r then Some r else None
           | None => None
           end
       | _ => None
       end)
      w p
  else (w, p).

End QuotesPage.

(** ** [components/quotes/QuoteViewModal.tsx] *)

Module QuoteViewModal.

Import AuthStore QuotesPage.

(** The permission checks of lines 93-98, on the quote shown and the [user]
    and [permissions] of the store. *)
Definition canSubmitForApproval (q : Quote) (u : option User) : bool :=
  status_eqb (status q) draft
  && (Js.opt_str_eq (id_of u) (created_by q)
      || negb (Js.opt_str_eq (role_of u) "agent")).

Definition canApprove (q : Quote)
    (perms : option Supabase.PermissionsValue) : option bool :=
  Js.and_ (capability_of can_approve_quotes perms)
          (status_eqb (status q) pending_approval).

Definition canReject (q : Quote)
    (perms : option Supabase.PermissionsValue) : option bool :=
  Js.and_ (capability_of can_approve_quotes perms)
          (status_eqb (status q) pending_approval).

Definition canSend (q : Quote)
    (perms : option Supabase.PermissionsValue) : option bool :=
  Js.and_ (capability_of can_send_quotes perms)
          (status_eqb (status q) approved).

Definition canEdit (q : Quote) (u : option User) : bool :=
  status_eqb (status q) draft
  && (Js.opt_str_eq (id_of u) (created_by q)
      || negb (Js.opt_str_eq (role_of u) "agent")).

Definition canDelete (q : Quote) (u : option User) : bool :=
  Js.opt_str_eq (id_of u) (created_by q)
  || Js.opt_str_eq (role_of u) "admin".

(** The condition under which the button of a trigger is rendered. *)
Definition offers (t : Trigger) (q : Quote) (s : AuthState) : bool :=
  match t with
  | SubmitForApproval => canSubmitForApproval q (user s)
  | ApproveQuote => Js.truthy (canApprove q (permissions s))
  | RejectQuote => Js.truthy (canReject q (permissions s))
  | MarkSent => Js.truthy (canSend q (permissions s))
  end.

End QuoteViewModal.

(** ** The transition table of the specification

    The lifecycle as the specification words it, to be compared with the
    conditions the pages compute.  The actor of the specification is an
    identity together with the role of its membership in the active
    organization; the capability set of the actor is derived from that
    role by the table of section 4.1. *)

Module Lifecycle.

Import QuotesPage.

Record Actor := mkActor {
  actor_id : string;
  actor_role : string
}.

(** The table of capabilities: one column per role, and the column of the
    agent for every other value. *)
Definition capabilitiesFor (role : string) : Permission :=
  if Js.str_eq role "admin" then
    {| can_create_quotes := true;
       can_approve_quotes := true;
       can_send_quotes := true;
       can_manage_products := true;
       can_manage_clients := true;
       can_view_dashboard := true;
       can_manage_users := true;
       can_view_audit_logs := true |}
  else if Js.str_eq role "manager" then
    {| can_create_quotes := true;
       can_approve_quotes := true;
       can_send_quotes := true;
       can_manage_products := true;
       can_manage_clients := true;
       can_view_dashboard := true;
       can_manage_users := false;
       can_view_audit_logs := true |}
  else
    {| can_create_quotes := true;
       can_approve_quotes := false;
       can_send_quotes := false;
       can_manage_products := false;
       can_manage_clients := false;
       can_view_dashboard := true;
       can_manage_users := false;
       can_view_audit_logs := false |}.

(** The column [from] of the transition table. *)
Definition valid_from (t : Trigger) : QuoteStatus :=
  match t with
  | SubmitForApproval => draft
  | ApproveQuote | RejectQuote => pending_approval
  | MarkSent => approved
  end.

(** The column [to] of the transition table. *)
Definition target (t : Trigger) : QuoteStatus :=
  match t with
  | SubmitForApproval => pending_approval
  | ApproveQuote => approved
  | RejectQuote => rejected
  | MarkSent => sent
  end.

(** The column [precondition]: the creator or an actor whose role is not
    agent for a submission, the approve capability for an approval or a
    rejection, the send capability for marking sent. *)
Definition precondition (t : Trigger) (q : Quote) (a : Actor) : bool :=
  match t with
  | SubmitForApproval =>
      Js.str_eq (created_by q) (actor_id a)
      || negb (Js.str_eq (actor_role a) "agent")
  | ApproveQuote | RejectQuote =>
      can_approve_quotes (capabilitiesFor (actor_role a))
  | MarkSent => can_send_quotes (capabilitiesFor (actor_role a))
  end.

End Lifecycle.

(** ** [App.tsx]: which screen is shown *)

Module App.

Import AuthStore.

Inductive Screen :=
  | Spinner
  | SetupPage
  | AuthForms
  | OrganizationSelector
  | MainApp.

(** The chain of early returns of [App] (lines 28-93), on the store and on
    [isSupabaseConfigured()]. *)
Definition render (configured : bool) (s : AuthState) : Screen :=
  if loading s then Spinner
  else if negb configured then SetupPage
  else
    match user s with
    | None => AuthForms
    | Some _ =>
        if (1 <? length (userOrganizations s))%nat
           && negb (bool_decide (is_Some (organization s)))
        then OrganizationSelector
        else if (length (userOrganizations s) =? 0)%nat
        then OrganizationSelector
        else MainApp
    end.

End App.

(** ** [stores/authStore.ts], continued *)

Module AuthStoreMore.

Import Backend AuthStore.

(** The listener that [initialize] registers with [onAuthStateChange]
    (lines 445-461); [session_user] is [session?.user?.id]. *)
Definition onAuthStateChange (event : string) (session_user : option string)
  : M unit :=
  do! log in
  match session_user with
  | Some id =>
      if Js.str_eq event "SIGNED_IN" then fetchUserData id
      else if Js.str_eq event "SIGNED_OUT" then
        do! log in
        do! modify (fun w =>
                      with_localStorage
                        (base.delete currentOrganizationId (localStorage w))
                        w) in
        modify (fun w => with_store (cleared (store w)) w)
      else ret tt
  | None =>
      if Js.str_eq event "SIGNED_OUT" then
        do! log in
        do! modify (fun w =>
                      with_localStorage
                        (base.delete currentOrganizationId (localStorage w))
                        w) in
        modify (fun w => with_store (cleared (store w)) w)
      else ret tt
  end.

Definition with_organizations (os : list Organization) (b : Backend.t)
  : Backend.t :=
  Backend.mk (users b) os (organization_users b) (Backend.quotes b)
    (session b) (signInWithPassword b) (signOut_response b) (fault b).

Definition with_organization_users (ms : list OrganizationUser)
    (b : Backend.t) : Backend.t :=
  Backend.mk (users b) (organizations b) ms (Backend.quotes b) (session b)
    (signInWithPassword b) (signOut_response b) (fault b).

(** [set({ userOrganizations: orgsData || [] })] *)
Definition set_userOrganizations (orgs : list UserOrganization) : M unit :=
  modify (fun w =>
            with_store
              {| user := user (store w);
                 organization := organization (store w);
                 currentOrgMembership := currentOrgMembership (store w);
                 userOrganizations := orgs;
                 permissions := permissions (store w);
                 loading := loading (store w) |}
              w).

(** [fetchUserOrganizations] (lines 403-416). *)
Definition fetchUserOrganizations : M unit :=
  let! configured := get supabase in
  let! u := get (fun w => user (store w)) in
  match u with
  | Some u =>
      if configured && Js.truthy_str (user_id u) then
        try_catch
          (let! b := get backend in
           let! orgsData := orThrow (rpc_user_organizations b (user_id u)) in
           set_userOrganizations orgsData)
          (fun _ => log)
      else ret tt
  | None => ret tt
  end.

(** The row that [from('organizations').insert({ name, settings })] creates;
    the id and the creation time are the defaults of the table
    ([gen_random_uuid()], [now()]). *)
Definition new_organization (id name : string) (clock : Timestamp)
  : Organization :=
  {| org_id := id;
     org_name := name;
     org_created_at := clock;
     default_tax_rate := 0;
     default_payment_terms := "Net 30 Days";
     default_terms_conditions := "";
     default_quote_expiry_days := 30 |}.

(** The row that [from('organization_users').insert({ user_id,
    organization_id, role: 'admin', status: 'active' })] creates. *)
Definition new_membership (id userId organizationId : string)
    (clock : Timestamp) : OrganizationUser :=
  {| ou_id := id;
     ou_user_id := userId;
     ou_organization_id := organizationId;
     ou_role := "admin";
     ou_status := "active";
     ou_joined_at := clock;
     ou_created_at := clock |}.

(** [insert(...).select().single()] on [organizations].  [refused] is the
    error of a request that fails in transit or is refused; [id] is the
    uuid the table generates, and a primary key already there is a
    violation (23505). *)
Definition insert_organization (refused : option Err) (id name : string)
  : M Organization :=
  match refused with
  | Some e => throw e
  | None =>
      let! b := get backend in
      if existsb (fun o => Js.str_eq (org_id o) id) (organizations b)
      then throw (PostgrestError "23505")
      else
        let! clock := get now in
        do! modify (fun w =>
                      with_backend
                        (with_organizations
                           (organizations (backend w)
                            ++ [new_organization id name clock])
                           (backend w))
                        w) in
        ret (new_organization id name clock)
  end.

(** [insert(...)] on [organization_users], with the constraints of the
    table: the references to [users] and [organizations] (23503), the
    primary key and the uniqueness of the pair of user and organization
    (23505). *)
Definition insert_membership (refused : option Err)
    (id userId organizationId : string) : M unit :=
  match refused with
  | Some e => throw e
  | None =>
      let! b := get backend in
      if negb (existsb (fun u => Js.str_eq (user_id u) userId) (users b))
         || negb (existsb (fun o => Js.str_eq (org_id o) organizationId)
                          (organizations b))
      then throw (PostgrestError "23503")
      else if existsb (fun m => Js.str_eq (ou_id m) id
                                || (Js.str_eq (ou_user_id m) userId
                                    && Js.str_eq (ou_organization_id m)
                                                 organizationId))
                      (organization_users b)
      then throw (PostgrestError "23505")
      else
        let! clock := get now in
        modify (fun w =>
                  with_backend
                    (with_organization_users
                       (organization_users (backend w)
                        ++ [new_membership id userId organizationId clock])
                       (backend w))
                    w)
  end.

(** [createOrganization(name)] (lines 357-401).  The two inserts take the
    error of their request, if any, and the uuid the table generates.  The
    value is [orgData], or [undefined] when the function returns at once. *)
Definition createOrganization (name : string)
    (organization_refused membership_refused : option Err)
    (organization_uuid membership_uuid : string) : M (option Organization) :=
  let! configured := get supabase in
  let! u := get (fun w => user (store w)) in
  match u with
  | Some u =>
      if configured && Js.truthy_str (user_id u) then
        try_catch
          (let! orgData :=
             insert_organization organization_refused organization_uuid
                                 name in
           do! insert_membership membership_refused membership_uuid
                                 (user_id u) (org_id orgData) in
           do! fetchUserOrganizations in
           do! switchOrganization (org_id orgData) in
           ret (Some orgData))
          (fun error => do! log in throw error)
      else ret None
  | None => ret None
  end.

End AuthStoreMore.

(** ** [components/layout/Sidebar.tsx] and the guards of the pages *)

Module Sidebar.

Import AuthStore QuotesPage.

(** An entry of [navigation]; [permission] is the capability its key
    names. *)
Record NavItem := mkNavItem {
  name : string;
  href : string;
  permission : Permission -> bool
}.

Definition navigation : list NavItem :=
  [ mkNavItem "Dashboard" "/dashboard" can_view_dashboard;
    mkNavItem "Quotes" "/quotes" can_create_quotes;
    mkNavItem "Products" "/products" can_manage_products;
    mkNavItem "Clients" "/clients" can_manage_clients;
    mkNavItem "Analytics" "/analytics" can_view_audit_logs;
    mkNavItem "Team" "/team" can_manage_users ].

(** [navigation.filter(item => permissions?.[item.permission])]; every
    entry has a permission. *)
Definition filteredNavigation (perms : option Supabase.PermissionsValue)
  : list NavItem :=
  List.filter (fun item => Js.truthy (capability_of (permission item) perms))
              navigation.

(** [currentOrgMembership?.role === 'admin'] *)
Definition showSettings (m : option OrganizationUser) : bool :=
  Js.opt_str_eq (option_map ou_role m) "admin".

(** The guard of the Team page: [!permissions?.can_manage_users] shows the
    notice instead of the page. *)
Definition team_accessible (perms : option Supabase.PermissionsValue)
  : bool :=
  Js.truthy (capability_of can_manage_users perms).

(** The guard of the Settings page: [user?.role !== 'admin'] shows the
    notice instead of the page. *)
Definition settings_accessible (u : option User) : bool :=
  Js.opt_str_eq (role_of u) "admin".

End Sidebar.

(** ** [pages/Quotes.tsx], continued *)

Module QuotesPageMore.

Import Backend AuthStore QuotesPage.

(** [from('quotes').delete().eq('id', quoteId)] on the table. *)
Definition delete_quotes (quoteId : string) (table : list Quote)
  : list Quote :=
  List.filter (fun q => negb (Js.str_eq (quote_id q) quoteId)) table.

(** [handleDelete(quoteId)] (lines 323-338).  [confirmed] is the answer to
    the confirmation dialog and [refused] the error of the request, if
    any. *)
Definition handleDelete (confirmed : bool) (refused : option Err)
    (quoteId : string) (w : World) (p : Page) : World * Page :=
  if negb (supabase w) || negb confirmed then (w, p)
  else
    match refused with
    | Some _ => (w, p)
    | None =>
        let w' :=
          with_backend
            (with_quotes (delete_quotes quoteId (Backend.quotes (backend w)))
                         (backend w))
            w in
        let p' := fetchData w' p in
        (w', mkPage (quotes p') None (page_loading p'))
    end.

End QuotesPageMore.

(** ** The items of the quote form ([pages/Quotes.tsx], lines 144-170)

    The numbers of the form are only stored and copied here, so their type
    is left open. *)

Section QuoteItems.

Context {number : Type} (zero one : number).

(** [QuoteItemFormData] *)
Record QuoteItemFormData := mkQuoteItemFormData {
  item_product_id : string;
  quantity : number;
  unit_price : number;
  discount_percent : number
}.

(** The columns of a product that the form reads. *)
Record Product := mkProduct {
  product_id : string;
  price : number
}.

(** The pair of [field] and [value] of [updateQuoteItem]. *)
Inductive FieldValue :=
  | Field_product_id (value : string)
  | Field_quantity (value : number)
  | Field_unit_price (value : number)
  | Field_discount_percent (value : number).

Definition addQuoteItem (quoteItems : list QuoteItemFormData)
  : list QuoteItemFormData :=
  quoteItems ++ [mkQuoteItemFormData "" one zero zero].

(** [l.filter((_, i) => keep(i))], the index counted from [start]. *)
Fixpoint filter_index {A} (keep : nat -> bool) (start : nat) (l : list A)
  : list A :=
  match l with
  | [] => []
  | x :: l' =>
      if keep start then x :: filter_index keep (S start) l'
      else filter_index keep (S start) l'
  end.

(** [quoteItems.filter((_, i) => i !== index)] *)
Definition removeQuoteItem (index : nat)
    (quoteItems : list QuoteItemFormData) : list QuoteItemFormData :=
  filter_index (fun i => negb (Nat.eqb i index)) 0%nat quoteItems.

(** [{ ...item, [field]: value }] *)
Definition with_field (item : QuoteItemFormData) (fv : FieldValue)
  : QuoteItemFormData :=
  match fv with
  | Field_product_id v =>
      mkQuoteItemFormData v (quantity item) (unit_price item)
                          (discount_percent item)
  | Field_quantity v =>
      mkQuoteItemFormData (item_product_id item) v (unit_price item)
                          (discount_percent item)
  | Field_unit_price v =>
      mkQuoteItemFormData (item_product_id item) (quantity item) v
                          (discount_percent item)
  | Field_discount_percent v =>
      mkQuoteItemFormData (item_product_id item) (quantity item)
                          (unit_price item) v
  end.

(** The price filled in when a product is selected: the price of the
    product found in the catalogue, if there is one. *)
Definition autofill (products : list Product) (fv : FieldValue)
    (item : QuoteItemFormData) : QuoteItemFormData :=
  match fv with
  | Field_product_id v =>
      match List.find (fun p => Js.str_eq (product_id p) v) products with
      | Some product =>
          mkQuoteItemFormData (item_product_id item) (quantity item)
                              (price product) (discount_percent item)
      | None => item
      end
  | _ => item
  end.

(** [updateQuoteItem(index, field, value)] for an index of the array, which
    is what the form passes.  An index outside the array would make
    JavaScript extend the array with an item that has only the one field;
    that array is outside this model and the result is [None]. *)
Definition updateQuoteItem (products : list Product) (index : nat)
    (fv : FieldValue) (quoteItems : list QuoteItemFormData)
  : option (list QuoteItemFormData) :=
  match quoteItems !! index with
  | Some item =>
      Some (<[index := autofill products fv (with_field item fv)]> quoteItems)
  | None => None
  end.

End QuoteItems.

(** ** The SQL functions of the migrations *)

Module Sql.

(** The [CASE] of [user_has_role_in_org] that ranks a role. *)
Definition role_hierarchy (r : string) : Z :=
  if Js.str_eq r "admin" then 3
  else if Js.str_eq r "manager" then 2
  else if Js.str_eq r "agent" then 1
  else 0.

(** [user_has_role_in_org(user_uuid, org_uuid, required_role)]: the role of
    the first active membership row of the user in the organization is
    ranked against the required role; no such row is [false]. *)
Definition user_has_role_in_org (b : Backend.t)
    (user_uuid org_uuid required_role : string) : bool :=
  match List.find
          (fun m => Js.str_eq (ou_user_id m) user_uuid
                    && Js.str_eq (ou_organization_id m) org_uuid
                    && Js.str_eq (ou_status m) "active")
          (Backend.organization_users b)
  with
  | Some m => role_hierarchy required_role <=? role_hierarchy (ou_role m)
  | None => false
  end.

End Sql.

(** ** Sample data

    One organization with two agents, a manager and an administrator, who is
    also an agent of a second organization; one quote. *)

Definition sample_quote (st : QuoteStatus) (creator : string) : Quote :=
  {| quote_id := "q-1";
     quote_number := "Q-2025-001";
     client_id := "c-1";
     status := st;
     subtotal := 10000;
     discount_amount := 500;
     tax_amount := 950;
     total_amount := 10450;
     valid_until := "2025-12-31";
     terms_conditions := None;
     notes := Some "call back on Monday";
     created_by := creator;
     approved_by := None;
     sent_at := None;
     quote_organization_id := "org-a";
     quote_created_at := 1000;
     quote_updated_at := 1000 |}.

Definition sample_user (id r : string) : User :=
  {| user_id := id;
     email := id ++ "@example.com";
     full_name := id;
     role := r;
     is_active := true;
     last_login := None;
     user_created_at := 100 |}.

Definition sample_org (id : string) : Organization :=
  {| org_id := id;
     org_name := id;
     org_created_at := 50;
     default_tax_rate := 0;
     default_payment_terms := "Net 30 Days";
     default_terms_conditions := "";
     default_quote_expiry_days := 30 |}.

Definition sample_membership (uid oid r st : string) (joined : Timestamp)
  : OrganizationUser :=
  {| ou_id := uid ++ "/" ++ oid;
     ou_user_id := uid;
     ou_organization_id := oid;
     ou_role := r;
     ou_status := st;
     ou_joined_at := joined;
     ou_created_at := joined |}.

Definition sample_backend (signed_in : option string) (q : Quote)
  : Backend.t :=
  {| Backend.users :=
       [ sample_user "u-agent" "agent"; sample_user "u-other" "agent";
         sample_user "u-manager" "manager"; sample_user "u-admin" "admin" ];
     Backend.organizations := [ sample_org "org-a"; sample_org "org-b" ];
     Backend.organization_users :=
       [ sample_membership "u-agent" "org-a" "agent" "active" 110;
         sample_membership "u-other" "org-a" "agent" "active" 120;
         sample_membership "u-manager" "org-a" "manager" "active" 130;
         sample_membership "u-admin" "org-a" "admin" "active" 140;
         sample_membership "u-admin" "org-b" "agent" "active" 150 ];
     Backend.quotes := [ q ];
     Backend.session := signed_in;
     Backend.signInWithPassword :=
       fun e _ =>
         if Js.str_eq e "u-admin@example.com"
         then Backend.mkAuthResponse (Some "u-admin") None
         else Backend.mkAuthResponse None
                (Some (Backend.AuthError "Invalid login credentials"));
     Backend.signOut_response := Backend.SignedOut;
     Backend.fault := fun _ => None |}.

(** The world of a user signed in to an organization with a membership. *)
Definition sample_world (u : User) (m : OrganizationUser) (q : Quote)
  : AuthStore.World :=
  {| AuthStore.supabase := true;
     AuthStore.backend := sample_backend (Some (user_id u)) q;
     AuthStore.store :=
       {| AuthStore.user := Some u;
          AuthStore.organization := Some (sample_org (ou_organization_id m));
          AuthStore.currentOrgMembership := Some m;
          AuthStore.userOrganizations :=
            Backend.get_user_organizations
              (sample_backend (Some (user_id u)) q) (user_id u);
          AuthStore.permissions := Some (Supabase.getPermissions (ou_role m));
          AuthStore.loading := false |};
     AuthStore.localStorage :=
       {[ AuthStore.currentOrganizationId := ou_organization_id m ]};
     AuthStore.now := 2000 |}.

Definition sample_page (q : Quote) : QuotesPage.Page :=
  {| QuotesPage.quotes := [ q ];
     QuotesPage.viewingQuote := None;
     QuotesPage.page_loading := false |}.

(** The page in its initial state, before the first [fetchData] has put
    any quote in the list. *)
Definition unloaded_page : QuotesPage.Page :=
  {| QuotesPage.quotes := [];
     QuotesPage.viewingQuote := None;
     QuotesPage.page_loading := true |}.

(** A quote as it was before its notes were written. *)
Definition without_notes (q : Quote) : Quote :=
  {| quote_id := quote_id q;
     quote_number := quote_number q;
     client_id := client_id q;
     status := status q;
     subtotal := subtotal q;
     discount_amount := discount_amount q;
     tax_amount := tax_amount q;
     total_amount := total_amount q;
     valid_until := valid_until q;
     terms_conditions := terms_conditions q;
     notes := None;
     created_by := created_by q;
     approved_by := approved_by q;
     sent_at := sent_at q;
     quote_organization_id := quote_organization_id q;
     quote_created_at := quote_created_at q;
     quote_updated_at := quote_updated_at q |}.

(** A page that was loaded before the notes of the quote were written: the
    copy in its list has none. *)
Definition stale_page (q : Quote) : QuotesPage.Page :=
  sample_page (without_notes q).

(** An agent of the organization who did not create the sample quote. *)
Definition other_agent : User := sample_user "u-other" "agent".

Definition other_agent_world (q : Quote) : AuthStore.World :=
  sample_world other_agent
    (sample_membership "u-other" "org-a" "agent" "active" 120) q.

Definition manager_world (q : Quote) : AuthStore.World :=
  sample_world (sample_user "u-manager" "manager")
    (sample_membership "u-manager" "org-a" "manager" "active" 130) q.

(** The columns of a quote that no transition is meant to touch. *)
Definition same_body (q q' : Quote) : Prop :=
  quote_id q' = quote_id q
  /\ quote_number q' = quote_number q
  /\ client_id q' = client_id q
  /\ subtotal q' = subtotal q
  /\ discount_amount q' = discount_amount q
  /\ tax_amount q' = tax_amount q
  /\ total_amount q' = total_amount q
  /\ valid_until q' = valid_until q
  /\ terms_conditions q' = terms_conditions q
  /\ created_by q' = created_by q
  /\ quote_organization_id q' = quote_organization_id q
  /\ quote_created_at q' = quote_created_at q.

(** The table of quotes after a call of [handleStatusChange]. *)
Definition quotes_after (quoteId : string) (newStatus : QuoteStatus)
    (reason : option string) (w : AuthStore.World) (p : QuotesPage.Page)
  : list Quote :=
  Backend.quotes
    (AuthStore.backend
       (fst (QuotesPage.handleStatusChange quoteId newStatus reason w p))).

(** A world without a backend client. *)
Definition unconfigured_world (q : Quote) : AuthStore.World :=
  {| AuthStore.supabase := false;
     AuthStore.backend := sample_backend None q;
     AuthStore.store := AuthStore.initial;
     AuthStore.localStorage := ∅;
     AuthStore.now := 2000 |}.

(** The world once an organization is activated: the choice is persisted
    and the store holds the organization, the membership and the
    capabilities of the role of the membership. *)
Definition activated (organizationId : string) (o : Organization)
    (m : OrganizationUser) (w : AuthStore.World) : AuthStore.World :=
  AuthStore.mkWorld (AuthStore.supabase w) (AuthStore.backend w)
    {| AuthStore.user := AuthStore.user (AuthStore.store w);
       AuthStore.organization := Some o;
       AuthStore.currentOrgMembership := Some m;
       AuthStore.userOrganizations :=
         AuthStore.userOrganizations (AuthStore.store w);
       AuthStore.permissions := Some (Supabase.getPermissions (ou_role m));
       AuthStore.loading := AuthStore.loading (AuthStore.store w) |}
    (<[AuthStore.currentOrganizationId := organizationId]>
       (AuthStore.localStorage w))
    (AuthStore.now w).

(** The world once the identity and its organizations are in the store. *)
Definition identified (u : User) (orgs : list UserOrganization)
    (w : AuthStore.World) : AuthStore.World :=
  AuthStore.mkWorld (AuthStore.supabase w) (AuthStore.backend w)
    {| AuthStore.user := Some u;
       AuthStore.organization := AuthStore.organization (AuthStore.store w);
       AuthStore.currentOrgMembership :=
         AuthStore.currentOrgMembership (AuthStore.store w);
       AuthStore.userOrganizations := orgs;
       AuthStore.permissions := AuthStore.permissions (AuthStore.store w);
       AuthStore.loading := AuthStore.loading (AuthStore.store w) |}
    (AuthStore.localStorage w)
    (AuthStore.now w).

(** The world once the store has stopped loading. *)
Definition loaded (w : AuthStore.World) : AuthStore.World :=
  AuthStore.mkWorld (AuthStore.supabase w) (AuthStore.backend w)
    {| AuthStore.user := AuthStore.user (AuthStore.store w);
       AuthStore.organization := AuthStore.organization (AuthStore.store w);
       AuthStore.currentOrgMembership :=
         AuthStore.currentOrgMembership (AuthStore.store w);
       AuthStore.userOrganizations :=
         AuthStore.userOrganizations (AuthStore.store w);
       AuthStore.permissions := AuthStore.permissions (AuthStore.store w);
       AuthStore.loading := false |}
    (AuthStore.localStorage w)
    (AuthStore.now w).

(** The administrator of the sample, signed in to the first organization. *)
Definition admin_world : AuthStore.World :=
  sample_world (sample_user "u-admin" "admin")
    (sample_membership "u-admin" "org-a" "admin" "active" 140)
    (sample_quote draft "u-agent").

(** The world after a sign-out: the remote session is gone when a client
    exists and the backend revoked it; the store is cleared and the
    persisted choice removed in every case. *)
Definition signed_out (w : AuthStore.World) : AuthStore.World :=
  AuthStore.mkWorld (AuthStore.supabase w)
    (if AuthStore.supabase w then
       match Backend.signOut_response (AuthStore.backend w) with
       | Backend.SignedOut =>
           Backend.with_session None (AuthStore.backend w)
       | _ => AuthStore.backend w
       end
     else AuthStore.backend w)
    (AuthStore.cleared (AuthStore.store w))
    (base.delete AuthStore.currentOrganizationId (AuthStore.localStorage w))
    (AuthStore.now w).

(** The world when [signIn] calls [fetchUserData]: the remote session of
    the identity is open and its last login is stamped. *)
Definition authenticated (id : string) (w : AuthStore.World)
  : AuthStore.World :=
  snd (AuthStore.update_last_login id
         (AuthStore.with_backend
            (Backend.with_session (Some id) (AuthStore.backend w)) w)).

(** The sample backend with one kind of request failing. *)
Definition failing_backend (down : Backend.Query -> bool) : Backend.t :=
  Backend.mk
    (Backend.users (sample_backend None (sample_quote draft "u-agent")))
    (Backend.organizations
       (sample_backend None (sample_quote draft "u-agent")))
    (Backend.organization_users
       (sample_backend None (sample_quote draft "u-agent")))
    (Backend.quotes (sample_backend None (sample_quote draft "u-agent")))
    None
    (Backend.signInWithPassword
       (sample_backend None (sample_quote draft "u-agent")))
    Backend.SignedOut
    (fun q => if down q then Some (Backend.PostgrestError "57014") else None).

(** A freshly started process in front of such a backend. *)
Definition fresh_world (b : Backend.t) : AuthStore.World :=
  {| AuthStore.supabase := true;
     AuthStore.backend := b;
     AuthStore.store := AuthStore.initial;
     AuthStore.localStorage := ∅;
     AuthStore.now := 3000 |}.

Definition organizations_rpc_down (q : Backend.Query) : bool :=
  match q with
  | Backend.rpc_get_user_organizations => true
  | _ => false
  end.

Definition organizations_table_down (q : Backend.Query) : bool :=
  match q with
  | Backend.organizations_select => true
  | _ => false
  end.

(** A backend in working order for an identity: every request is served,
    the remote session of the identity is open, its profile exists, and the
    tables satisfy their constraints (primary keys, the uniqueness of a
    membership per identity and organization, the reference from a
    membership to its organization, ids that are uuids and so not empty). *)
Record healthy (b : Backend.t) (uid : string) : Prop := mkHealthy {
  healthy_served : forall q, Backend.fault b q = None;
  healthy_session : Backend.session b = Some uid;
  healthy_profile : exists u, In u (Backend.users b) /\ user_id u = uid;
  healthy_users_pkey : List.NoDup (map user_id (Backend.users b));
  healthy_organizations_pkey :
    List.NoDup (map org_id (Backend.organizations b));
  healthy_membership_unique :
    List.NoDup (map (fun m => (ou_user_id m, ou_organization_id m))
                    (Backend.organization_users b));
  healthy_membership_fkey :
    forall m, In m (Backend.organization_users b) ->
              exists o, In o (Backend.organizations b)
                        /\ org_id o = ou_organization_id m;
  healthy_uuid :
    forall o, In o (Backend.organizations b) -> org_id o <> ""
}.

(** The identity holds an active membership in an organization. *)
Definition active_member (b : Backend.t) (uid organizationId : string)
  : Prop :=
  exists m, In m (Backend.organization_users b)
            /\ ou_user_id m = uid
            /\ ou_organization_id m = organizationId
            /\ ou_status m = "active".

(** The sample backend after the administrator left the second
    organization: the membership is there, but no longer active. *)
Definition departed_backend : Backend.t :=
  Backend.mk
    (Backend.users (sample_backend None (sample_quote draft "u-agent")))
    (Backend.organizations
       (sample_backend None (sample_quote draft "u-agent")))
    [ sample_membership "u-agent" "org-a" "agent" "active" 110;
      sample_membership "u-admin" "org-a" "admin" "active" 140;
      sample_membership "u-admin" "org-b" "agent" "inactive" 150 ]
    (Backend.quotes (sample_backend None (sample_quote draft "u-agent")))
    (Some "u-admin")
    (Backend.signInWithPassword
       (sample_backend None (sample_quote draft "u-agent")))
    Backend.SignedOut
    (fun _ => None).

(** The world after the administrator switched to the second
    organization. *)
Definition switched_world : AuthStore.World :=
  snd (AuthStore.switchOrganization "org-b" admin_world).

(** The world once the list of organizations is replaced. *)
Definition relisted (orgs : list UserOrganization) (w : AuthStore.World)
  : AuthStore.World :=
  AuthStore.mkWorld (AuthStore.supabase w) (AuthStore.backend w)
    {| AuthStore.user := AuthStore.user (AuthStore.store w);
       AuthStore.organization := AuthStore.organization (AuthStore.store w);
       AuthStore.currentOrgMembership :=
         AuthStore.currentOrgMembership (AuthStore.store w);
       AuthStore.userOrganizations := orgs;
       AuthStore.permissions := AuthStore.permissions (AuthStore.store w);
       AuthStore.loading := AuthStore.loading (AuthStore.store w) |}
    (AuthStore.localStorage w)
    (AuthStore.now w).

(** The backend once an organization and the membership of its creator are
    inserted. *)
Definition with_created (o : Organization) (m : OrganizationUser)
    (b : Backend.t) : Backend.t :=
  AuthStoreMore.with_organization_users
    (Backend.organization_users b ++ [m])
    (AuthStoreMore.with_organizations (Backend.organizations b ++ [o]) b).

(** * Properties *)

(** ** Strings and statuses *)

Lemma str_eq_true (a b : string) : Js.str_eq a b = true <-> a = b.
Proof. unfold Js.str_eq. apply String.eqb_eq. Qed.

Lemma str_eq_false (a b : string) : Js.str_eq a b = false <-> a <> b.
Proof. unfold Js.str_eq. apply String.eqb_neq. Qed.

Lemma str_eq_refl (a : string) : Js.str_eq a a = true.
Proof. by apply str_eq_true. Qed.

Lemma truthy_str_true (s : string) : Js.truthy_str s = true <-> s <> "".
Proof.
  unfold Js.truthy_str. rewrite negb_true_iff. apply str_eq_false.
Qed.

Lemma status_eqb_true (a b : QuoteStatus) : status_eqb a b = true <-> a = b.
Proof. destruct a, b; simpl; split; congruence. Qed.

Lemma status_eqb_false (a b : QuoteStatus) : status_eqb a b = false <-> a <> b.
Proof. destruct a, b; simpl; split; congruence. Qed.

(** ** The capability table *)

Lemma getPermissions_admin :
  Supabase.getPermissions "admin" = Supabase.Capabilities Supabase.admin_permissions.
Proof. reflexivity. Qed.

Lemma getPermissions_manager :
  Supabase.getPermissions "manager"
  = Supabase.Capabilities Supabase.manager_permissions.
Proof. reflexivity. Qed.

Lemma getPermissions_agent :
  Supabase.getPermissions "agent" = Supabase.Capabilities Supabase.agent_permissions.
Proof. reflexivity. Qed.

(** A role that is neither one of the three nor a property name of
    [Object.prototype] gets the capabilities of an agent. *)
Lemma getPermissions_fallback (role : string) :
  role <> "admin" -> role <> "manager" -> role <> "agent" ->
  Supabase.inherited role = false ->
  Supabase.getPermissions role = Supabase.Capabilities Supabase.agent_permissions.
Proof.
  intros Ha Hm Hg Hi. unfold Supabase.getPermissions, Supabase.permissions.
  rewrite !lookup_insert_ne by congruence.
  rewrite lookup_empty. by rewrite Hi.
Qed.

(** The value returned is always one of the three capability objects or a
    member of the prototype found under the role itself. *)
Lemma getPermissions_cases (role : string) :
  Supabase.getPermissions role = Supabase.Capabilities Supabase.admin_permissions
  \/ Supabase.getPermissions role
     = Supabase.Capabilities Supabase.manager_permissions
  \/ Supabase.getPermissions role
     = Supabase.Capabilities Supabase.agent_permissions
  \/ (Supabase.getPermissions role = Supabase.PrototypeMember role
      /\ Supabase.inherited role = true).
Proof.
  unfold Supabase.getPermissions, Supabase.permissions.
  destruct (decide (role = "admin")) as [->|Ha]; [by left|].
  destruct (decide (role = "manager")) as [->|Hm]; [by right; left|].
  destruct (decide (role = "agent")) as [->|Hg]; [by right; right; left|].
  rewrite !lookup_insert_ne by congruence. rewrite lookup_empty.
  destruct (Supabase.inherited role); [by right; right; right|].
  by right; right; left.
Qed.

(** C6 (evaluation at the failing input): for the role ["constructor"] the
    lookup finds the constructor inherited from the prototype, which is
    truthy, so the agent object is not substituted; the value returned is
    not the agent capability set, and reading [can_create_quotes] or
    [can_view_dashboard] from it gives [undefined] where the agent set has
    [true]. *)
Theorem getPermissions_constructor :
  Supabase.getPermissions "constructor" = Supabase.PrototypeMember "constructor"
  /\ Supabase.getPermissions "constructor"
     <> Supabase.Capabilities Supabase.agent_permissions
  /\ Supabase.capability can_create_quotes
       (Supabase.getPermissions "constructor") = None
  /\ Supabase.capability can_view_dashboard
       (Supabase.getPermissions "constructor") = None
  /\ can_create_quotes Supabase.agent_permissions = true
  /\ can_view_dashboard Supabase.agent_permissions = true.
Proof. repeat split; try reflexivity. discriminate. Qed.

(** ** The authorizer *)

(** C3: for the actions approve and reject, a quote [q], an actor and the
    capability set [caps] derived for the actor, the authorizer answers
    [true] exactly when [caps] grants the approve capability and the quote
    is pending approval; in every other case it answers [false]. *)
Theorem canPerformQuoteAction_approve_reject
    (action : Supabase.QuoteAction) (q : Quote) (userRole userId : string)
    (caps : Permission) :
  action = Supabase.Approve \/ action = Supabase.Reject ->
  Supabase.getPermissions userRole = Supabase.Capabilities caps ->
  (Supabase.canPerformQuoteAction action q userRole userId = Some true
   <-> can_approve_quotes caps = true /\ status q = pending_approval)
  /\ (~ (can_approve_quotes caps = true /\ status q = pending_approval)
      -> Supabase.canPerformQuoteAction action q userRole userId = Some false).
Proof.
  intros Hact Hcaps.
  assert (Supabase.canPerformQuoteAction action q userRole userId
          = Some (can_approve_quotes caps
                  && status_eqb (status q) pending_approval)) as ->.
  { destruct Hact as [-> | ->]; simpl; rewrite Hcaps; simpl;
      by destruct (can_approve_quotes caps). }
  split.
  - split.
    + intros [= H]. apply andb_true_iff in H as [H1 H2].
      by apply status_eqb_true in H2.
    + intros [H1 H2]. rewrite H1. f_equal. by apply status_eqb_true.
  - intros Hn. f_equal. apply not_true_is_false. intros H.
    apply andb_true_iff in H as [H1 H2]. apply Hn. split; [done|].
    by apply status_eqb_true.
Qed.

Lemma canPerformQuoteAction_approve_reject_witness :
  (Supabase.canPerformQuoteAction Supabase.Approve
     (sample_quote pending_approval "u-agent") "manager" "u-manager"
   = Some true
   <-> can_approve_quotes Supabase.manager_permissions = true
       /\ status (sample_quote pending_approval "u-agent") = pending_approval)
  /\ (~ (can_approve_quotes Supabase.manager_permissions = true
         /\ status (sample_quote pending_approval "u-agent")
            = pending_approval)
      -> Supabase.canPerformQuoteAction Supabase.Approve
           (sample_quote pending_approval "u-agent") "manager" "u-manager"
         = Some false).
Proof.
  apply (canPerformQuoteAction_approve_reject Supabase.Approve
           (sample_quote pending_approval "u-agent") "manager" "u-manager"
           Supabase.manager_permissions).
  - left; reflexivity.
  - reflexivity.
Defined.

(** ** The initial status of a quote *)

(** The initial status follows the column [role] of the profile row of the
    user: a draft when it says agent, approved when it says manager or
    admin. *)
Lemma getInitialStatus_by_role (u : User) :
  (role u = "agent" ->
   QuotesPage.getInitialStatus (Some u) = draft
   /\ QuotesPage.initialStatus None (Some u) = draft)
  /\ (role u = "manager" \/ role u = "admin" ->
      QuotesPage.getInitialStatus (Some u) = approved
      /\ QuotesPage.initialStatus None (Some u) = approved).
Proof.
  unfold QuotesPage.initialStatus, QuotesPage.getInitialStatus. simpl.
  split.
  - intros ->. by simpl.
  - intros [-> | ->]; by simpl.
Qed.

(** C2 (evaluation at the failing input): the administrator of the first
    organization has switched to the second one, where the membership makes
    them an agent.  The role of the active membership is agent, the
    capability set of the store denies the approval of quotes and the
    approve button of a quote pending approval is not shown; the role that
    [getInitialStatus] reads is the one of the profile row, still admin, so
    the quote this agent creates starts approved and not as a draft. *)
Theorem getInitialStatus_ignores_membership :
  let s := AuthStore.store switched_world in
  let pending := sample_quote pending_approval "u-agent" in
  option_map org_id (AuthStore.organization s) = Some "org-b"
  /\ option_map ou_role (AuthStore.currentOrgMembership s) = Some "agent"
  /\ AuthStore.permissions s
     = Some (Supabase.Capabilities Supabase.agent_permissions)
  /\ QuotesPage.capability_of can_approve_quotes (AuthStore.permissions s)
     = Some false
  /\ QuotesPage.row_offers QuotesPage.ApproveQuote pending
       (AuthStore.permissions s) = false
  /\ QuotesPage.role_of (AuthStore.user s) = Some "admin"
  /\ QuotesPage.getInitialStatus (AuthStore.user s) = approved
  /\ QuotesPage.initialStatus None (AuthStore.user s) = approved.
Proof. repeat split; vm_compute; reflexivity. Qed.

(** ** Who may submit and edit a draft *)

(** In the modal, the submit and the edit buttons are shown exactly for a
    draft whose creator is the user or whose viewer is not an agent; the
    authorizer answers the same for the action edit. *)
Lemma modal_submit_edit_condition (q : Quote) (u : User) :
  let permitted :=
    status q = draft /\ (created_by q = user_id u \/ role u <> "agent") in
  (QuoteViewModal.canSubmitForApproval q (Some u) = true <-> permitted)
  /\ (QuoteViewModal.canEdit q (Some u) = true <-> permitted)
  /\ (Supabase.canPerformQuoteAction Supabase.Edit q (role u) (user_id u)
      = Some true <-> permitted).
Proof.
  simpl.
  assert (status_eqb (status q) draft
          && (Js.str_eq (user_id u) (created_by q)
              || negb (Js.str_eq (role u) "agent")) = true
          <-> status q = draft
              /\ (created_by q = user_id u \/ role u <> "agent")) as H.
  { rewrite andb_true_iff, orb_true_iff, negb_true_iff, status_eqb_true,
      str_eq_true, str_eq_false. intuition congruence. }
  split; [exact H|]. split; [exact H|].
  unfold Supabase.canPerformQuoteAction.
  replace (Js.str_eq (created_by q) (user_id u))
    with (Js.str_eq (user_id u) (created_by q))
    by apply String.eqb_sym.
  rewrite <- H. split; [by intros [= E] | by intros ->].
Qed.

(** C4 (evaluation at the failing input): a draft created by one agent,
    looked at by another agent of the organization.  The modal and the
    authorizer deny the submission and the edit; the row of the list shows
    both buttons, and a click on the submit button moves the quote to
    pending approval. *)
Theorem row_submit_ignores_creator :
  let q := sample_quote draft "u-agent" in
  let w := other_agent_world q in
  QuoteViewModal.canSubmitForApproval q (Some other_agent) = false
  /\ QuoteViewModal.canEdit q (Some other_agent) = false
  /\ Supabase.canPerformQuoteAction Supabase.Edit q "agent" "u-other"
     = Some false
  /\ QuotesPage.row_offers QuotesPage.SubmitForApproval q
       (AuthStore.permissions (AuthStore.store w)) = true
  /\ QuotesPage.row_offers_edit q = true
  /\ map status
       (Backend.quotes
          (AuthStore.backend
             (fst (QuotesPage.click_row QuotesPage.SubmitForApproval q None
                     w (sample_page q)))))
     = [pending_approval].
Proof. repeat split; vm_compute; reflexivity. Qed.

(** ** Transitions *)

Lemma truthy_and (a : option bool) (b : bool) :
  Js.truthy (Js.and_ a b) = Js.truthy a && b.
Proof. by destruct a as [[]|]. Qed.

(** Without a client, or when the request fails, [handleStatusChange]
    changes nothing. *)
Lemma handleStatusChange_failed (quoteId : string) (newStatus : QuoteStatus)
    (reason : option string) (w : AuthStore.World) (p : QuotesPage.Page) :
  AuthStore.supabase w = false
  \/ Backend.fault (AuthStore.backend w) Backend.quotes_update <> None ->
  QuotesPage.handleStatusChange quoteId newStatus reason w p = (w, p).
Proof.
  unfold QuotesPage.handleStatusChange. intros [-> | H]; [done|].
  destruct (AuthStore.supabase w); [|done]. simpl.
  by destruct (Backend.fault (AuthStore.backend w) Backend.quotes_update).
Qed.

(** With a client and a request that succeeds, the table is rewritten
    whatever the status of the quote and whoever the user is. *)
Lemma handleStatusChange_written (quoteId : string) (newStatus : QuoteStatus)
    (reason : option string) (w : AuthStore.World) (p : QuotesPage.Page) :
  AuthStore.supabase w = true ->
  Backend.fault (AuthStore.backend w) Backend.quotes_update = None ->
  quotes_after quoteId newStatus reason w p
  = QuotesPage.update_quotes
      (QuotesPage.build_updateData (AuthStore.user (AuthStore.store w))
         (QuotesPage.quotes p) (AuthStore.now w) quoteId newStatus reason)
      (AuthStore.now w) quoteId (Backend.quotes (AuthStore.backend w)).
Proof.
  intros Hc Hf. unfold quotes_after, QuotesPage.handleStatusChange.
  by rewrite Hc, Hf.
Qed.

Lemma append_assoc (a b c : string) : (a ++ b) ++ c = a ++ (b ++ c).
Proof.
  induction a as [|x a' IH]; [reflexivity|].
  change (String x ((a' ++ b) ++ c) = String x (a' ++ (b ++ c))).
  by rewrite IH.
Qed.

(** The row at a position of the table after a successful request. *)
Lemma quotes_after_lookup (quoteId : string) (newStatus : QuoteStatus)
    (reason : option string) (w : AuthStore.World) (p : QuotesPage.Page)
    (i : nat) (q : Quote) :
  AuthStore.supabase w = true ->
  Backend.fault (AuthStore.backend w) Backend.quotes_update = None ->
  Backend.quotes (AuthStore.backend w) !! i = Some q ->
  quotes_after quoteId newStatus reason w p !! i
  = Some (if Js.str_eq (quote_id q) quoteId
          then QuotesPage.update_row
                 (QuotesPage.build_updateData
                    (AuthStore.user (AuthStore.store w))
                    (QuotesPage.quotes p) (AuthStore.now w) quoteId
                    newStatus reason)
                 (AuthStore.now w) q
          else q).
Proof.
  intros Hc Hf Hi. rewrite handleStatusChange_written by done.
  unfold QuotesPage.update_quotes. rewrite list_lookup_fmap. by rewrite Hi.
Qed.

Lemma same_body_update_row (d : QuotesPage.UpdateData) (clock : Timestamp)
    (q : Quote) :
  same_body q (QuotesPage.update_row d clock q).
Proof. by repeat split. Qed.

(** The capabilities that the store derives for a role grant the approval
    and the sending of quotes exactly when the table of the specification
    does; a role that names a member of [Object.prototype] yields
    [undefined], which the conditions of the pages take as a refusal. *)
Lemma capability_derived (r : string) :
  Js.truthy (Supabase.capability can_approve_quotes
               (Supabase.getPermissions r))
  = can_approve_quotes (Lifecycle.capabilitiesFor r)
  /\ Js.truthy (Supabase.capability can_send_quotes
                  (Supabase.getPermissions r))
     = can_send_quotes (Lifecycle.capabilitiesFor r).
Proof.
  unfold Lifecycle.capabilitiesFor.
  destruct (decide (r = "admin")) as [->|Ha]; [done|].
  destruct (decide (r = "manager")) as [->|Hm]; [done|].
  rewrite (proj2 (str_eq_false r "admin")) by done.
  rewrite (proj2 (str_eq_false r "manager")) by done.
  destruct (decide (r = "agent")) as [->|Hg]; [done|].
  unfold Supabase.getPermissions, Supabase.permissions.
  rewrite !lookup_insert_ne by congruence. rewrite lookup_empty.
  by destruct (Supabase.inherited r).
Qed.

(** A button is only shown, in the list and in the modal, for a quote whose
    copy on the page is in the status the trigger starts from. *)
Lemma offered_from_valid_status (t : QuotesPage.Trigger) (q : Quote)
    (s : AuthStore.AuthState) :
  QuoteViewModal.offers t q s = true
  \/ QuotesPage.row_offers t q (AuthStore.permissions s) = true ->
  status q = Lifecycle.valid_from t.
Proof.
  destruct t; simpl;
    unfold QuoteViewModal.canSubmitForApproval, QuoteViewModal.canApprove,
      QuoteViewModal.canReject, QuoteViewModal.canSend;
    rewrite ?truthy_and, ?andb_true_iff, !status_eqb_true; tauto.
Qed.

(** The buttons for an approval, a rejection and for marking sent follow
    the table, in the list and in the modal, once the capabilities of the
    store are those derived from the role of the active membership. *)
Lemma capability_buttons_follow_table (t : QuotesPage.Trigger) (q : Quote)
    (id r : string) (s : AuthStore.AuthState) :
  AuthStore.permissions s = Some (Supabase.getPermissions r) ->
  t <> QuotesPage.SubmitForApproval ->
  let legal :=
    status q = Lifecycle.valid_from t
    /\ Lifecycle.precondition t q (Lifecycle.mkActor id r) = true in
  (QuoteViewModal.offers t q s = true <-> legal)
  /\ (QuotesPage.row_offers t q (AuthStore.permissions s) = true <-> legal).
Proof.
  intros Hp Ht. destruct (capability_derived r) as [Ha Hs].
  destruct t; [done|..]; simpl;
    unfold QuoteViewModal.canApprove, QuoteViewModal.canReject,
      QuoteViewModal.canSend;
    rewrite Hp; simpl; rewrite ?truthy_and, ?Ha, ?Hs, !andb_true_iff,
      !status_eqb_true; tauto.
Qed.

(** The submit button of the modal follows the table when the role of the
    profile row is the role of the active membership. *)
Lemma modal_submit_follows_table (q : Quote) (u : User) (r : string)
    (s : AuthStore.AuthState) :
  AuthStore.user s = Some u ->
  role u = r ->
  QuoteViewModal.offers QuotesPage.SubmitForApproval q s = true
  <-> status q = Lifecycle.valid_from QuotesPage.SubmitForApproval
      /\ Lifecycle.precondition QuotesPage.SubmitForApproval q
           (Lifecycle.mkActor (user_id u) r) = true.
Proof.
  intros Hu <-. simpl. unfold QuoteViewModal.canSubmitForApproval.
  rewrite Hu. simpl.
  replace (Js.str_eq (user_id u) (created_by q))
    with (Js.str_eq (created_by q) (user_id u))
    by apply String.eqb_sym.
  rewrite andb_true_iff, status_eqb_true. tauto.
Qed.

(** C1 (counterexample): the sample quote is already sent and the user is
    an agent of the organization, whose role grants no approval, so both the
    status and the precondition rule the approval out;
    [handleStatusChange] still writes the status [approved] and the agent
    as approver. *)
Lemma handleStatusChange_has_no_guard :
  let q := sample_quote sent "u-agent" in
  let w := other_agent_world q in
  option_map user_id (AuthStore.user (AuthStore.store w)) = Some "u-other"
  /\ option_map ou_role
       (AuthStore.currentOrgMembership (AuthStore.store w)) = Some "agent"
  /\ status q <> Lifecycle.valid_from QuotesPage.ApproveQuote
  /\ Lifecycle.precondition QuotesPage.ApproveQuote q
       (Lifecycle.mkActor "u-other" "agent") = false
  /\ map (fun r => (status r, approved_by r))
         (Backend.quotes (AuthStore.backend w))
     = [(sent, None)]
  /\ map (fun r => (status r, approved_by r))
         (quotes_after (quote_id q)
            (QuotesPage.requested QuotesPage.ApproveQuote) None w
            (sample_page q))
     = [(approved, Some "u-other")].
Proof. repeat split; try (vm_compute; reflexivity). discriminate. Qed.

(** C1 (amended): [handleStatusChange] checks neither the status of the
    quote nor the user, and raises no error; the lifecycle is guarded by
    the conditions under which the buttons of the triggers are shown, read
    from the copy [q] of the quote on the page and from the store.  The
    actor is the user of the store with the role of the active membership
    [m], from which the store has derived its capabilities.

    - A trigger is shown, in the list or in the modal, only for a copy in
      the status the trigger starts from.
    - Approval, rejection and marking sent are shown, in the list and in
      the modal, exactly when moreover the capability set of the role of
      the membership grants the capability.
    - The modal shows the submission exactly under the precondition of the
      table when the role of the profile row is the role of the membership.
    - When the copy is the stored row, a trigger that is shown moves the
      stored quote from the status the trigger starts from to the status it
      leads to.
    - Called directly, [handleStatusChange] writes whatever status it is
      asked for to the stored row.
    - Without a backend client, or when the request fails, it leaves the
      quote and everything else as they were. *)
Theorem illegal_transition_not_offered (t : QuotesPage.Trigger) (q : Quote)
    (u : User) (m : OrganizationUser) (w : AuthStore.World)
    (p : QuotesPage.Page) :
  AuthStore.user (AuthStore.store w) = Some u ->
  AuthStore.currentOrgMembership (AuthStore.store w) = Some m ->
  AuthStore.permissions (AuthStore.store w)
  = Some (Supabase.getPermissions (ou_role m)) ->
  let s := AuthStore.store w in
  let shown :=
    QuoteViewModal.offers t q s = true
    \/ QuotesPage.row_offers t q (AuthStore.permissions s) = true in
  let legal :=
    status q = Lifecycle.valid_from t
    /\ Lifecycle.precondition t q
         (Lifecycle.mkActor (user_id u) (ou_role m)) = true in
  (shown -> status q = Lifecycle.valid_from t)
  /\ (t <> QuotesPage.SubmitForApproval ->
      (QuoteViewModal.offers t q s = true <-> legal)
      /\ (QuotesPage.row_offers t q (AuthStore.permissions s) = true
          <-> legal))
  /\ (t = QuotesPage.SubmitForApproval -> role u = ou_role m ->
      (QuoteViewModal.offers t q s = true <-> legal))
  /\ (forall i reason,
         AuthStore.supabase w = true ->
         Backend.fault (AuthStore.backend w) Backend.quotes_update = None ->
         Backend.quotes (AuthStore.backend w) !! i = Some q ->
         shown ->
         exists q',
           quotes_after (quote_id q) (QuotesPage.requested t) reason w p !! i
           = Some q'
           /\ status q = Lifecycle.valid_from t
           /\ status q' = Lifecycle.target t
           /\ (t <> QuotesPage.SubmitForApproval -> legal))
  /\ (forall i r newStatus reason,
         AuthStore.supabase w = true ->
         Backend.fault (AuthStore.backend w) Backend.quotes_update = None ->
         Backend.quotes (AuthStore.backend w) !! i = Some r ->
         quote_id r = quote_id q ->
         exists r',
           quotes_after (quote_id q) newStatus reason w p !! i = Some r'
           /\ status r' = newStatus)
  /\ (AuthStore.supabase w = false
      \/ Backend.fault (AuthStore.backend w) Backend.quotes_update <> None ->
      forall newStatus reason,
        QuotesPage.handleStatusChange (quote_id q) newStatus reason w p
        = (w, p)).
Proof.
  intros Hu Hm Hp s shown legal.
  assert (forall r newStatus reason i,
             AuthStore.supabase w = true ->
             Backend.fault (AuthStore.backend w) Backend.quotes_update
             = None ->
             Backend.quotes (AuthStore.backend w) !! i = Some r ->
             quote_id r = quote_id q ->
             exists r',
               quotes_after (quote_id q) newStatus reason w p !! i = Some r'
               /\ status r' = newStatus) as Hwrite.
  { intros r newStatus reason i Hc Hf Hi Hid.
    rewrite (quotes_after_lookup _ _ _ _ _ _ r) by done.
    rewrite Hid, str_eq_refl. by eexists. }
  split; [apply offered_from_valid_status|].
  split; [intros Ht; by apply capability_buttons_follow_table|].
  split; [intros -> Hr; by apply modal_submit_follows_table|].
  split; [|split].
  - intros i reason Hc Hf Hi Hshown.
    destruct (Hwrite q (QuotesPage.requested t) reason i Hc Hf Hi eq_refl)
      as (q' & Hq' & Hst).
    exists q'. split; [exact Hq'|].
    pose proof (offered_from_valid_status t q s Hshown) as Hfrom.
    split; [exact Hfrom|]. split; [rewrite Hst; by destruct t|].
    intros Ht.
    destruct (capability_buttons_follow_table t q (user_id u) (ou_role m) s
                Hp Ht) as [Hmodal Hrow].
    destruct Hshown as [H | H]; [by apply Hmodal | by apply Hrow].
  - intros i r newStatus reason. apply Hwrite.
  - intros H newStatus reason. by apply handleStatusChange_failed.
Qed.

Lemma illegal_transition_not_offered_witness :
  let q := sample_quote pending_approval "u-agent" in
  let w := manager_world q in
  let manager := Lifecycle.mkActor "u-manager" "manager" in
  (QuoteViewModal.offers QuotesPage.ApproveQuote q (AuthStore.store w) = true
   <-> status q = pending_approval
       /\ Lifecycle.precondition QuotesPage.ApproveQuote q manager = true)
  /\ (exists q',
         quotes_after "q-1" approved None w (sample_page q) !! 0%nat
         = Some q'
         /\ status q = pending_approval
         /\ status q' = approved
         /\ (QuotesPage.ApproveQuote <> QuotesPage.SubmitForApproval ->
             status q = pending_approval
             /\ Lifecycle.precondition QuotesPage.ApproveQuote q manager
                = true)).
Proof.
  intros q w manager.
  destruct (illegal_transition_not_offered QuotesPage.ApproveQuote q
              (sample_user "u-manager" "manager")
              (sample_membership "u-manager" "org-a" "manager" "active" 130)
              w (sample_page q) eq_refl eq_refl eq_refl)
    as (_ & Hbuttons & _ & Hmove & _).
  split.
  - apply Hbuttons. discriminate.
  - apply (Hmove 0%nat None eq_refl eq_refl eq_refl). left. reflexivity.
Defined.

(** C5 (counterexample): the stored quote carries notes, but the page was
    loaded before they were written (or has not loaded its list yet).  The
    rejection takes the notes to extend from the page, not from the stored
    quote: the stored notes are replaced by the reason alone, so nothing was
    appended to them. *)
Lemma rejection_replaces_unseen_notes :
  let q := sample_quote pending_approval "u-agent" in
  let w := manager_world q in
  map (fun r => (status r, notes r)) (Backend.quotes (AuthStore.backend w))
  = [(pending_approval, Some "call back on Monday")]
  /\ map (fun r => (status r, notes r))
         (quotes_after "q-1" rejected (Some "too dear") w (stale_page q))
     = [(rejected, Some "Rejected: too dear")]
  /\ map (fun r => (status r, notes r))
         (quotes_after "q-1" rejected (Some "too dear") w unloaded_page)
     = [(rejected, Some "Rejected: too dear")]
  /\ ~ (exists appended,
          "Rejected: too dear" = "call back on Monday" ++ appended).
Proof.
  repeat split; try (vm_compute; reflexivity).
  intros [appended H]. discriminate H.
Qed.

(** C5 (amended): each transition writes its status and its own side effect,
    and nothing else of the quote but the stamp of the update.  With a
    backend client and a request that succeeds, for the stored row [q] of
    the quote:

    - an approval by the signed-in user records that user as approver;
    - a rejection with a reason sets the notes to the notes of the copy of
      the quote in the list of the page, two line feeds (a blank line) and
      [Rejected: <reason>], or to [Rejected: <reason>] alone when the page
      has no copy of the quote or the copy has no notes; the notes end with
      [Rejected: <reason>] in every case, and when the copy carries the
      stored notes the reason is appended to the notes of the quote;
    - marking sent records the time as sent timestamp;
    - a submission only changes the status. *)
Theorem transition_side_effects (w : AuthStore.World) (p : QuotesPage.Page)
    (i : nat) (q : Quote) :
  AuthStore.supabase w = true ->
  Backend.fault (AuthStore.backend w) Backend.quotes_update = None ->
  Backend.quotes (AuthStore.backend w) !! i = Some q ->
  let copy := QuotesPage.find_quote (QuotesPage.quotes p) (quote_id q) in
  (forall u,
      AuthStore.user (AuthStore.store w) = Some u -> user_id u <> "" ->
      exists q',
        quotes_after (quote_id q) approved None w p !! i = Some q'
        /\ status q' = approved
        /\ approved_by q' = Some (user_id u)
        /\ notes q' = notes q /\ sent_at q' = sent_at q /\ same_body q q')
  /\ (forall reason,
         reason <> "" ->
         exists q',
           quotes_after (quote_id q) rejected (Some reason) w p !! i = Some q'
           /\ status q' = rejected
           /\ (forall cached n,
                  copy = Some cached -> notes cached = Some n -> n <> "" ->
                  notes q'
                  = Some (n ++ String "010" (String "010"
                                               ("Rejected: " ++ reason))))
           /\ (copy = None
               \/ (exists cached,
                      copy = Some cached
                      /\ (notes cached = None \/ notes cached = Some "")) ->
               notes q' = Some ("Rejected: " ++ reason))
           /\ (exists before,
                  notes q' = Some (before ++ "Rejected: " ++ reason))
           /\ (forall cached,
                  copy = Some cached -> notes cached = notes q ->
                  (forall n, notes q = Some n -> n <> "" ->
                     notes q'
                     = Some (n ++ String "010" (String "010"
                                                  ("Rejected: " ++ reason))))
                  /\ (notes q = None \/ notes q = Some "" ->
                      notes q' = Some ("Rejected: " ++ reason)))
           /\ approved_by q' = approved_by q /\ sent_at q' = sent_at q
           /\ same_body q q')
  /\ (exists q',
         quotes_after (quote_id q) sent None w p !! i = Some q'
         /\ status q' = sent
         /\ sent_at q' = Some (AuthStore.now w)
         /\ approved_by q' = approved_by q /\ notes q' = notes q
         /\ same_body q q')
  /\ (exists q',
         quotes_after (quote_id q) pending_approval None w p !! i = Some q'
         /\ status q' = pending_approval
         /\ approved_by q' = approved_by q /\ sent_at q' = sent_at q
         /\ notes q' = notes q /\ same_body q q').
Proof.
  intros Hc Hf Hi copy.
  assert (forall st r,
             quotes_after (quote_id q) st r w p !! i
             = Some (QuotesPage.update_row
                       (QuotesPage.build_updateData
                          (AuthStore.user (AuthStore.store w))
                          (QuotesPage.quotes p) (AuthStore.now w)
                          (quote_id q) st r)
                       (AuthStore.now w) q)) as Hrow.
  { intros st r. rewrite (quotes_after_lookup _ _ _ _ _ _ q) by done.
    by rewrite str_eq_refl. }
  split; [|split; [|split]].
  - intros u Hu Hid. eexists. split; [apply Hrow|].
    unfold QuotesPage.build_updateData. rewrite Hu. simpl.
    apply truthy_str_true in Hid. rewrite Hid. simpl.
    repeat split; reflexivity.
  - intros reason Hr. eexists. split; [apply Hrow|].
    unfold QuotesPage.build_updateData. simpl.
    apply truthy_str_true in Hr. rewrite Hr. simpl.
    fold copy. clearbody copy.
    assert (forall cached n,
               copy = Some cached -> notes cached = Some n -> n <> "" ->
               QuotesPage.rejection_notes (QuotesPage.existingNotes copy)
                 reason
               = n ++ String "010" (String "010" ("Rejected: " ++ reason)))
      as Hfull.
    { intros cached n -> Hn Hne. unfold QuotesPage.rejection_notes. simpl.
      rewrite Hn. apply truthy_str_true in Hne. by rewrite Hne, Hne. }
    assert (copy = None
            \/ (exists cached,
                   copy = Some cached
                   /\ (notes cached = None \/ notes cached = Some "")) ->
            QuotesPage.rejection_notes (QuotesPage.existingNotes copy) reason
            = "Rejected: " ++ reason) as Hbare.
    { intros [-> | (cached & -> & [Hn | Hn])];
        unfold QuotesPage.rejection_notes; simpl; by rewrite ?Hn. }
    split; [reflexivity|].
    split; [intros cached n H1 H2 H3; f_equal; by eapply Hfull|].
    split; [intros H; f_equal; by apply Hbare|].
    split.
    { unfold QuotesPage.rejection_notes. eexists. f_equal.
      by rewrite <- append_assoc. }
    split; [|by repeat split].
    intros cached Hcopy Hsame. split.
    + intros n Hn Hne. f_equal. apply (Hfull cached n); [done| |done].
      by rewrite Hsame.
    + intros H. f_equal. apply Hbare. right. exists cached.
      split; [done|]. by rewrite Hsame.
  - eexists. split; [apply Hrow|].
    unfold QuotesPage.build_updateData. simpl.
    by repeat split.
  - eexists. split; [apply Hrow|].
    unfold QuotesPage.build_updateData. simpl.
    by repeat split.
Qed.

Lemma transition_side_effects_witness :
  let q := sample_quote pending_approval "u-agent" in
  let w := manager_world q in
  let p := sample_page q in
  (exists q',
      quotes_after "q-1" approved None w p !! 0%nat = Some q'
      /\ status q' = approved /\ approved_by q' = Some "u-manager")
  /\ (exists q',
         quotes_after "q-1" rejected (Some "budget exceeded") w p !! 0%nat
         = Some q'
         /\ status q' = rejected
         /\ notes q'
            = Some ("call back on Monday"
                    ++ String "010"
                         (String "010" "Rejected: budget exceeded")))
  /\ (exists q',
         quotes_after "q-1" sent None w p !! 0%nat = Some q'
         /\ status q' = sent /\ sent_at q' = Some 2000).
Proof.
  intros q w p.
  destruct (transition_side_effects w p 0%nat q eq_refl eq_refl eq_refl)
    as (Ha & Hr & Hs & _).
  split; [|split].
  - destruct (Ha (sample_user "u-manager" "manager") eq_refl
                ltac:(discriminate)) as (q' & H1 & H2 & H3 & _).
    exists q'. by repeat split.
  - destruct (Hr "budget exceeded" ltac:(discriminate))
      as (q' & H1 & H2 & H3 & _).
    exists q'. split; [exact H1|]. split; [exact H2|].
    apply (H3 q "call back on Monday");
      [reflexivity | reflexivity | discriminate].
  - destruct Hs as (q' & H1 & H2 & H3 & _). exists q'. by repeat split.
Defined.

(** ** The session store *)

(** Unfolds the plumbing of the operations of the store. *)
Ltac run_store :=
  unfold AuthStore.try_finally, AuthStore.try_catch, AuthStore.bind,
    AuthStore.get, AuthStore.orThrow, AuthStore.modify, AuthStore.log,
    AuthStore.ret, AuthStore.throw.

Lemma switchOrganization_run (organizationId : string) (w : AuthStore.World) :
  AuthStore.switchOrganization organizationId w
  = if AuthStore.supabase w then
      match Backend.select_organization (AuthStore.backend w) organizationId
      with
      | inl e => (AuthStore.Rejected e, w)
      | inr o =>
          match Backend.select_membership (AuthStore.backend w)
                  (option_map user_id (AuthStore.user (AuthStore.store w)))
                  organizationId
          with
          | inl e => (AuthStore.Rejected e, w)
          | inr m => (AuthStore.Resolved tt, activated organizationId o m w)
          end
      end
    else (AuthStore.Resolved tt, w).
Proof.
  unfold AuthStore.switchOrganization, AuthStore.switchOrganization_body.
  run_store.
  destruct (AuthStore.supabase w); [|reflexivity].
  destruct (Backend.select_organization _ _) as [e|o]; [reflexivity|].
  destruct (Backend.select_membership _ _ _) as [e|m]; reflexivity.
Qed.

(** Without a backend client [switchOrganization] returns at once. *)
Lemma switchOrganization_unconfigured (organizationId : string)
    (w : AuthStore.World) :
  AuthStore.supabase w = false ->
  AuthStore.switchOrganization organizationId w = (AuthStore.Resolved tt, w).
Proof. intros H. by rewrite switchOrganization_run, H. Qed.

Lemma filter_none {A} (f : A -> bool) (l : list A) :
  (forall x, In x l -> f x = false) -> List.filter f l = [].
Proof.
  induction l as [|y l IH]; simpl; [done|]. intros H.
  rewrite (H y) by auto. apply IH. auto.
Qed.

(** C7: when a backend client is configured and the organization record or
    the active membership of the identity in it cannot be loaded, in
    particular when the identity has no active membership in the
    organization asked for, [switchOrganization] rejects with the error of
    the request and the whole world is as before the call: the active
    organization, the membership, the capabilities and the persisted
    organization id are unchanged. *)
Theorem switchOrganization_failure (organizationId : string)
    (w : AuthStore.World) :
  AuthStore.supabase w = true ->
  ((exists e,
       Backend.select_organization (AuthStore.backend w) organizationId
       = inl e)
   \/ (exists e,
          Backend.select_membership (AuthStore.backend w)
            (option_map user_id (AuthStore.user (AuthStore.store w)))
            organizationId
          = inl e)
   \/ (forall m,
          In m (Backend.organization_users (AuthStore.backend w)) ->
          ~ (Some (ou_user_id m)
             = option_map user_id (AuthStore.user (AuthStore.store w))
             /\ ou_organization_id m = organizationId
             /\ ou_status m = "active"))) ->
  exists e w',
    AuthStore.switchOrganization organizationId w = (AuthStore.Rejected e, w')
    /\ w' = w
    /\ AuthStore.organization (AuthStore.store w')
       = AuthStore.organization (AuthStore.store w)
    /\ AuthStore.currentOrgMembership (AuthStore.store w')
       = AuthStore.currentOrgMembership (AuthStore.store w)
    /\ AuthStore.permissions (AuthStore.store w')
       = AuthStore.permissions (AuthStore.store w)
    /\ AuthStore.localStorage w' !! AuthStore.currentOrganizationId
       = AuthStore.localStorage w !! AuthStore.currentOrganizationId.
Proof.
  intros Hc H. rewrite switchOrganization_run, Hc.
  assert (exists e,
             Backend.select_organization (AuthStore.backend w) organizationId
             = inl e
             \/ Backend.select_membership (AuthStore.backend w)
                  (option_map user_id (AuthStore.user (AuthStore.store w)))
                  organizationId
                = inl e) as [e He].
  { destruct H as [[e He] | [[e He] | Hno]]; [by exists e; left
                                              | by exists e; right |].
    unfold Backend.select_membership.
    destruct (Backend.fault _ _) as [e|]; [by exists e; right|].
    destruct (AuthStore.user (AuthStore.store w)) as [u|]; simpl in *;
      [|by eexists; right].
    eexists. right. rewrite filter_none; [reflexivity|].
    intros m Hm. apply not_true_is_false. intros Ht.
    apply andb_true_iff in Ht as [Ht H3].
    apply andb_true_iff in Ht as [H1 H2].
    apply str_eq_true in H1, H2, H3. apply (Hno m Hm). by rewrite H1. }
  destruct (Backend.select_organization _ _) as [e1|o].
  - exists e1, w. by repeat split.
  - destruct He as [He | He]; [discriminate|]. rewrite He.
    exists e, w. by repeat split.
Qed.

Lemma switchOrganization_failure_witness :
  exists e w',
    AuthStore.switchOrganization "org-z" admin_world
    = (AuthStore.Rejected e, w')
    /\ w' = admin_world
    /\ AuthStore.organization (AuthStore.store w')
       = AuthStore.organization (AuthStore.store admin_world)
    /\ AuthStore.currentOrgMembership (AuthStore.store w')
       = AuthStore.currentOrgMembership (AuthStore.store admin_world)
    /\ AuthStore.permissions (AuthStore.store w')
       = AuthStore.permissions (AuthStore.store admin_world)
    /\ AuthStore.localStorage w' !! AuthStore.currentOrganizationId
       = AuthStore.localStorage admin_world
           !! AuthStore.currentOrganizationId.
Proof.
  apply (switchOrganization_failure "org-z" admin_world); [reflexivity|].
  right; right. intros m Hm (_ & Horg & _). simpl in Hm.
  repeat (destruct Hm as [<- | Hm]; [discriminate Horg|]).
  destruct Hm.
Defined.

Lemma signOut_run (w : AuthStore.World) :
  AuthStore.signOut w = (AuthStore.Resolved tt, signed_out w).
Proof.
  unfold AuthStore.signOut, signed_out, AuthStore.auth_signOut. run_store.
  destruct w as [c b s ls t]. destruct c; [|reflexivity]. cbn.
  destruct (Backend.signOut_response b) as [|e|e]; reflexivity.
Qed.

Lemma signed_out_twice (w : AuthStore.World) :
  signed_out (signed_out w) = signed_out w.
Proof.
  unfold signed_out. destruct w as [c b s ls t]. cbn.
  rewrite delete_delete_eq.
  destruct c; [|reflexivity].
  destruct (Backend.signOut_response b) eqn:E; cbn; rewrite ?E; reflexivity.
Qed.

(** C9: [signOut] always resolves, whatever the remote revocation does
    (success, an error returned, a rejection) and also without a backend
    client; afterwards the identity, the organization, the membership and
    the capabilities are null, the list of organizations is empty and the
    persisted organization choice is removed.  A second [signOut] resolves
    as well and leaves exactly that state. *)
Theorem signOut_clears_and_is_idempotent (w : AuthStore.World) :
  exists w1,
    AuthStore.signOut w = (AuthStore.Resolved tt, w1)
    /\ AuthStore.user (AuthStore.store w1) = None
    /\ AuthStore.organization (AuthStore.store w1) = None
    /\ AuthStore.currentOrgMembership (AuthStore.store w1) = None
    /\ AuthStore.userOrganizations (AuthStore.store w1) = []
    /\ AuthStore.permissions (AuthStore.store w1) = None
    /\ AuthStore.localStorage w1 !! AuthStore.currentOrganizationId = None
    /\ AuthStore.signOut w1 = (AuthStore.Resolved tt, w1).
Proof.
  exists (signed_out w). rewrite !signOut_run, signed_out_twice.
  repeat split; try reflexivity.
  unfold signed_out; simpl. apply lookup_delete_eq.
Qed.

(** [fetchUserData] step by step, with a backend client. *)
Lemma fetchUserData_run (userId : string) (w : AuthStore.World) :
  AuthStore.supabase w = true ->
  AuthStore.fetchUserData userId w
  = match Backend.select_user (AuthStore.backend w) userId with
    | inl _ => (AuthStore.Resolved tt, w)
    | inr None => (AuthStore.Resolved tt, signed_out w)
    | inr (Some u) =>
        match Backend.rpc_user_organizations (AuthStore.backend w) userId with
        | inl _ => (AuthStore.Resolved tt, w)
        | inr orgs =>
            match AuthStore.targetOrgId
                    (AuthStore.localStorage w
                       !! AuthStore.currentOrganizationId) orgs
            with
            | Some target =>
                if Js.truthy_str target then
                  (AuthStore.Resolved tt,
                   snd (AuthStore.switchOrganization target
                          (identified u orgs w)))
                else (AuthStore.Resolved tt, identified u orgs w)
            | None => (AuthStore.Resolved tt, identified u orgs w)
            end
        end
    end.
Proof.
  intros Hc.
  unfold AuthStore.fetchUserData, AuthStore.fetchUserData_body.
  unfold AuthStore.bind at 1. unfold AuthStore.get at 1. rewrite Hc.
  run_store.
  destruct (Backend.select_user _ _) as [e|[u|]]; [reflexivity| |].
  - destruct (Backend.rpc_user_organizations _ _) as [e|orgs];
      [reflexivity|].
    simpl.
    change (AuthStore.with_store _ w) with (identified u orgs w).
    destruct (AuthStore.targetOrgId _ _) as [target|]; [|reflexivity].
    destruct (Js.truthy_str target); [|reflexivity].
    pose proof (switchOrganization_run target (identified u orgs w)) as Hs.
    destruct (AuthStore.switchOrganization target (identified u orgs w))
      as [[[]|e] w2]; reflexivity.
  - by rewrite signOut_run.
Qed.

(** [fetchUserData] never rejects. *)
Lemma fetchUserData_resolves (userId : string) (w : AuthStore.World) :
  fst (AuthStore.fetchUserData userId w) = AuthStore.Resolved tt.
Proof.
  destruct (AuthStore.supabase w) eqn:Hc.
  - rewrite fetchUserData_run by done.
    repeat case_match; reflexivity.
  - unfold AuthStore.fetchUserData, AuthStore.bind, AuthStore.get.
    by rewrite Hc.
Qed.

(** ** Signing in *)

Lemma signIn_run (email password : string) (w : AuthStore.World) :
  AuthStore.supabase w = true ->
  AuthStore.signIn email password w
  = match Backend.auth_error
            (Backend.signInWithPassword (AuthStore.backend w) email password)
    with
    | Some e => (AuthStore.Rejected e, w)
    | None =>
        match Backend.auth_user
                (Backend.signInWithPassword (AuthStore.backend w) email
                   password)
        with
        | Some id => AuthStore.fetchUserData id (authenticated id w)
        | None =>
            (AuthStore.Resolved tt,
             AuthStore.with_backend
               (Backend.with_session None (AuthStore.backend w)) w)
        end
    end.
Proof.
  intros Hc.
  unfold AuthStore.signIn, AuthStore.auth_signInWithPassword, authenticated.
  run_store.
  rewrite Hc. simpl.
  destruct (Backend.auth_error _) as [e|] eqn:He; simpl; rewrite ?He;
    [reflexivity|].
  destruct (Backend.auth_user _) as [id|] eqn:Hu; simpl; rewrite ?Hu;
    [|reflexivity].
  unfold AuthStore.update_last_login, AuthStore.modify. simpl.
  by destruct (AuthStore.fetchUserData id _).
Qed.

Lemma authenticated_store (id : string) (w : AuthStore.World) :
  AuthStore.supabase (authenticated id w) = AuthStore.supabase w
  /\ AuthStore.store (authenticated id w) = AuthStore.store w
  /\ AuthStore.localStorage (authenticated id w) = AuthStore.localStorage w.
Proof.
  unfold authenticated, AuthStore.update_last_login, AuthStore.modify. simpl.
  by destruct (Backend.fault _ _).
Qed.

Lemma authenticated_backend (id : string) (w : AuthStore.World) :
  Backend.organizations (AuthStore.backend (authenticated id w))
  = Backend.organizations (AuthStore.backend w)
  /\ Backend.organization_users (AuthStore.backend (authenticated id w))
     = Backend.organization_users (AuthStore.backend w)
  /\ Backend.fault (AuthStore.backend (authenticated id w))
     = Backend.fault (AuthStore.backend w).
Proof.
  unfold authenticated, AuthStore.update_last_login, AuthStore.modify. simpl.
  by destruct (Backend.fault _ _).
Qed.

Lemma authenticated_queries (id : string) (w : AuthStore.World) :
  (forall uid,
      Backend.rpc_user_organizations (AuthStore.backend (authenticated id w))
        uid
      = Backend.rpc_user_organizations (AuthStore.backend w) uid)
  /\ (forall oid,
         Backend.select_organization (AuthStore.backend (authenticated id w))
           oid
         = Backend.select_organization (AuthStore.backend w) oid)
  /\ (forall uid oid,
         Backend.select_membership (AuthStore.backend (authenticated id w))
           uid oid
         = Backend.select_membership (AuthStore.backend w) uid oid).
Proof.
  destruct (authenticated_backend id w) as (Ho & Hm & Hf).
  unfold Backend.rpc_user_organizations, Backend.get_user_organizations,
    Backend.joined_memberships, Backend.select_organization,
    Backend.select_membership.
  rewrite Ho, Hm, Hf. done.
Qed.

Lemma maybeSingle_some {A} (l : list A) (x : A) :
  Backend.maybeSingle l = inr (Some x) -> l = [x].
Proof. destruct l as [|y [|z l]]; simpl; congruence. Qed.

(** Stamping the last login keeps the profile of the identity findable. *)
Lemma authenticated_select_user (id : string) (w : AuthStore.World)
    (u : User) :
  Backend.select_user (AuthStore.backend w) id = inr (Some u) ->
  exists u',
    Backend.select_user (AuthStore.backend (authenticated id w)) id
    = inr (Some u')
    /\ user_id u' = id /\ email u' = email u /\ full_name u' = full_name u
    /\ role u' = role u.
Proof.
  unfold Backend.select_user.
  destruct (authenticated_backend id w) as (_ & _ & Hf). rewrite Hf.
  destruct (Backend.fault (AuthStore.backend w) Backend.users_select);
    [discriminate|].
  intros H. apply maybeSingle_some in H.
  assert (user_id u = id) as Hid.
  { assert (In u (List.filter (fun u0 => Js.str_eq (user_id u0) id)
                    (Backend.users (AuthStore.backend w)))) as Hin
      by (rewrite H; by left).
    apply filter_In in Hin as [_ Hin]. by apply str_eq_true. }
  unfold authenticated, AuthStore.update_last_login, AuthStore.modify. simpl.
  destruct (Backend.fault (AuthStore.backend w) Backend.users_update); simpl.
  - rewrite H. by exists u.
  - rewrite filter_map_swap.
    erewrite filter_ext; [rewrite H|].
    + simpl. eexists. split; [reflexivity|].
      destruct (Js.str_eq (user_id u) id); by simpl.
    + intros a. by destruct (Js.str_eq (user_id a) id) eqn:E.
Qed.

(** C10 (counterexample): the request for the organizations of the identity
    fails.  [signIn] resolves, but the identity is not in the store: the
    store is filled only after that request has succeeded. *)
Lemma signIn_without_identity :
  let w := fresh_world (failing_backend organizations_rpc_down) in
  Backend.rpc_user_organizations (AuthStore.backend w) "u-admin"
  = inl (Backend.PostgrestError "57014")
  /\ fst (AuthStore.signIn "u-admin@example.com" "secret" w)
     = AuthStore.Resolved tt
  /\ AuthStore.user
       (AuthStore.store
          (snd (AuthStore.signIn "u-admin@example.com" "secret" w)))
     = None.
Proof. repeat split; vm_compute; reflexivity. Qed.

(** C10 (amended): once the credentials are accepted, [signIn] resolves
    whatever happens while the organizations are fetched or the selected
    one is activated.  When the activation of the selected organization
    fails, the identity and its organizations are in the store, and the
    active organization, the membership, the capabilities and the persisted
    choice are as before the call (null in a fresh store).  When the request
    for the organizations fails, the store is as before the call: the
    identity is not set either. *)
Theorem signIn_swallows_organization_failures (address password id : string)
    (w : AuthStore.World) :
  AuthStore.supabase w = true ->
  Backend.signInWithPassword (AuthStore.backend w) address password
  = Backend.mkAuthResponse (Some id) None ->
  exists w',
    AuthStore.signIn address password w = (AuthStore.Resolved tt, w')
    /\ (forall u e,
           Backend.select_user (AuthStore.backend w) id = inr (Some u) ->
           Backend.rpc_user_organizations (AuthStore.backend w) id = inl e ->
           AuthStore.store w' = AuthStore.store w
           /\ AuthStore.localStorage w' = AuthStore.localStorage w)
    /\ (forall u orgs target,
           Backend.select_user (AuthStore.backend w) id = inr (Some u) ->
           Backend.rpc_user_organizations (AuthStore.backend w) id
           = inr orgs ->
           AuthStore.targetOrgId
             (AuthStore.localStorage w !! AuthStore.currentOrganizationId)
             orgs
           = Some target ->
           (exists e,
               Backend.select_organization (AuthStore.backend w) target
               = inl e)
           \/ (exists e,
                  Backend.select_membership (AuthStore.backend w) (Some id)
                    target
                  = inl e) ->
           (exists u',
               AuthStore.user (AuthStore.store w') = Some u'
               /\ user_id u' = id /\ email u' = email u)
           /\ AuthStore.userOrganizations (AuthStore.store w') = orgs
           /\ AuthStore.organization (AuthStore.store w')
              = AuthStore.organization (AuthStore.store w)
           /\ AuthStore.currentOrgMembership (AuthStore.store w')
              = AuthStore.currentOrgMembership (AuthStore.store w)
           /\ AuthStore.permissions (AuthStore.store w')
              = AuthStore.permissions (AuthStore.store w)
           /\ AuthStore.localStorage w' = AuthStore.localStorage w).
Proof.
  intros Hc Hr. rewrite signIn_run by done. rewrite Hr. simpl.
  destruct (authenticated_store id w) as (Hs1 & Hs2 & Hs3).
  destruct (authenticated_queries id w) as (Hq1 & Hq2 & Hq3).
  assert (AuthStore.supabase (authenticated id w) = true) as Hca
    by by rewrite Hs1.
  exists (snd (AuthStore.fetchUserData id (authenticated id w))).
  split; [|split].
  - pose proof (fetchUserData_resolves id (authenticated id w)) as H.
    destruct (AuthStore.fetchUserData id (authenticated id w)); simpl in *.
    by rewrite H.
  - intros u e Hu He.
    destruct (authenticated_select_user id w u Hu) as (u' & Hu' & _).
    rewrite fetchUserData_run by done. rewrite Hu', Hq1, He. simpl.
    by rewrite Hs2, Hs3.
  - intros u orgs target Hu Ho Ht Hfail.
    destruct (authenticated_select_user id w u Hu)
      as (u' & Hu' & Hid & Hem & _).
    rewrite fetchUserData_run by done. rewrite Hu', Hq1, Ho, Hs3, Ht.
    assert (snd (AuthStore.switchOrganization target
                   (identified u' orgs (authenticated id w)))
            = identified u' orgs (authenticated id w)) as Hsw.
    { rewrite switchOrganization_run. simpl. rewrite Hca, Hq2, Hq3, Hid.
      destruct Hfail as [[e He] | [e He]].
      - by rewrite He.
      - rewrite He. by destruct (Backend.select_organization _ _). }
    assert (forall b : bool,
               snd (if b
                    then (AuthStore.Resolved tt,
                          snd (AuthStore.switchOrganization target
                                 (identified u' orgs (authenticated id w))))
                    else (AuthStore.Resolved tt,
                          identified u' orgs (authenticated id w)))
               = identified u' orgs (authenticated id w)) as ->
      by (intros []; simpl; [exact Hsw | reflexivity]).
    simpl. rewrite Hs2, Hs3. repeat split; try reflexivity.
    exists u'. by repeat split.
Qed.

Lemma signIn_swallows_organization_failures_witness :
  (exists w',
      AuthStore.signIn "u-admin@example.com" "secret"
        (fresh_world (failing_backend organizations_rpc_down))
      = (AuthStore.Resolved tt, w')
      /\ AuthStore.store w' = AuthStore.initial)
  /\ (exists w',
         AuthStore.signIn "u-admin@example.com" "secret"
           (fresh_world (failing_backend organizations_table_down))
         = (AuthStore.Resolved tt, w')
         /\ (exists u',
                AuthStore.user (AuthStore.store w') = Some u'
                /\ user_id u' = "u-admin")
         /\ AuthStore.organization (AuthStore.store w') = None
         /\ AuthStore.permissions (AuthStore.store w') = None).
Proof.
  split.
  - destruct (signIn_swallows_organization_failures
                "u-admin@example.com" "secret" "u-admin"
                (fresh_world (failing_backend organizations_rpc_down))
                eq_refl eq_refl) as (w' & Hrun & Hrpc & _).
    exists w'. split; [exact Hrun|].
    apply (Hrpc (sample_user "u-admin" "admin")
                (Backend.PostgrestError "57014")); vm_compute; reflexivity.
  - destruct (signIn_swallows_organization_failures
                "u-admin@example.com" "secret" "u-admin"
                (fresh_world (failing_backend organizations_table_down))
                eq_refl eq_refl) as (w' & Hrun & _ & Hact).
    exists w'. split; [exact Hrun|].
    destruct (Hact (sample_user "u-admin" "admin")
                (Backend.get_user_organizations
                   (failing_backend organizations_table_down) "u-admin")
                "org-a")
      as ((u' & Hu & Hid & _) & _ & Ho & _ & Hp & _).
    + vm_compute; reflexivity.
    + vm_compute; reflexivity.
    + vm_compute; reflexivity.
    + left. eexists. vm_compute. reflexivity.
    + split; [by exists u'|]. by split.
Defined.

(** ** Restoring the active organization *)

Lemma filter_unique {A K} (key : A -> K) (f : A -> bool) (l : list A)
    (x : A) :
  List.NoDup (map key l) -> In x l -> f x = true ->
  (forall y, In y l -> f y = true -> key y = key x) ->
  List.filter f l = [x].
Proof.
  induction l as [|y l IH]; simpl; [done|].
  intros Hnd Hin Hfx Hkey. apply NoDup_cons_iff in Hnd as [Hy Hnd].
  destruct Hin as [-> | Hin].
  - rewrite Hfx. f_equal. apply filter_none. intros z Hz.
    apply not_true_is_false. intros Hfz. apply Hy.
    rewrite <- (Hkey z) by auto. by apply in_map.
  - destruct (f y) eqn:Hfy.
    + exfalso. apply Hy. rewrite (Hkey y) by auto. by apply in_map.
    + apply IH; auto.
Qed.

Lemma in_insert_by {A} (key : A -> Z) (x y : A) (l : list A) :
  In y (Backend.insert_by key x l) <-> y = x \/ In y l.
Proof.
  induction l as [|z l IH]; simpl; [intuition|].
  destruct (key x <? key z); simpl; [intuition|].
  rewrite IH. intuition.
Qed.

Lemma in_order_by {A} (key : A -> Z) (y : A) (l : list A) :
  In y (Backend.order_by key l) <-> In y l.
Proof.
  unfold Backend.order_by. induction l as [|x l IH]; simpl; [done|].
  rewrite in_insert_by, IH. intuition.
Qed.

(** The rows of [get_user_organizations] are the active memberships of the
    identity whose organization exists. *)
Lemma in_get_user_organizations (b : Backend.t) (uid : string)
    (row : UserOrganization) :
  In row (Backend.get_user_organizations b uid)
  <-> exists m o,
        In m (Backend.organization_users b)
        /\ In o (Backend.organizations b)
        /\ ou_user_id m = uid /\ ou_status m = "active"
        /\ org_id o = ou_organization_id m
        /\ row = {| organization_id := ou_organization_id m;
                    organization_name := org_name o;
                    user_role := ou_role m;
                    user_status := ou_status m;
                    joined_at := ou_joined_at m |}.
Proof.
  unfold Backend.get_user_organizations, Backend.joined_memberships.
  rewrite in_order_by, in_flat_map. split.
  - intros (m & Hm & Hrow).
    destruct (Js.str_eq (ou_user_id m) uid && Js.str_eq (ou_status m) "active")
      eqn:E; [|done].
    apply andb_true_iff in E as [E1 E2]. apply str_eq_true in E1, E2.
    apply in_map_iff in Hrow as (o & <- & Ho).
    apply filter_In in Ho as [Ho Hid]. apply str_eq_true in Hid.
    by exists m, o.
  - intros (m & o & Hm & Ho & Hu & Hs & Hid & ->).
    exists m. split; [done|].
    rewrite Hu, Hs, !str_eq_refl. simpl.
    apply in_map_iff. exists o. split; [done|].
    apply filter_In. split; [done|]. by apply str_eq_true.
Qed.

Lemma has_organization_true (orgs : list UserOrganization) (id : string) :
  AuthStore.has_organization orgs id = true
  <-> exists row, In row orgs /\ organization_id row = id.
Proof.
  unfold AuthStore.has_organization. rewrite existsb_exists.
  split; intros (row & H1 & H2); exists row; split; auto;
    by apply str_eq_true.
Qed.

(** In a backend in working order, the profile of the identity is found. *)
Lemma healthy_select_user (b : Backend.t) (uid : string) :
  healthy b uid ->
  exists u, Backend.select_user b uid = inr (Some u) /\ user_id u = uid.
Proof.
  intros H. destruct (healthy_profile _ _ H) as (u & Hin & Hid).
  exists u. split; [|done]. unfold Backend.select_user.
  rewrite (healthy_served _ _ H).
  rewrite (filter_unique user_id _ _ u); [done| | | |].
  - apply (healthy_users_pkey _ _ H).
  - done.
  - by apply str_eq_true.
  - intros y _ Hy. apply str_eq_true in Hy. congruence.
Qed.

(** In a backend in working order, an organization in which the identity
    holds an active membership can be activated. *)
Lemma healthy_activation (b : Backend.t) (uid organizationId : string) :
  healthy b uid -> active_member b uid organizationId ->
  exists o m,
    Backend.select_organization b organizationId = inr o
    /\ Backend.select_membership b (Some uid) organizationId = inr m
    /\ org_id o = organizationId
    /\ ou_user_id m = uid /\ ou_organization_id m = organizationId
    /\ ou_status m = "active"
    /\ In m (Backend.organization_users b)
    /\ organizationId <> "".
Proof.
  intros H (m & Hm & Hu & Ho & Hs).
  destruct (healthy_membership_fkey _ _ H m Hm) as (o & Hin & Hid).
  exists o, m.
  unfold Backend.select_organization, Backend.select_membership.
  rewrite !(healthy_served _ _ H).
  rewrite (filter_unique org_id _ _ o);
    [| apply (healthy_organizations_pkey _ _ H) | done
     | apply str_eq_true; congruence
     | intros y _ Hy; apply str_eq_true in Hy; congruence ].
  rewrite (filter_unique (fun m => (ou_user_id m, ou_organization_id m))
             _ _ m);
    [| apply (healthy_membership_unique _ _ H) | done
     | by rewrite Hu, Ho, Hs, !str_eq_refl
     | ].
  - repeat split; try done; try congruence.
    rewrite <- Ho, <- Hid. by apply (healthy_uuid _ _ H).
  - intros y _ Hy. apply andb_true_iff in Hy as [Hy _].
    apply andb_true_iff in Hy as [H1 H2]. apply str_eq_true in H1, H2.
    congruence.
Qed.

(** A row of [get_user_organizations] names an organization in which the
    identity holds an active membership. *)
Lemma listed_is_active_member (b : Backend.t) (uid : string)
    (row : UserOrganization) :
  In row (Backend.get_user_organizations b uid) ->
  active_member b uid (organization_id row).
Proof.
  intros H. apply in_get_user_organizations in H
    as (m & o & Hm & _ & Hu & Hs & _ & ->).
  by exists m.
Qed.

Lemma active_member_is_listed (b : Backend.t) (uid organizationId : string) :
  healthy b uid -> active_member b uid organizationId ->
  AuthStore.has_organization (Backend.get_user_organizations b uid)
    organizationId = true.
Proof.
  intros H (m & Hm & Hu & Ho & Hs).
  destruct (healthy_membership_fkey _ _ H m Hm) as (o & Hin & Hid).
  apply has_organization_true. eexists. split.
  - apply in_get_user_organizations. exists m, o. by repeat split.
  - done.
Qed.

(** [initialize] with a backend client and an open remote session. *)
Lemma initialize_run (id : string) (w : AuthStore.World) :
  AuthStore.supabase w = true ->
  Backend.session (AuthStore.backend w) = Some id ->
  AuthStore.initialize w
  = (AuthStore.Resolved tt, loaded (snd (AuthStore.fetchUserData id w))).
Proof.
  intros Hc Hs.
  unfold AuthStore.initialize, AuthStore.set_loading_false. run_store.
  rewrite Hc. simpl. rewrite Hs.
  pose proof (fetchUserData_resolves id w) as H.
  destruct (AuthStore.fetchUserData id w) as [r w']. simpl in *. by subst.
Qed.

(** The restart of a process in front of a backend in working order
    activates the organization that [targetOrgId] selects. *)
Lemma restart_activates (b : Backend.t) (uid target : string)
    (w : AuthStore.World) :
  AuthStore.supabase w = true ->
  healthy b uid ->
  AuthStore.targetOrgId
    (AuthStore.localStorage w !! AuthStore.currentOrganizationId)
    (Backend.get_user_organizations b uid)
  = Some target ->
  active_member b uid target ->
  exists wf o m,
    AuthStore.initialize (AuthStore.restart (AuthStore.with_backend b w))
    = (AuthStore.Resolved tt, wf)
    /\ AuthStore.organization (AuthStore.store wf) = Some o
    /\ org_id o = target
    /\ AuthStore.currentOrgMembership (AuthStore.store wf) = Some m
    /\ ou_user_id m = uid /\ ou_organization_id m = target
    /\ AuthStore.permissions (AuthStore.store wf)
       = Some (Supabase.getPermissions (ou_role m))
    /\ AuthStore.loading (AuthStore.store wf) = false
    /\ AuthStore.localStorage wf !! AuthStore.currentOrganizationId
       = Some target.
Proof.
  intros Hc H Ht Hmem.
  destruct (healthy_select_user b uid H) as (u & Hu & Huid).
  destruct (healthy_activation b uid target H Hmem)
    as (o & m & Ho & Hm & Hoid & Hmu & Hmo & _ & _ & Hne).
  set (w2 := AuthStore.restart (AuthStore.with_backend b w)).
  assert (AuthStore.supabase w2 = true) as Hc2 by done.
  rewrite (initialize_run uid) by (done || apply (healthy_session _ _ H)).
  rewrite fetchUserData_run by done.
  change (AuthStore.backend w2) with b.
  change (AuthStore.localStorage w2) with (AuthStore.localStorage w).
  rewrite Hu. unfold Backend.rpc_user_organizations.
  rewrite (healthy_served _ _ H), Ht.
  apply truthy_str_true in Hne. rewrite Hne.
  rewrite switchOrganization_run. simpl. rewrite Hc, Ho, Huid, Hm. simpl.
  eexists _, o, m. split; [reflexivity|]. simpl.
  repeat split; try done. apply lookup_insert_eq.
Qed.

(** C8: after a successful [switchOrganization(X)], a restart of the process
    with the persisted choice intact, in front of a backend in working
    order, makes X the active organization again if the identity still
    holds an active membership in X; if it does not, the first of its
    memberships, in the order of joining, is activated instead. *)
Theorem switch_then_restart_restores (X uid : string)
    (w w1 : AuthStore.World) (b2 : Backend.t) :
  AuthStore.supabase w = true ->
  AuthStore.switchOrganization X w = (AuthStore.Resolved tt, w1) ->
  healthy b2 uid ->
  (active_member b2 uid X ->
   exists wf o m,
     AuthStore.initialize (AuthStore.restart (AuthStore.with_backend b2 w1))
     = (AuthStore.Resolved tt, wf)
     /\ AuthStore.organization (AuthStore.store wf) = Some o
     /\ org_id o = X
     /\ AuthStore.currentOrgMembership (AuthStore.store wf) = Some m
     /\ ou_user_id m = uid /\ ou_organization_id m = X
     /\ AuthStore.permissions (AuthStore.store wf)
        = Some (Supabase.getPermissions (ou_role m))
     /\ AuthStore.loading (AuthStore.store wf) = false
     /\ AuthStore.localStorage wf !! AuthStore.currentOrganizationId
        = Some X)
  /\ (forall first rest,
         ~ active_member b2 uid X ->
         Backend.get_user_organizations b2 uid = first :: rest ->
         exists wf o m,
           AuthStore.initialize
             (AuthStore.restart (AuthStore.with_backend b2 w1))
           = (AuthStore.Resolved tt, wf)
           /\ AuthStore.organization (AuthStore.store wf) = Some o
           /\ org_id o = organization_id first
           /\ AuthStore.currentOrgMembership (AuthStore.store wf) = Some m
           /\ ou_user_id m = uid
           /\ ou_organization_id m = organization_id first
           /\ AuthStore.permissions (AuthStore.store wf)
              = Some (Supabase.getPermissions (ou_role m))
           /\ AuthStore.loading (AuthStore.store wf) = false
           /\ AuthStore.localStorage wf !! AuthStore.currentOrganizationId
              = Some (organization_id first)).
Proof.
  intros Hc Hsw H.
  assert (AuthStore.supabase w1 = true
          /\ AuthStore.localStorage w1 !! AuthStore.currentOrganizationId
             = Some X) as [Hc1 Hls].
  { rewrite switchOrganization_run, Hc in Hsw.
    destruct (Backend.select_organization _ _) as [e|o]; [discriminate|].
    destruct (Backend.select_membership _ _ _) as [e|m]; [discriminate|].
    injection Hsw as <-. split; [done|]. apply lookup_insert_eq. }
  split.
  - intros Hmem. apply (restart_activates b2 uid X w1); try done.
    rewrite Hls. unfold AuthStore.targetOrgId.
    rewrite (active_member_is_listed b2 uid X) by done.
    destruct (healthy_activation b2 uid X H Hmem)
      as (_ & _ & _ & _ & _ & _ & _ & _ & _ & Hne).
    apply truthy_str_true in Hne. by rewrite Hne.
  - intros first rest Hno Horgs.
    apply (restart_activates b2 uid (organization_id first) w1); try done.
    + rewrite Hls, Horgs. unfold AuthStore.targetOrgId.
      destruct (AuthStore.has_organization (first :: rest) X) eqn:E;
        [|by rewrite andb_false_r].
      exfalso. apply Hno. apply has_organization_true in E
        as (row & Hin & <-).
      apply listed_is_active_member. by rewrite Horgs.
    + apply listed_is_active_member. rewrite Horgs. by left.
Qed.

Lemma sample_tables_healthy (b : Backend.t) :
  Backend.users b
  = Backend.users (sample_backend None (sample_quote draft "u-agent")) ->
  Backend.organizations b
  = Backend.organizations
      (sample_backend None (sample_quote draft "u-agent")) ->
  Backend.session b = Some "u-admin" ->
  (forall q, Backend.fault b q = None) ->
  List.NoDup (map (fun m => (ou_user_id m, ou_organization_id m))
                  (Backend.organization_users b)) ->
  (forall m, In m (Backend.organization_users b) ->
             ou_organization_id m = "org-a" \/ ou_organization_id m = "org-b")
  -> healthy b "u-admin".
Proof.
  intros Hu Ho Hs Hf Hnd Hfk.
  constructor; try done; rewrite ?Hu, ?Ho; simpl.
  - exists (sample_user "u-admin" "admin"). split; [tauto | reflexivity].
  - repeat (apply List.NoDup_cons; [simpl; intuition discriminate|]).
    apply List.NoDup_nil.
  - repeat (apply List.NoDup_cons; [simpl; intuition discriminate|]).
    apply List.NoDup_nil.
  - intros m Hm. destruct (Hfk m Hm) as [-> | ->].
    + exists (sample_org "org-a"). split; [tauto | reflexivity].
    + exists (sample_org "org-b"). split; [tauto | reflexivity].
  - intros o [<- | [<- | []]]; discriminate.
Qed.

Lemma switch_then_restart_restores_witness :
  (exists wf o,
      AuthStore.initialize
        (AuthStore.restart
           (AuthStore.with_backend (AuthStore.backend admin_world)
              switched_world))
      = (AuthStore.Resolved tt, wf)
      /\ AuthStore.organization (AuthStore.store wf) = Some o
      /\ org_id o = "org-b")
  /\ (exists wf o,
         AuthStore.initialize
           (AuthStore.restart
              (AuthStore.with_backend departed_backend switched_world))
         = (AuthStore.Resolved tt, wf)
         /\ AuthStore.organization (AuthStore.store wf) = Some o
         /\ org_id o = "org-a").
Proof.
  assert (AuthStore.switchOrganization "org-b" admin_world
          = (AuthStore.Resolved tt, switched_world)) as Hsw
    by (vm_compute; reflexivity).
  split.
  - assert (healthy (AuthStore.backend admin_world) "u-admin") as Hb.
    { apply sample_tables_healthy; try reflexivity.
      - simpl. repeat (apply List.NoDup_cons; [simpl; intuition discriminate|]).
        apply List.NoDup_nil.
      - intros m Hm. simpl in Hm.
        repeat (destruct Hm as [<- | Hm]; [simpl; tauto|]). destruct Hm. }
    destruct (switch_then_restart_restores "org-b" "u-admin" admin_world
                switched_world (AuthStore.backend admin_world)
                eq_refl Hsw Hb) as [Hstill _].
    destruct Hstill as (wf & o & m & Hrun & Ho & Hid & _).
    + exists (sample_membership "u-admin" "org-b" "agent" "active" 150).
      simpl. tauto.
    + by exists wf, o.
  - assert (healthy departed_backend "u-admin") as Hb.
    { apply sample_tables_healthy; try reflexivity.
      - simpl. repeat (apply List.NoDup_cons; [simpl; intuition discriminate|]).
        apply List.NoDup_nil.
      - intros m Hm. simpl in Hm.
        repeat (destruct Hm as [<- | Hm]; [simpl; tauto|]). destruct Hm. }
    destruct (switch_then_restart_restores "org-b" "u-admin" admin_world
                switched_world departed_backend eq_refl Hsw Hb)
      as [_ Hgone].
    destruct (Hgone {| organization_id := "org-a";
                       organization_name := "org-a";
                       user_role := "admin";
                       user_status := "active";
                       joined_at := 140 |} [])
      as (wf & o & m & Hrun & Ho & Hid & _).
    + intros (m & Hm & _ & Horg & Hst). simpl in Hm.
      repeat (destruct Hm as [<- | Hm]; [discriminate|]). destruct Hm.
    + vm_compute. reflexivity.
    + by exists wf, o.
Defined.

(** * Further properties *)

(** ** Start of the process *)

(** X1: [initialize] resolves in every world, with or without a backend
    client, a remote session or a working backend, and the store is no
    longer loading afterwards. *)
Theorem initialize_finishes_loading (w : AuthStore.World) :
  exists w',
    AuthStore.initialize w = (AuthStore.Resolved tt, w')
    /\ AuthStore.loading (AuthStore.store w') = false.
Proof.
  destruct (AuthStore.supabase w) eqn:Hc.
  - destruct (Backend.session (AuthStore.backend w)) as [id|] eqn:Hs.
    + rewrite (initialize_run id) by done. by eexists.
    + unfold AuthStore.initialize, AuthStore.set_loading_false. run_store.
      rewrite Hc. simpl. rewrite Hs. by eexists.
  - unfold AuthStore.initialize, AuthStore.set_loading_false. run_store.
    rewrite Hc. by eexists.
Qed.

(** X2: without a backend client or without a remote session, [initialize]
    signs nobody in: it only ends the loading; the identity, the
    organization, the membership, the capabilities, the persisted choice
    and the backend are as before. *)
Theorem initialize_without_session (w : AuthStore.World) :
  AuthStore.supabase w = false
  \/ Backend.session (AuthStore.backend w) = None ->
  exists w',
    AuthStore.initialize w = (AuthStore.Resolved tt, w')
    /\ AuthStore.loading (AuthStore.store w') = false
    /\ AuthStore.user (AuthStore.store w') = AuthStore.user (AuthStore.store w)
    /\ AuthStore.organization (AuthStore.store w')
       = AuthStore.organization (AuthStore.store w)
    /\ AuthStore.currentOrgMembership (AuthStore.store w')
       = AuthStore.currentOrgMembership (AuthStore.store w)
    /\ AuthStore.userOrganizations (AuthStore.store w')
       = AuthStore.userOrganizations (AuthStore.store w)
    /\ AuthStore.permissions (AuthStore.store w')
       = AuthStore.permissions (AuthStore.store w)
    /\ AuthStore.localStorage w' = AuthStore.localStorage w
    /\ AuthStore.backend w' = AuthStore.backend w.
Proof.
  intros H.
  unfold AuthStore.initialize, AuthStore.set_loading_false. run_store.
  destruct (AuthStore.supabase w) eqn:Hc; simpl.
  - destruct H as [H | H]; [discriminate|]. rewrite H.
    eexists. split; [reflexivity|]. by repeat split.
  - eexists. split; [reflexivity|]. by repeat split.
Qed.

Lemma initialize_without_session_witness :
  exists w',
    AuthStore.initialize (unconfigured_world (sample_quote draft "u-agent"))
    = (AuthStore.Resolved tt, w')
    /\ AuthStore.loading (AuthStore.store w') = false
    /\ AuthStore.user (AuthStore.store w') = None.
Proof.
  destruct (initialize_without_session
              (unconfigured_world (sample_quote draft "u-agent")))
    as (w' & Hrun & Hl & Hu & _).
  - left. reflexivity.
  - exists w'. by repeat split.
Defined.

(** ** Signing in: the rejections *)

(** X3: [signIn] rejects in two cases and changes nothing in either:
    without a backend client the error says that Supabase is not
    configured; when the credentials are not accepted, the error is the
    one of the authentication. *)
Theorem signIn_rejections (address password : string)
    (w : AuthStore.World) :
  (AuthStore.supabase w = false ->
   AuthStore.signIn address password w
   = (AuthStore.Rejected (Backend.JsError "Supabase is not configured"), w))
  /\ (forall e,
         AuthStore.supabase w = true ->
         Backend.auth_error
           (Backend.signInWithPassword (AuthStore.backend w) address
              password)
         = Some e ->
         AuthStore.signIn address password w = (AuthStore.Rejected e, w)).
Proof.
  split.
  - intros Hc. unfold AuthStore.signIn. run_store. by rewrite Hc.
  - intros e Hc He. rewrite signIn_run by done. by rewrite He.
Qed.

Lemma signIn_rejections_witness :
  AuthStore.signIn "u-admin@example.com" "secret"
    (unconfigured_world (sample_quote draft "u-agent"))
  = (AuthStore.Rejected (Backend.JsError "Supabase is not configured"),
     unconfigured_world (sample_quote draft "u-agent"))
  /\ AuthStore.signIn "nobody@example.com" "secret"
       (fresh_world (failing_backend (fun _ => false)))
     = (AuthStore.Rejected (Backend.AuthError "Invalid login credentials"),
        fresh_world (failing_backend (fun _ => false))).
Proof.
  split.
  - apply (proj1 (signIn_rejections "u-admin@example.com" "secret"
                    (unconfigured_world (sample_quote draft "u-agent")))).
    reflexivity.
  - apply (proj2 (signIn_rejections "nobody@example.com" "secret"
                    (fresh_world (failing_backend (fun _ => false)))));
      reflexivity.
Defined.

(** ** Loading the identity *)

(** X4: when the authenticated identity has no profile row,
    [fetchUserData] signs out: it resolves, and the store holds no
    identity, organization, membership, capabilities or organization
    list, and the persisted choice is removed. *)
Theorem fetchUserData_without_profile (userId : string)
    (w : AuthStore.World) :
  AuthStore.supabase w = true ->
  Backend.select_user (AuthStore.backend w) userId = inr None ->
  exists w',
    AuthStore.fetchUserData userId w = (AuthStore.Resolved tt, w')
    /\ AuthStore.user (AuthStore.store w') = None
    /\ AuthStore.organization (AuthStore.store w') = None
    /\ AuthStore.currentOrgMembership (AuthStore.store w') = None
    /\ AuthStore.userOrganizations (AuthStore.store w') = []
    /\ AuthStore.permissions (AuthStore.store w') = None
    /\ AuthStore.localStorage w' !! AuthStore.currentOrganizationId = None.
Proof.
  intros Hc Hu. rewrite fetchUserData_run by done. rewrite Hu.
  eexists. split; [reflexivity|]. unfold signed_out. simpl.
  repeat split. apply lookup_delete_eq.
Qed.

Lemma fetchUserData_without_profile_witness :
  exists w',
    AuthStore.fetchUserData "u-ghost" admin_world
    = (AuthStore.Resolved tt, w')
    /\ AuthStore.user (AuthStore.store w') = None
    /\ AuthStore.localStorage w' !! AuthStore.currentOrganizationId = None.
Proof.
  destruct (fetchUserData_without_profile "u-ghost" admin_world)
    as (w' & Hrun & Hu & _ & _ & _ & _ & Hls).
  - reflexivity.
  - vm_compute. reflexivity.
  - by exists w'.
Defined.

(** X5: the organization that [fetchUserData] goes on to activate is always
    one of the listed memberships: the saved choice when it is listed and
    not empty, the first of the list otherwise; nothing is selected exactly
    when the list is empty. *)
Theorem targetOrgId_selects_listed (savedOrgId : option string)
    (orgsData : list UserOrganization) :
  (forall target,
      AuthStore.targetOrgId savedOrgId orgsData = Some target ->
      exists row, In row orgsData /\ organization_id row = target)
  /\ (AuthStore.targetOrgId savedOrgId orgsData = None <-> orgsData = [])
  /\ (forall saved row,
         savedOrgId = Some saved -> saved <> "" ->
         In row orgsData -> organization_id row = saved ->
         AuthStore.targetOrgId savedOrgId orgsData = Some saved)
  /\ (forall first rest,
         orgsData = first :: rest ->
         (forall row, In row orgsData ->
                      Some (organization_id row) <> savedOrgId) ->
         AuthStore.targetOrgId savedOrgId orgsData
         = Some (organization_id first)).
Proof.
  unfold AuthStore.targetOrgId.
  split; [|split; [|split]].
  - intros target H.
    assert (option_map organization_id (head orgsData) = Some target ->
            exists row, In row orgsData /\ organization_id row = target)
      as Hhead.
    { destruct orgsData as [|row rest]; simpl; [done|].
      intros [= <-]. exists row. split; [by left | done]. }
    destruct savedOrgId as [saved|]; [|by apply Hhead].
    destruct (Js.truthy_str saved && AuthStore.has_organization orgsData saved)
      eqn:E; [|by apply Hhead].
    injection H as <-. apply andb_true_iff in E as [_ E].
    by apply has_organization_true.
  - destruct orgsData as [|row rest]; simpl.
    + destruct savedOrgId as [saved|]; [|done].
      by rewrite andb_false_r.
    + split; [|done].
      destruct savedOrgId as [saved|]; [|done].
      by destruct (Js.truthy_str saved && _).
  - intros saved row -> Hne Hin Hid.
    apply truthy_str_true in Hne. rewrite Hne. simpl.
    assert (AuthStore.has_organization orgsData saved = true) as ->
      by (apply has_organization_true; by exists row).
    done.
  - intros first rest -> Hnot.
    destruct savedOrgId as [saved|]; [|done].
    destruct (AuthStore.has_organization (first :: rest) saved) eqn:E.
    + apply has_organization_true in E as (row & Hin & Hid).
      exfalso. apply (Hnot row Hin). by rewrite Hid.
    + by rewrite andb_false_r.
Qed.

Lemma targetOrgId_selects_listed_witness :
  (exists row,
      In row (Backend.get_user_organizations
                (AuthStore.backend admin_world) "u-admin")
      /\ organization_id row = "org-b")
  /\ AuthStore.targetOrgId (Some "org-z")
       (Backend.get_user_organizations (AuthStore.backend admin_world)
          "u-admin")
     = Some "org-a".
Proof.
  pose proof (targetOrgId_selects_listed (Some "org-b")
                (Backend.get_user_organizations
                   (AuthStore.backend admin_world) "u-admin"))
    as (Hlisted & _).
  pose proof (targetOrgId_selects_listed (Some "org-z")
                (Backend.get_user_organizations
                   (AuthStore.backend admin_world) "u-admin"))
    as (_ & _ & _ & Hfirst).
  split.
  - apply Hlisted. vm_compute. reflexivity.
  - apply (Hfirst {| organization_id := "org-a";
                     organization_name := "org-a";
                     user_role := "admin";
                     user_status := "active";
                     joined_at := 140 |}
                  [ {| organization_id := "org-b";
                       organization_name := "org-b";
                       user_role := "agent";
                       user_status := "active";
                       joined_at := 150 |} ]).
    + vm_compute. reflexivity.
    + intros row Hin. vm_compute in Hin.
      destruct Hin as [<- | [<- | []]]; discriminate.
Defined.

(** ** Switching the organization *)

(** X6: in front of a backend in working order, switching to an
    organization in which the signed-in identity holds an active
    membership resolves; afterwards that organization is the active one,
    the membership of the identity in it is the current one, the
    capabilities are those of the role of that membership, and the
    organization id is persisted.  The identity, the list of organizations
    and the backend are as before. *)
Theorem switchOrganization_success (organizationId : string) (u : User)
    (w : AuthStore.World) :
  AuthStore.supabase w = true ->
  AuthStore.user (AuthStore.store w) = Some u ->
  healthy (AuthStore.backend w) (user_id u) ->
  active_member (AuthStore.backend w) (user_id u) organizationId ->
  exists w' o m,
    AuthStore.switchOrganization organizationId w
    = (AuthStore.Resolved tt, w')
    /\ AuthStore.organization (AuthStore.store w') = Some o
    /\ org_id o = organizationId
    /\ AuthStore.currentOrgMembership (AuthStore.store w') = Some m
    /\ In m (Backend.organization_users (AuthStore.backend w))
    /\ ou_user_id m = user_id u /\ ou_organization_id m = organizationId
    /\ AuthStore.permissions (AuthStore.store w')
       = Some (Supabase.getPermissions (ou_role m))
    /\ AuthStore.localStorage w' !! AuthStore.currentOrganizationId
       = Some organizationId
    /\ AuthStore.user (AuthStore.store w') = Some u
    /\ AuthStore.userOrganizations (AuthStore.store w')
       = AuthStore.userOrganizations (AuthStore.store w)
    /\ AuthStore.backend w' = AuthStore.backend w.
Proof.
  intros Hc Hu H Hmem.
  destruct (healthy_activation _ _ _ H Hmem)
    as (o & m & Ho & Hm & Hoid & Hmu & Hmo & _ & Hin & _).
  rewrite switchOrganization_run, Hc, Ho, Hu. simpl. rewrite Hm.
  eexists _, o, m. split; [reflexivity|]. simpl.
  repeat split; try done. apply lookup_insert_eq.
Qed.

Lemma switchOrganization_success_witness :
  exists w' m,
    AuthStore.switchOrganization "org-b" admin_world
    = (AuthStore.Resolved tt, w')
    /\ AuthStore.currentOrgMembership (AuthStore.store w') = Some m
    /\ ou_organization_id m = "org-b"
    /\ AuthStore.permissions (AuthStore.store w')
       = Some (Supabase.getPermissions (ou_role m)).
Proof.
  destruct (switchOrganization_success "org-b"
              (sample_user "u-admin" "admin") admin_world)
    as (w' & o & m & Hrun & _ & _ & Hm & _ & _ & Hid & Hp & _).
  - reflexivity.
  - reflexivity.
  - apply sample_tables_healthy; try reflexivity.
    + simpl. repeat (apply List.NoDup_cons; [simpl; intuition discriminate|]).
      apply List.NoDup_nil.
    + intros m Hm. simpl in Hm.
      repeat (destruct Hm as [<- | Hm]; [simpl; tauto|]). destruct Hm.
  - exists (sample_membership "u-admin" "org-b" "agent" "active" 150).
    simpl. tauto.
  - by exists w', m.
Defined.

Lemma activated_twice (X Y : string) (o o' : Organization)
    (m m' : OrganizationUser) (w : AuthStore.World) :
  activated Y o' m' (activated X o m w) = activated Y o' m' w.
Proof.
  unfold activated. simpl. f_equal. apply insert_insert_eq.
Qed.

(** X7: a switch does not depend on the organization that was active
    before.  After a successful switch to X, a switch to Y that succeeds
    from the earlier state succeeds with the very same result, and a switch
    to Y that fails from the earlier state fails with the same error and
    leaves the switch to X in place; in particular a second switch to X
    changes nothing. *)
Theorem switchOrganization_forgets_previous (X Y : string)
    (w w1 : AuthStore.World) :
  AuthStore.switchOrganization X w = (AuthStore.Resolved tt, w1) ->
  (forall w2,
      AuthStore.switchOrganization Y w = (AuthStore.Resolved tt, w2) ->
      AuthStore.switchOrganization Y w1 = (AuthStore.Resolved tt, w2))
  /\ (forall e w2,
         AuthStore.switchOrganization Y w = (AuthStore.Rejected e, w2) ->
         AuthStore.switchOrganization Y w1 = (AuthStore.Rejected e, w1))
  /\ AuthStore.switchOrganization X w1 = (AuthStore.Resolved tt, w1).
Proof.
  intros H1.
  destruct (AuthStore.supabase w) eqn:Hc.
  - rewrite switchOrganization_run, Hc in H1.
    destruct (Backend.select_organization (AuthStore.backend w) X)
      as [e|o] eqn:Ho; [discriminate|].
    destruct (Backend.select_membership (AuthStore.backend w) _ X)
      as [e|m] eqn:Hm; [discriminate|].
    injection H1 as <-.
    assert (forall Z,
               AuthStore.switchOrganization Z (activated X o m w)
               = match Backend.select_organization (AuthStore.backend w) Z
                 with
                 | inl e => (AuthStore.Rejected e, activated X o m w)
                 | inr o' =>
                     match Backend.select_membership (AuthStore.backend w)
                             (option_map user_id
                                (AuthStore.user (AuthStore.store w))) Z
                     with
                     | inl e => (AuthStore.Rejected e, activated X o m w)
                     | inr m' => (AuthStore.Resolved tt, activated Z o' m' w)
                     end
                 end) as Hrun.
    { intros Z. rewrite switchOrganization_run. simpl. rewrite Hc.
      destruct (Backend.select_organization _ Z); [done|].
      destruct (Backend.select_membership _ _ Z); [done|].
      by rewrite activated_twice. }
    split; [|split].
    + intros w2 H2. rewrite switchOrganization_run, Hc in H2.
      rewrite Hrun.
      destruct (Backend.select_organization _ Y); [discriminate|].
      destruct (Backend.select_membership _ _ Y); [discriminate|].
      by injection H2 as <-.
    + intros e w2 H2. rewrite switchOrganization_run, Hc in H2.
      rewrite Hrun.
      destruct (Backend.select_organization _ Y); [by injection H2 as <- _|].
      destruct (Backend.select_membership _ _ Y); [|discriminate].
      by injection H2 as <- _.
    + by rewrite Hrun, Ho, Hm.
  - rewrite switchOrganization_unconfigured in H1 by done.
    injection H1 as <-. split; [done|]. split.
    + intros e w2 H2.
      rewrite switchOrganization_unconfigured in H2 by done. discriminate.
    + by apply switchOrganization_unconfigured.
Qed.

Lemma switchOrganization_forgets_previous_witness :
  AuthStore.switchOrganization "org-b" switched_world
  = (AuthStore.Resolved tt, switched_world)
  /\ AuthStore.switchOrganization "org-a" switched_world
     = (AuthStore.Resolved tt,
        snd (AuthStore.switchOrganization "org-a" admin_world)).
Proof.
  assert (AuthStore.switchOrganization "org-b" admin_world
          = (AuthStore.Resolved tt, switched_world)) as Hsw
    by (vm_compute; reflexivity).
  destruct (switchOrganization_forgets_previous "org-b" "org-a" admin_world
              switched_world Hsw) as (Hok & _ & Hsame).
  split; [exact Hsame|]. apply Hok. vm_compute. reflexivity.
Defined.

(** ** The listener for changes of the remote session *)

(** X8: the listener clears the store on [SIGNED_OUT] exactly as [signOut]
    does (same store, same local storage) without calling the backend; on
    [SIGNED_IN] with a session it loads the identity as [fetchUserData]
    does; every other event, and [SIGNED_IN] without a session, changes
    nothing. *)
Theorem onAuthStateChange_events (w : AuthStore.World) :
  (forall session_user,
      exists w',
        AuthStoreMore.onAuthStateChange "SIGNED_OUT" session_user w
        = (AuthStore.Resolved tt, w')
        /\ AuthStore.store w' = AuthStore.store (snd (AuthStore.signOut w))
        /\ AuthStore.localStorage w'
           = AuthStore.localStorage (snd (AuthStore.signOut w))
        /\ AuthStore.backend w' = AuthStore.backend w)
  /\ (forall id,
         AuthStoreMore.onAuthStateChange "SIGNED_IN" (Some id) w
         = AuthStore.fetchUserData id w)
  /\ AuthStoreMore.onAuthStateChange "SIGNED_IN" None w
     = (AuthStore.Resolved tt, w)
  /\ (forall event session_user,
         event <> "SIGNED_IN" -> event <> "SIGNED_OUT" ->
         AuthStoreMore.onAuthStateChange event session_user w
         = (AuthStore.Resolved tt, w)).
Proof.
  split; [|split; [|split]].
  - intros s. rewrite signOut_run.
    unfold AuthStoreMore.onAuthStateChange. run_store.
    destruct s; simpl; eexists; (split; [reflexivity|]); by repeat split.
  - intros id. unfold AuthStoreMore.onAuthStateChange. run_store. simpl.
    by destruct (AuthStore.fetchUserData id w) as [[] ?].
  - reflexivity.
  - intros event s H1 H2. apply str_eq_false in H1, H2.
    unfold AuthStoreMore.onAuthStateChange. run_store.
    destruct s; by rewrite ?H1, ?H2.
Qed.

Lemma onAuthStateChange_events_witness :
  AuthStoreMore.onAuthStateChange "TOKEN_REFRESHED" (Some "u-admin")
    admin_world
  = (AuthStore.Resolved tt, admin_world).
Proof.
  apply (proj2 (proj2 (proj2 (onAuthStateChange_events admin_world))));
    discriminate.
Defined.

(** ** The screen of the application *)

(** X9: the main application is shown exactly when the store has stopped
    loading, the backend is configured, an identity is signed in, and it
    has at least one organization of which one is active or which is the
    only one.  So an identity with a single organization gets the main
    application even when no organization is active. *)
Theorem render_main_app (configured : bool) (s : AuthStore.AuthState) :
  App.render configured s = App.MainApp
  <-> AuthStore.loading s = false
      /\ configured = true
      /\ is_Some (AuthStore.user s)
      /\ AuthStore.userOrganizations s <> []
      /\ (is_Some (AuthStore.organization s)
          \/ length (AuthStore.userOrganizations s) = 1%nat).
Proof.
  unfold App.render.
  destruct (AuthStore.loading s); [split; [done | by intros [? _]]|].
  destruct configured; simpl; [|split; [done | by intros (_ & ? & _)]].
  destruct (AuthStore.user s) as [u|];
    [|split; [done | by intros (_ & _ & H%is_Some_None & _)]].
  destruct (AuthStore.userOrganizations s) as [|o1 [|o2 rest]]; simpl.
  - split; [done | by intros (_ & _ & _ & ? & _)].
  - split; [|done]. intros _. repeat split; eauto.
  - destruct (bool_decide (is_Some (AuthStore.organization s))) eqn:E; simpl.
    + apply bool_decide_eq_true in E.
      split; [|done]. intros _. repeat split; eauto.
    + apply bool_decide_eq_false in E.
      split; [done|]. intros (_ & _ & _ & _ & [H | H]);
        [done | discriminate].
Qed.

(** X10: after [signOut] the application shows neither the main
    application nor the organization selector, whatever the remote
    revocation did; with a configured backend and a store that has
    stopped loading it shows the sign-in forms. *)
Theorem signOut_leaves_the_application (configured : bool)
    (w : AuthStore.World) :
  App.render configured (AuthStore.store (snd (AuthStore.signOut w)))
  <> App.MainApp
  /\ App.render configured (AuthStore.store (snd (AuthStore.signOut w)))
     <> App.OrganizationSelector
  /\ (configured = true -> AuthStore.loading (AuthStore.store w) = false ->
      App.render configured (AuthStore.store (snd (AuthStore.signOut w)))
      = App.AuthForms).
Proof.
  rewrite signOut_run. unfold App.render, signed_out. simpl.
  destruct (AuthStore.loading (AuthStore.store w)), configured; simpl;
    repeat split; try discriminate; done.
Qed.

Lemma signOut_leaves_the_application_witness :
  App.render true (AuthStore.store (snd (AuthStore.signOut admin_world)))
  = App.AuthForms.
Proof.
  apply (proj2 (proj2 (signOut_leaves_the_application true admin_world)));
    reflexivity.
Defined.

Lemma targetOrgId_listed (savedOrgId : option string)
    (orgsData : list UserOrganization) (target : string) :
  AuthStore.targetOrgId savedOrgId orgsData = Some target ->
  exists row, In row orgsData /\ organization_id row = target.
Proof.
  unfold AuthStore.targetOrgId. intros H.
  assert (option_map organization_id (head orgsData) = Some target ->
          exists row, In row orgsData /\ organization_id row = target)
    as Hhead.
  { destruct orgsData as [|row rest]; simpl; [done|].
    intros [= <-]. exists row. split; [by left | done]. }
  destruct savedOrgId as [saved|]; [|by apply Hhead].
  destruct (Js.truthy_str saved && AuthStore.has_organization orgsData saved)
    eqn:E; [|by apply Hhead].
  injection H as <-. apply andb_true_iff in E as [_ E].
  by apply has_organization_true.
Qed.

Lemma targetOrgId_nothing (savedOrgId : option string)
    (orgsData : list UserOrganization) :
  AuthStore.targetOrgId savedOrgId orgsData = None -> orgsData = [].
Proof.
  unfold AuthStore.targetOrgId.
  destruct orgsData as [|row rest]; [done|]. simpl.
  destruct savedOrgId as [saved|]; [|done].
  by destruct (Js.truthy_str saved && _).
Qed.

(** The store after a restart in front of a backend in working order. *)
Lemma restart_store (b : Backend.t) (uid : string) (w : AuthStore.World) :
  AuthStore.supabase w = true ->
  healthy b uid ->
  exists wf u,
    AuthStore.initialize (AuthStore.restart (AuthStore.with_backend b w))
    = (AuthStore.Resolved tt, wf)
    /\ AuthStore.loading (AuthStore.store wf) = false
    /\ AuthStore.user (AuthStore.store wf) = Some u
    /\ user_id u = uid
    /\ AuthStore.userOrganizations (AuthStore.store wf)
       = Backend.get_user_organizations b uid
    /\ (Backend.get_user_organizations b uid <> [] ->
        is_Some (AuthStore.organization (AuthStore.store wf))).
Proof.
  intros Hc H.
  destruct (healthy_select_user b uid H) as (u & Hu & Huid).
  set (w2 := AuthStore.restart (AuthStore.with_backend b w)).
  assert (AuthStore.supabase w2 = true) as Hc2 by done.
  rewrite (initialize_run uid) by (done || apply (healthy_session _ _ H)).
  rewrite fetchUserData_run by done.
  change (AuthStore.backend w2) with b.
  rewrite Hu. unfold Backend.rpc_user_organizations.
  rewrite (healthy_served _ _ H).
  destruct (AuthStore.targetOrgId _ _) as [target|] eqn:Ht.
  - destruct (targetOrgId_listed _ _ _ Ht) as (row & Hin & <-).
    apply listed_is_active_member in Hin.
    destruct (healthy_activation b uid _ H Hin)
      as (o & m & Ho & Hm & _ & _ & _ & _ & _ & Hne).
    apply truthy_str_true in Hne. rewrite Hne.
    rewrite switchOrganization_run. simpl. rewrite Hc, Ho, Huid, Hm. simpl.
    eexists _, u. split; [reflexivity|]. simpl. repeat split; eauto.
  - eexists _, u. split; [reflexivity|]. simpl. repeat split; try done.
    intros Hne. exfalso. apply Hne.
    by apply (targetOrgId_nothing
                (AuthStore.localStorage w2
                   !! AuthStore.currentOrganizationId)).
Qed.

(** X11: after a restart in front of a backend in working order that holds
    the session of an identity, the application shows the main application
    when the identity has at least one active membership, and the
    organization selector when it has none. *)
Theorem screen_after_restart (b : Backend.t) (uid : string)
    (w : AuthStore.World) :
  AuthStore.supabase w = true ->
  healthy b uid ->
  (Backend.get_user_organizations b uid <> [] ->
   App.render true
     (AuthStore.store
        (snd (AuthStore.initialize
                (AuthStore.restart (AuthStore.with_backend b w)))))
   = App.MainApp)
  /\ (Backend.get_user_organizations b uid = [] ->
      App.render true
        (AuthStore.store
           (snd (AuthStore.initialize
                   (AuthStore.restart (AuthStore.with_backend b w)))))
      = App.OrganizationSelector).
Proof.
  intros Hc H.
  destruct (restart_store b uid w Hc H)
    as (wf & u & -> & Hl & Hu & _ & Horgs & Horg).
  unfold App.render. simpl. rewrite Hl, Hu, Horgs. simpl. split.
  - intros Hne. rewrite bool_decide_eq_true_2 by auto.
    rewrite andb_false_r.
    by destruct (Backend.get_user_organizations b uid).
  - by intros ->.
Qed.

Lemma screen_after_restart_witness :
  App.render true
    (AuthStore.store
       (snd (AuthStore.initialize
               (AuthStore.restart
                  (AuthStore.with_backend departed_backend
                     switched_world)))))
  = App.MainApp.
Proof.
  apply (proj1 (screen_after_restart departed_backend "u-admin"
                  switched_world eq_refl
                  ltac:(apply sample_tables_healthy; try reflexivity;
                        [ simpl;
                          repeat (apply List.NoDup_cons;
                                  [simpl; intuition discriminate|]);
                          apply List.NoDup_nil
                        | intros m Hm; simpl in Hm;
                          repeat (destruct Hm as [<- | Hm];
                                  [simpl; tauto|]);
                          destruct Hm ]))).
  vm_compute. discriminate.
Defined.

(** ** Refreshing and creating organizations *)

Lemma fetchUserOrganizations_run (w : AuthStore.World) :
  AuthStoreMore.fetchUserOrganizations w
  = match AuthStore.user (AuthStore.store w) with
    | Some u =>
        if AuthStore.supabase w && Js.truthy_str (user_id u) then
          match Backend.rpc_user_organizations (AuthStore.backend w)
                  (user_id u)
          with
          | inl _ => (AuthStore.Resolved tt, w)
          | inr orgs => (AuthStore.Resolved tt, relisted orgs w)
          end
        else (AuthStore.Resolved tt, w)
    | None => (AuthStore.Resolved tt, w)
    end.
Proof.
  unfold AuthStoreMore.fetchUserOrganizations,
    AuthStoreMore.set_userOrganizations. run_store.
  destruct (AuthStore.user (AuthStore.store w)) as [u|]; [|reflexivity].
  destruct (AuthStore.supabase w && Js.truthy_str (user_id u));
    [|reflexivity].
  by destruct (Backend.rpc_user_organizations _ _).
Qed.

(** X12: [fetchUserOrganizations] never rejects and touches nothing but the
    list of organizations: the identity, the active organization, the
    membership, the capabilities, the persisted choice and the backend are
    as before, and the list is either as before or the answer of the
    backend for the signed-in identity. *)
Theorem fetchUserOrganizations_only_relists (w : AuthStore.World) :
  exists w',
    AuthStoreMore.fetchUserOrganizations w = (AuthStore.Resolved tt, w')
    /\ AuthStore.user (AuthStore.store w') = AuthStore.user (AuthStore.store w)
    /\ AuthStore.organization (AuthStore.store w')
       = AuthStore.organization (AuthStore.store w)
    /\ AuthStore.currentOrgMembership (AuthStore.store w')
       = AuthStore.currentOrgMembership (AuthStore.store w)
    /\ AuthStore.permissions (AuthStore.store w')
       = AuthStore.permissions (AuthStore.store w)
    /\ AuthStore.loading (AuthStore.store w')
       = AuthStore.loading (AuthStore.store w)
    /\ AuthStore.localStorage w' = AuthStore.localStorage w
    /\ AuthStore.backend w' = AuthStore.backend w
    /\ (AuthStore.userOrganizations (AuthStore.store w')
        = AuthStore.userOrganizations (AuthStore.store w)
        \/ exists u,
             AuthStore.user (AuthStore.store w) = Some u
             /\ Backend.rpc_user_organizations (AuthStore.backend w)
                  (user_id u)
                = inr (AuthStore.userOrganizations (AuthStore.store w'))).
Proof.
  rewrite fetchUserOrganizations_run.
  destruct (AuthStore.user (AuthStore.store w)) as [u|] eqn:Hu;
    [|eexists; split; [reflexivity|]; repeat split; auto].
  destruct (AuthStore.supabase w && Js.truthy_str (user_id u));
    [|eexists; split; [reflexivity|]; repeat split; auto].
  destruct (Backend.rpc_user_organizations _ _) as [e|orgs] eqn:Hr;
    eexists; (split; [reflexivity|]); simpl; repeat split; auto.
  right. by exists u.
Qed.

Lemma insert_organization_ok (id name : string) (w : AuthStore.World) :
  existsb (fun o => Js.str_eq (org_id o) id)
          (Backend.organizations (AuthStore.backend w)) = false ->
  AuthStoreMore.insert_organization None id name w
  = (AuthStore.Resolved
       (AuthStoreMore.new_organization id name (AuthStore.now w)),
     AuthStore.with_backend
       (AuthStoreMore.with_organizations
          (Backend.organizations (AuthStore.backend w)
           ++ [AuthStoreMore.new_organization id name (AuthStore.now w)])
          (AuthStore.backend w))
       w).
Proof.
  intros H. unfold AuthStoreMore.insert_organization. run_store.
  by rewrite H.
Qed.

Lemma insert_membership_ok (id userId organizationId : string)
    (w : AuthStore.World) :
  existsb (fun u => Js.str_eq (user_id u) userId)
          (Backend.users (AuthStore.backend w)) = true ->
  existsb (fun o => Js.str_eq (org_id o) organizationId)
          (Backend.organizations (AuthStore.backend w)) = true ->
  existsb (fun m => Js.str_eq (ou_id m) id
                    || (Js.str_eq (ou_user_id m) userId
                        && Js.str_eq (ou_organization_id m) organizationId))
          (Backend.organization_users (AuthStore.backend w)) = false ->
  AuthStoreMore.insert_membership None id userId organizationId w
  = (AuthStore.Resolved tt,
     AuthStore.with_backend
       (AuthStoreMore.with_organization_users
          (Backend.organization_users (AuthStore.backend w)
           ++ [AuthStoreMore.new_membership id userId organizationId
                 (AuthStore.now w)])
          (AuthStore.backend w))
       w).
Proof.
  intros H1 H2 H3. unfold AuthStoreMore.insert_membership. run_store.
  by rewrite H1, H2, H3.
Qed.

Lemma existsb_false {A} (f : A -> bool) (l : list A) :
  existsb f l = false <-> forall x, In x l -> f x = false.
Proof.
  split.
  - intros H x Hin. apply not_true_is_false. intros Hx.
    assert (existsb f l = true) by (apply existsb_exists; eauto).
    congruence.
  - intros H. apply not_true_is_false. intros He.
    apply existsb_exists in He as (x & Hin & Hx). rewrite H in Hx; done.
Qed.

#[local] Arguments AuthStoreMore.insert_organization : simpl never.
#[local] Arguments AuthStoreMore.insert_membership : simpl never.
#[local] Arguments AuthStoreMore.fetchUserOrganizations : simpl never.
#[local] Arguments AuthStore.switchOrganization : simpl never.
#[local] Arguments AuthStore.bind : simpl never.

Lemma NoDup_snoc {A} (l : list A) (x : A) :
  List.NoDup l -> ~ In x l -> List.NoDup (l ++ [x]).
Proof.
  induction l as [|y l IH]; simpl; intros Hnd Hx.
  - apply List.NoDup_cons; [by intros [] | apply List.NoDup_nil].
  - apply NoDup_cons_iff in Hnd as [Hy Hnd]. apply List.NoDup_cons.
    + intros Hin. apply in_app_or in Hin as [Hin | [-> | []]]; tauto.
    + apply IH; tauto.
Qed.

(** X13: with a backend in working order and fresh uuids from the tables,
    [createOrganization] resolves with the new organization; afterwards
    that organization is the active one, the current membership is the new
    membership of the creator with the role admin, the capabilities are
    those of an administrator, the new organization is listed among the
    organizations of the identity, and its id is persisted. *)
Theorem createOrganization_success (name oid mid : string) (u : User)
    (w : AuthStore.World) :
  AuthStore.supabase w = true ->
  AuthStore.user (AuthStore.store w) = Some u ->
  user_id u <> "" ->
  healthy (AuthStore.backend w) (user_id u) ->
  (forall o, In o (Backend.organizations (AuthStore.backend w)) ->
             org_id o <> oid) ->
  (forall m, In m (Backend.organization_users (AuthStore.backend w)) ->
             ou_id m <> mid) ->
  exists w',
    AuthStoreMore.createOrganization name None None oid mid w
    = (AuthStore.Resolved
         (Some (AuthStoreMore.new_organization oid name (AuthStore.now w))),
       w')
    /\ AuthStore.organization (AuthStore.store w')
       = Some (AuthStoreMore.new_organization oid name (AuthStore.now w))
    /\ AuthStore.currentOrgMembership (AuthStore.store w')
       = Some (AuthStoreMore.new_membership mid (user_id u) oid
                 (AuthStore.now w))
    /\ AuthStore.permissions (AuthStore.store w')
       = Some (Supabase.Capabilities Supabase.admin_permissions)
    /\ (exists row,
           In row (AuthStore.userOrganizations (AuthStore.store w'))
           /\ organization_id row = oid /\ user_role row = "admin")
    /\ AuthStore.localStorage w' !! AuthStore.currentOrganizationId
       = Some oid
    /\ AuthStore.user (AuthStore.store w') = Some u
    /\ AuthStore.backend w'
       = with_created
           (AuthStoreMore.new_organization oid name (AuthStore.now w))
           (AuthStoreMore.new_membership mid (user_id u) oid
              (AuthStore.now w))
           (AuthStore.backend w).
Proof.
  intros Hc Hu Hid H Hfo Hfm.
  set (new := AuthStoreMore.new_organization oid name (AuthStore.now w)).
  set (newm := AuthStoreMore.new_membership mid (user_id u) oid
                 (AuthStore.now w)).
  set (b := AuthStore.backend w) in *.
  assert (existsb (fun o => Js.str_eq (org_id o) oid)
                  (Backend.organizations b) = false) as Ho1.
  { apply existsb_false. intros o Hin. apply str_eq_false. by apply Hfo. }
  assert (forall m, In m (Backend.organization_users b) ->
                    ou_organization_id m <> oid) as Hnomember.
  { intros m Hin Heq.
    destruct (healthy_membership_fkey _ _ H m Hin) as (o & Hino & Hoid).
    apply (Hfo o Hino). congruence. }
  assert (existsb (fun m => Js.str_eq (ou_id m) mid
                            || (Js.str_eq (ou_user_id m) (user_id u)
                                && Js.str_eq (ou_organization_id m) oid))
                  (Backend.organization_users b) = false) as Hm1.
  { apply existsb_false. intros m Hin.
    apply orb_false_iff. split.
    - apply str_eq_false. by apply Hfm.
    - apply andb_false_iff. right. apply str_eq_false. by apply Hnomember. }
  assert (existsb (fun x => Js.str_eq (user_id x) (user_id u))
                  (Backend.users b) = true) as Hu1.
  { destruct (healthy_profile _ _ H) as (x & Hin & Hx).
    apply existsb_exists. exists x. split; [done|]. by apply str_eq_true. }
  assert (Backend.select_organization (with_created new newm b) oid
          = inr new) as Hso.
  { unfold Backend.select_organization. simpl.
    rewrite (healthy_served _ _ H).
    rewrite (filter_unique org_id _ _ new); [done| | | |].
    - rewrite map_app. simpl. apply NoDup_snoc.
      + apply (healthy_organizations_pkey _ _ H).
      + intros Hx. apply in_map_iff in Hx as (o & Hoid & Hin).
        by apply (Hfo o Hin).
    - apply in_or_app. right. by left.
    - apply str_eq_refl.
    - intros y _ Hy. by apply str_eq_true in Hy. }
  assert (Backend.select_membership (with_created new newm b)
            (Some (user_id u)) oid = inr newm) as Hsm.
  { unfold Backend.select_membership. simpl.
    rewrite (healthy_served _ _ H).
    rewrite (filter_unique (fun m => (ou_user_id m, ou_organization_id m))
               _ _ newm); [done| | | |].
    - rewrite map_app. simpl. apply NoDup_snoc.
      + apply (healthy_membership_unique _ _ H).
      + intros Hx. apply in_map_iff in Hx as (m & Hkey & Hin).
        apply (Hnomember m Hin). congruence.
    - apply in_or_app. right. by left.
    - by rewrite !str_eq_refl.
    - intros y _ Hy. apply andb_true_iff in Hy as [Hy _].
      apply andb_true_iff in Hy as [H1 H2]. apply str_eq_true in H1, H2.
      simpl. congruence. }
  unfold AuthStoreMore.createOrganization.
  unfold AuthStore.bind at 1. unfold AuthStore.get at 1.
  unfold AuthStore.bind at 1. unfold AuthStore.get at 1.
  rewrite Hc, Hu. apply truthy_str_true in Hid. rewrite Hid. simpl.
  unfold AuthStore.try_catch.
  unfold AuthStore.bind at 1. rewrite insert_organization_ok by done.
  unfold AuthStore.bind at 1. fold new.
  rewrite insert_membership_ok; simpl; fold b; fold newm;
    [| done | by rewrite existsb_app; simpl; rewrite str_eq_refl, orb_true_r
     | done].
  unfold AuthStore.bind at 1. rewrite fetchUserOrganizations_run. simpl.
  rewrite Hu, Hc, Hid. simpl.
  unfold Backend.rpc_user_organizations. simpl.
  rewrite (healthy_served _ _ H).
  unfold AuthStore.bind at 1. rewrite switchOrganization_run. simpl.
  rewrite Hc, Hu. simpl.
  fold (with_created new newm b). rewrite Hso, Hsm. simpl.
  eexists. split; [reflexivity|]. simpl.
  repeat split; try done.
  - exists {| organization_id := oid;
              organization_name := name;
              user_role := "admin";
              user_status := "active";
              joined_at := AuthStore.now w |}.
    split; [|split; reflexivity].
    apply (in_get_user_organizations (with_created new newm b)).
    exists newm, new. simpl.
    repeat split; try done; apply in_or_app; right; by left.
  - apply lookup_insert_eq.
Qed.

Lemma admin_world_healthy : healthy (AuthStore.backend admin_world) "u-admin".
Proof.
  apply sample_tables_healthy; try reflexivity.
  - simpl. repeat (apply List.NoDup_cons; [simpl; intuition discriminate|]).
    apply List.NoDup_nil.
  - intros m Hm. simpl in Hm.
    repeat (destruct Hm as [<- | Hm]; [simpl; tauto|]). destruct Hm.
Qed.

Lemma createOrganization_success_witness :
  exists w',
    AuthStoreMore.createOrganization "New Co" None None "org-new" "m-new"
      admin_world
    = (AuthStore.Resolved
         (Some (AuthStoreMore.new_organization "org-new" "New Co" 2000)),
       w')
    /\ AuthStore.permissions (AuthStore.store w')
       = Some (Supabase.Capabilities Supabase.admin_permissions)
    /\ AuthStore.localStorage w' !! AuthStore.currentOrganizationId
       = Some "org-new".
Proof.
  destruct (createOrganization_success "New Co" "org-new" "m-new"
              (sample_user "u-admin" "admin") admin_world)
    as (w' & Hrun & _ & _ & Hp & _ & Hls & _).
  - reflexivity.
  - reflexivity.
  - discriminate.
  - apply admin_world_healthy.
  - intros o Ho. simpl in Ho.
    repeat (destruct Ho as [<- | Ho]; [discriminate|]). destruct Ho.
  - intros m Hm. simpl in Hm.
    repeat (destruct Hm as [<- | Hm]; [discriminate|]). destruct Hm.
  - by exists w'.
Defined.

(** X14: [createOrganization] does nothing and resolves when nobody is
    signed in or there is no backend client.  When the insertion of the
    organization is refused it rejects with that error and nothing has
    changed.  When the insertion of the membership is refused it rejects
    with that error and the store and the persisted choice are as before,
    but the new organization stays in the backend and no membership has
    been added for it. *)
Theorem createOrganization_failures (name oid mid : string)
    (w : AuthStore.World) :
  (AuthStore.supabase w = false \/ AuthStore.user (AuthStore.store w) = None ->
   forall r1 r2,
     AuthStoreMore.createOrganization name r1 r2 oid mid w
     = (AuthStore.Resolved None, w))
  /\ (forall u e r2,
         AuthStore.supabase w = true ->
         AuthStore.user (AuthStore.store w) = Some u -> user_id u <> "" ->
         AuthStoreMore.createOrganization name (Some e) r2 oid mid w
         = (AuthStore.Rejected e, w))
  /\ (forall u e,
         AuthStore.supabase w = true ->
         AuthStore.user (AuthStore.store w) = Some u -> user_id u <> "" ->
         (forall o, In o (Backend.organizations (AuthStore.backend w)) ->
                    org_id o <> oid) ->
         exists w',
           AuthStoreMore.createOrganization name None (Some e) oid mid w
           = (AuthStore.Rejected e, w')
           /\ AuthStore.store w' = AuthStore.store w
           /\ AuthStore.localStorage w' = AuthStore.localStorage w
           /\ Backend.organizations (AuthStore.backend w')
              = (Backend.organizations (AuthStore.backend w)
                 ++ [AuthStoreMore.new_organization oid name
                       (AuthStore.now w)])%list
           /\ Backend.organization_users (AuthStore.backend w')
              = Backend.organization_users (AuthStore.backend w)).
Proof.
  split; [|split].
  - intros Hno r1 r2. unfold AuthStoreMore.createOrganization.
    unfold AuthStore.bind at 1. unfold AuthStore.get at 1.
    unfold AuthStore.bind at 1. unfold AuthStore.get at 1.
    destruct (AuthStore.user (AuthStore.store w)) as [u|]; [|reflexivity].
    destruct Hno as [-> | Hno]; [reflexivity | discriminate].
  - intros u e r2 Hc Hu Hid. apply truthy_str_true in Hid.
    unfold AuthStoreMore.createOrganization.
    unfold AuthStore.bind at 1. unfold AuthStore.get at 1.
    unfold AuthStore.bind at 1. unfold AuthStore.get at 1.
    rewrite Hu, Hc, Hid. reflexivity.
  - intros u e Hc Hu Hid Hfo. apply truthy_str_true in Hid.
    unfold AuthStoreMore.createOrganization.
    unfold AuthStore.bind at 1. unfold AuthStore.get at 1.
    unfold AuthStore.bind at 1. unfold AuthStore.get at 1.
    rewrite Hu, Hc, Hid. simpl.
    unfold AuthStore.try_catch.
    unfold AuthStore.bind at 1. rewrite insert_organization_ok.
    + eexists. split; [reflexivity|]. by repeat split.
    + apply existsb_false. intros o Hin. apply str_eq_false. by apply Hfo.
Qed.

Lemma createOrganization_failures_witness :
  AuthStoreMore.createOrganization "New Co" None None "org-new" "m-new"
    (unconfigured_world (sample_quote draft "u-agent"))
  = (AuthStore.Resolved None,
     unconfigured_world (sample_quote draft "u-agent"))
  /\ AuthStoreMore.createOrganization "New Co"
       (Some (Backend.PostgrestError "42501")) None "org-new" "m-new"
       admin_world
     = (AuthStore.Rejected (Backend.PostgrestError "42501"), admin_world)
  /\ (exists w',
         AuthStoreMore.createOrganization "New Co" None
           (Some (Backend.PostgrestError "42501")) "org-new" "m-new"
           admin_world
         = (AuthStore.Rejected (Backend.PostgrestError "42501"), w')
         /\ AuthStore.store w' = AuthStore.store admin_world
         /\ length (Backend.organizations (AuthStore.backend w')) = 3%nat).
Proof.
  split; [|split].
  - apply (proj1 (createOrganization_failures "New Co" "org-new" "m-new"
                    (unconfigured_world (sample_quote draft "u-agent")))).
    left. reflexivity.
  - apply (proj1 (proj2 (createOrganization_failures "New Co" "org-new"
                           "m-new" admin_world))
             (sample_user "u-admin" "admin")); [reflexivity.. | discriminate].
  - destruct (proj2 (proj2 (createOrganization_failures "New Co" "org-new"
                              "m-new" admin_world))
                (sample_user "u-admin" "admin")
                (Backend.PostgrestError "42501"))
      as (w' & Hrun & Hs & _ & Ho & _).
    + reflexivity.
    + reflexivity.
    + discriminate.
    + intros o Hin. simpl in Hin.
      repeat (destruct Hin as [<- | Hin]; [discriminate|]). destruct Hin.
    + exists w'. split; [exact Hrun|]. split; [exact Hs|]. by rewrite Ho.
Defined.

(** ** The authorizer, the modal and the side bar *)

(** X15: for the action send and the capability set [caps] derived for the
    actor, the authorizer answers [true] exactly when [caps] grants the
    send capability and the quote is approved, and [false] otherwise. *)
Theorem canPerformQuoteAction_send (q : Quote) (userRole userId : string)
    (caps : Permission) :
  Supabase.getPermissions userRole = Supabase.Capabilities caps ->
  (Supabase.canPerformQuoteAction Supabase.Send q userRole userId = Some true
   <-> can_send_quotes caps = true /\ status q = approved)
  /\ (~ (can_send_quotes caps = true /\ status q = approved) ->
      Supabase.canPerformQuoteAction Supabase.Send q userRole userId
      = Some false).
Proof.
  intros Hcaps. simpl. rewrite Hcaps. simpl.
  destruct (can_send_quotes caps); simpl.
  - split.
    + split; [intros [= H]; by apply status_eqb_true in H|].
      intros [_ H]. f_equal. by apply status_eqb_true.
    + intros Hn. f_equal. apply status_eqb_false. tauto.
  - split; [split; [done | by intros [? _]] | done].
Qed.

Lemma canPerformQuoteAction_send_witness :
  Supabase.canPerformQuoteAction Supabase.Send
    (sample_quote approved "u-agent") "manager" "u-manager"
  = Some true.
Proof.
  apply (proj1 (canPerformQuoteAction_send (sample_quote approved "u-agent")
                  "manager" "u-manager" Supabase.manager_permissions
                  eq_refl)).
  by split.
Defined.

(** X16: the authorizer allows a deletion exactly to the creator of the
    quote and to the role admin, whatever the status of the quote; it
    allows the creation of quotes to every role, known or not, except the
    strings that name a member of [Object.prototype], for which the answer
    is [undefined]. *)
Theorem canPerformQuoteAction_delete_create (q : Quote)
    (userRole userId : string) :
  (Supabase.canPerformQuoteAction Supabase.Delete q userRole userId
   = Some true
   <-> created_by q = userId \/ userRole = "admin")
  /\ (Supabase.canPerformQuoteAction Supabase.Delete q userRole userId
      = Some false
      <-> created_by q <> userId /\ userRole <> "admin")
  /\ (Supabase.inherited userRole = false ->
      Supabase.canPerformQuoteAction Supabase.Create q userRole userId
      = Some true)
  /\ (Supabase.inherited userRole = true ->
      Supabase.canPerformQuoteAction Supabase.Create q userRole userId
      = None).
Proof.
  simpl. split; [|split; [|split]].
  - split.
    + intros [= H]. apply orb_true_iff in H.
      by rewrite !str_eq_true in H.
    + intros H. f_equal. apply orb_true_iff. by rewrite !str_eq_true.
  - split.
    + intros [= H]. apply orb_false_iff in H.
      by rewrite !str_eq_false in H.
    + intros H. f_equal. apply orb_false_iff. by rewrite !str_eq_false.
  - intros Hi.
    destruct (getPermissions_cases userRole)
      as [-> | [-> | [-> | [_ Hi']]]]; try reflexivity. congruence.
  - intros Hi. unfold Supabase.getPermissions.
    destruct (Supabase.permissions !! userRole) as [p|] eqn:Hp.
    + exfalso. unfold Supabase.permissions in Hp.
      destruct (decide (userRole = "admin")) as [->|Ha]; [discriminate|].
      destruct (decide (userRole = "manager")) as [->|Hm]; [discriminate|].
      destruct (decide (userRole = "agent")) as [->|Hg]; [discriminate|].
      rewrite !lookup_insert_ne in Hp by congruence.
      by rewrite lookup_empty in Hp.
    + by rewrite Hi.
Qed.

Lemma canPerformQuoteAction_delete_create_witness :
  Supabase.canPerformQuoteAction Supabase.Delete
    (sample_quote sent "u-agent") "agent" "u-agent"
  = Some true
  /\ Supabase.canPerformQuoteAction Supabase.Create
       (sample_quote sent "u-agent") "intern" "u-agent"
     = Some true.
Proof.
  split.
  - apply (proj1 (canPerformQuoteAction_delete_create
                    (sample_quote sent "u-agent") "agent" "u-agent")).
    left. reflexivity.
  - apply (proj1 (proj2 (proj2 (canPerformQuoteAction_delete_create
                                  (sample_quote sent "u-agent") "intern"
                                  "u-agent")))).
    reflexivity.
Defined.

(** X17: when the capabilities in the store are the ones of the role in
    the profile of the user, the modal and the authorizer agree on every
    action of a quote: the buttons for editing, approving, rejecting,
    sending and deleting are shown exactly when the authorizer allows the
    action to that user. *)
Theorem modal_agrees_with_authorizer (q : Quote) (u : User) :
  let perms := Some (Supabase.getPermissions (role u)) in
  let allowed action :=
    Js.truthy
      (Supabase.canPerformQuoteAction action q (role u) (user_id u)) in
  QuoteViewModal.canEdit q (Some u) = allowed Supabase.Edit
  /\ Js.truthy (QuoteViewModal.canApprove q perms) = allowed Supabase.Approve
  /\ Js.truthy (QuoteViewModal.canReject q perms) = allowed Supabase.Reject
  /\ Js.truthy (QuoteViewModal.canSend q perms) = allowed Supabase.Send
  /\ QuoteViewModal.canDelete q (Some u) = allowed Supabase.Delete.
Proof.
  simpl.
  unfold QuoteViewModal.canEdit, QuoteViewModal.canDelete. simpl.
  replace (Js.str_eq (user_id u) (created_by q))
    with (Js.str_eq (created_by q) (user_id u)) by apply String.eqb_sym.
  by repeat split.
Qed.

Lemma filteredNavigation_in (perms : option Supabase.PermissionsValue)
    (item : Sidebar.NavItem) :
  In item (Sidebar.filteredNavigation perms)
  <-> In item Sidebar.navigation
      /\ Js.truthy (QuotesPage.capability_of (Sidebar.permission item) perms)
         = true.
Proof. unfold Sidebar.filteredNavigation. apply filter_In. Qed.

(** X18: the links of the side bar follow the order of the roles: every
    link shown to an agent is shown to a manager, and every link shown to
    a manager is shown to an administrator.  A role that is none of the
    three sees what an agent sees, unless it names a member of
    [Object.prototype], in which case it sees no link at all, as does a
    store without capabilities. *)
Theorem sidebar_links_by_role :
  (forall item,
      In item (Sidebar.filteredNavigation
                 (Some (Supabase.getPermissions "agent"))) ->
      In item (Sidebar.filteredNavigation
                 (Some (Supabase.getPermissions "manager"))))
  /\ (forall item,
         In item (Sidebar.filteredNavigation
                    (Some (Supabase.getPermissions "manager"))) ->
         In item (Sidebar.filteredNavigation
                    (Some (Supabase.getPermissions "admin"))))
  /\ (forall r,
         r <> "admin" -> r <> "manager" -> Supabase.inherited r = false ->
         Sidebar.filteredNavigation (Some (Supabase.getPermissions r))
         = Sidebar.filteredNavigation
             (Some (Supabase.getPermissions "agent")))
  /\ (forall r,
         Supabase.inherited r = true ->
         Sidebar.filteredNavigation (Some (Supabase.getPermissions r)) = [])
  /\ Sidebar.filteredNavigation None = [].
Proof.
  split; [|split; [|split; [|split]]].
  - intros item H. apply filteredNavigation_in in H as [Hin Hp].
    apply filteredNavigation_in. split; [done|].
    simpl in Hin.
    repeat (destruct Hin as [<- | Hin]; [by simpl in *|]). destruct Hin.
  - intros item H. apply filteredNavigation_in in H as [Hin Hp].
    apply filteredNavigation_in. split; [done|].
    simpl in Hin.
    repeat (destruct Hin as [<- | Hin]; [by simpl in *|]). destruct Hin.
  - intros r Ha Hm Hi.
    destruct (decide (r = "agent")) as [->|Hg]; [done|].
    by rewrite getPermissions_fallback.
  - intros r Hi.
    destruct (getPermissions_cases r) as [H | [H | [H | [H _]]]].
    + assert (r = "admin") as ->; [|discriminate].
      destruct (decide (r = "admin")); [done|]. exfalso.
      unfold Supabase.getPermissions, Supabase.permissions in H.
      rewrite lookup_insert_ne in H by done.
      destruct (decide (r = "manager")) as [->|]; [discriminate|].
      rewrite lookup_insert_ne in H by done.
      destruct (decide (r = "agent")) as [->|]; [discriminate|].
      rewrite lookup_insert_ne, lookup_empty, Hi in H by done. discriminate.
    + assert (r = "manager") as ->; [|discriminate].
      destruct (decide (r = "manager")); [done|]. exfalso.
      unfold Supabase.getPermissions, Supabase.permissions in H.
      destruct (decide (r = "admin")) as [->|]; [discriminate|].
      rewrite !lookup_insert_ne in H by done.
      destruct (decide (r = "agent")) as [->|]; [discriminate|].
      rewrite lookup_insert_ne, lookup_empty, Hi in H by done. discriminate.
    + assert (r = "agent") as ->; [|discriminate].
      destruct (decide (r = "agent")); [done|]. exfalso.
      unfold Supabase.getPermissions, Supabase.permissions in H.
      destruct (decide (r = "admin")) as [->|]; [discriminate|].
      destruct (decide (r = "manager")) as [->|]; [discriminate|].
      rewrite !lookup_insert_ne, lookup_empty, Hi in H by done.
      discriminate.
    + by rewrite H.
  - reflexivity.
Qed.

Lemma sidebar_links_by_role_witness :
  Sidebar.filteredNavigation (Some (Supabase.getPermissions "intern"))
  = Sidebar.filteredNavigation (Some (Supabase.getPermissions "agent"))
  /\ Sidebar.filteredNavigation (Some (Supabase.getPermissions "toString"))
     = [].
Proof.
  destruct sidebar_links_by_role as (_ & _ & Hfallback & Hproto & _).
  split.
  - apply Hfallback; [discriminate | discriminate | reflexivity].
  - apply Hproto. reflexivity.
Defined.

(** X19: the link to the Team page is in the side bar exactly when the
    Team page lets the user in: both test the capability to manage users.
    The link to the Settings page tests the role of the current membership
    and the page the role in the profile of the user; they agree whenever
    these two roles are the same. *)
Theorem links_match_page_guards
    (perms : option Supabase.PermissionsValue) :
  ((exists item,
       In item (Sidebar.filteredNavigation perms)
       /\ Sidebar.href item = "/team")
   <-> Sidebar.team_accessible perms = true)
  /\ (forall u m,
         role u = ou_role m ->
         Sidebar.showSettings (Some m) = Sidebar.settings_accessible (Some u)).
Proof.
  split.
  - split.
    + intros (item & Hin & Hhref).
      apply filteredNavigation_in in Hin as [Hin Hp]. simpl in Hin.
      repeat (destruct Hin as [<- | Hin]; [try discriminate Hhref|]);
        [done | destruct Hin].
    + intros H.
      exists (Sidebar.mkNavItem "Team" "/team" can_manage_users).
      split; [|done]. apply filteredNavigation_in. split; [|done].
      simpl. tauto.
  - intros u m H. unfold Sidebar.showSettings, Sidebar.settings_accessible.
    simpl. by rewrite H.
Qed.

Lemma links_match_page_guards_witness :
  Sidebar.showSettings
    (Some (sample_membership "u-admin" "org-a" "admin" "active" 140))
  = Sidebar.settings_accessible (Some (sample_user "u-admin" "admin")).
Proof.
  apply (proj2 (links_match_page_guards None)). reflexivity.
Defined.

(** ** Status changes, continued *)

(** X20: a rejection without a reason (the reject dialog left empty, or the
    prompt of the list cancelled) sets the status to rejected and leaves the
    notes, the approver and the sent timestamp of the quote as they were. *)
Theorem rejection_without_reason (w : AuthStore.World)
    (p : QuotesPage.Page) (i : nat) (q : Quote) (reason : option string) :
  AuthStore.supabase w = true ->
  Backend.fault (AuthStore.backend w) Backend.quotes_update = None ->
  Backend.quotes (AuthStore.backend w) !! i = Some q ->
  reason = None \/ reason = Some "" ->
  exists q',
    quotes_after (quote_id q) rejected reason w p !! i = Some q'
    /\ status q' = rejected
    /\ notes q' = notes q
    /\ approved_by q' = approved_by q /\ sent_at q' = sent_at q
    /\ same_body q q'.
Proof.
  intros Hc Hf Hi Hr.
  rewrite (quotes_after_lookup _ _ _ _ _ _ q) by done.
  rewrite str_eq_refl. eexists. split; [reflexivity|].
  unfold QuotesPage.build_updateData. destruct Hr as [-> | ->]; simpl;
    by repeat split.
Qed.

Lemma rejection_without_reason_witness :
  exists q',
    quotes_after "q-1" rejected (Some "")
      (manager_world (sample_quote pending_approval "u-agent"))
      (sample_page (sample_quote pending_approval "u-agent")) !! 0%nat
    = Some q'
    /\ status q' = rejected
    /\ notes q' = Some "call back on Monday".
Proof.
  destruct (rejection_without_reason
              (manager_world (sample_quote pending_approval "u-agent"))
              (sample_page (sample_quote pending_approval "u-agent"))
              0%nat (sample_quote pending_approval "u-agent") (Some "")
              eq_refl eq_refl eq_refl (or_intror eq_refl))
    as (q' & H1 & H2 & H3 & _).
  by exists q'.
Defined.

(** X21: a status change never adds or removes a quote and never touches a
    quote with another id, whether the request succeeds or not; the
    session store, the persisted choice and the other tables are left
    alone as well. *)
Theorem handleStatusChange_frame (quoteId : string) (newStatus : QuoteStatus)
    (reason : option string) (w : AuthStore.World) (p : QuotesPage.Page) :
  let w' := fst (QuotesPage.handleStatusChange quoteId newStatus reason w p) in
  length (Backend.quotes (AuthStore.backend w'))
  = length (Backend.quotes (AuthStore.backend w))
  /\ (forall j other,
         Backend.quotes (AuthStore.backend w) !! j = Some other ->
         quote_id other <> quoteId ->
         Backend.quotes (AuthStore.backend w') !! j = Some other)
  /\ AuthStore.store w' = AuthStore.store w
  /\ AuthStore.localStorage w' = AuthStore.localStorage w
  /\ Backend.users (AuthStore.backend w') = Backend.users (AuthStore.backend w)
  /\ Backend.organizations (AuthStore.backend w')
     = Backend.organizations (AuthStore.backend w)
  /\ Backend.organization_users (AuthStore.backend w')
     = Backend.organization_users (AuthStore.backend w).
Proof.
  unfold QuotesPage.handleStatusChange.
  destruct (AuthStore.supabase w); simpl; [|by repeat split].
  destruct (Backend.fault _ _); simpl; [by repeat split|].
  repeat split.
  - unfold QuotesPage.update_quotes. apply length_map.
  - intros j other Hj Hne. unfold QuotesPage.update_quotes.
    rewrite list_lookup_fmap, Hj. simpl.
    apply str_eq_false in Hne. by rewrite Hne.
Qed.

Lemma handleStatusChange_frame_witness :
  Backend.quotes
    (AuthStore.backend
       (fst (QuotesPage.handleStatusChange "q-2" approved None
               (manager_world (sample_quote pending_approval "u-agent"))
               (sample_page (sample_quote pending_approval "u-agent")))))
    !! 0%nat
  = Some (sample_quote pending_approval "u-agent").
Proof.
  apply (proj1 (proj2 (handleStatusChange_frame "q-2" approved None
                         (manager_world
                            (sample_quote pending_approval "u-agent"))
                         (sample_page
                            (sample_quote pending_approval "u-agent"))))).
  - reflexivity.
  - discriminate.
Defined.

(** X22: [handleDelete] changes nothing without a backend client, when the
    user declines the confirmation or when the request is refused.
    Otherwise the quotes with the given id, and only they, are gone from
    the table, the modal is closed, and the session store is as before. *)
Theorem handleDelete_removes (confirmed : bool) (refused : option Backend.Err)
    (quoteId : string) (w : AuthStore.World) (p : QuotesPage.Page) :
  (AuthStore.supabase w = false \/ confirmed = false \/ is_Some refused ->
   QuotesPageMore.handleDelete confirmed refused quoteId w p = (w, p))
  /\ (AuthStore.supabase w = true ->
      (forall q,
          In q (Backend.quotes
                  (AuthStore.backend
                     (fst (QuotesPageMore.handleDelete true None quoteId
                             w p))))
          <-> In q (Backend.quotes (AuthStore.backend w))
              /\ quote_id q <> quoteId)
      /\ QuotesPage.viewingQuote
           (snd (QuotesPageMore.handleDelete true None quoteId w p))
         = None
      /\ AuthStore.store
           (fst (QuotesPageMore.handleDelete true None quoteId w p))
         = AuthStore.store w).
Proof.
  unfold QuotesPageMore.handleDelete. split.
  - intros [-> | [-> | [e ->]]]; [done | by rewrite orb_true_r |].
    by destruct (negb (AuthStore.supabase w) || negb confirmed).
  - intros ->. simpl. split; [|done].
    intros q. unfold QuotesPageMore.delete_quotes.
    rewrite filter_In, negb_true_iff, str_eq_false. done.
Qed.

Lemma handleDelete_removes_witness :
  QuotesPageMore.handleDelete false None "q-1"
    (manager_world (sample_quote draft "u-agent"))
    (sample_page (sample_quote draft "u-agent"))
  = (manager_world (sample_quote draft "u-agent"),
     sample_page (sample_quote draft "u-agent"))
  /\ Backend.quotes
       (AuthStore.backend
          (fst (QuotesPageMore.handleDelete true None "q-1"
                  (manager_world (sample_quote draft "u-agent"))
                  (sample_page (sample_quote draft "u-agent")))))
     = [].
Proof.
  split.
  - apply (proj1 (handleDelete_removes false None "q-1"
                    (manager_world (sample_quote draft "u-agent"))
                    (sample_page (sample_quote draft "u-agent")))).
    right; left; reflexivity.
  - pose proof (proj1 (proj2 (handleDelete_removes true None "q-1"
                                (manager_world (sample_quote draft "u-agent"))
                                (sample_page (sample_quote draft "u-agent")))
                         eq_refl)) as H.
    destruct (Backend.quotes _) as [|q rest]; [reflexivity|].
    exfalso. destruct (proj1 (H q) (or_introl eq_refl)) as [Hin Hne].
    simpl in Hin. destruct Hin as [<- | []]. by apply Hne.
Defined.

Lemma append_nonempty (a b : string) : b <> "" -> a ++ b <> "".
Proof. destruct a; [done | discriminate]. Qed.

Lemma unique_by_key {A K} (key : A -> K) (l : list A) (x y : A) :
  List.NoDup (map key l) -> In x l -> In y l -> key x = key y -> x = y.
Proof.
  induction l as [|z l IH]; simpl; [done|].
  intros Hnd Hx Hy Hk. apply NoDup_cons_iff in Hnd as [Hz Hnd].
  destruct Hx as [-> | Hx], Hy as [-> | Hy]; auto.
  - exfalso. apply Hz. rewrite Hk. by apply in_map.
  - exfalso. apply Hz. rewrite <- Hk. by apply in_map.
Qed.

Lemma find_the_one {A} (f : A -> bool) (l : list A) (x : A) :
  In x l -> f x = true -> (forall y, In y l -> f y = true -> y = x) ->
  List.find f l = Some x.
Proof.
  intros Hin Hf Huniq.
  destruct (List.find f l) as [y|] eqn:E.
  - apply find_some in E as [Hy Hfy]. f_equal. by apply Huniq.
  - apply (find_none _ _ E) in Hin. congruence.
Qed.

(** The cache of the page after a status change that succeeded and a
    refresh that succeeded: the quote is found in it as the table has it. *)
Lemma cache_after_status_change (quoteId : string) (newStatus : QuoteStatus)
    (reason : option string) (w : AuthStore.World) (p : QuotesPage.Page)
    (o : Organization) (q : Quote) :
  AuthStore.supabase w = true ->
  (forall query, Backend.fault (AuthStore.backend w) query = None) ->
  AuthStore.organization (AuthStore.store w) = Some o -> org_id o <> "" ->
  List.NoDup (map quote_id (Backend.quotes (AuthStore.backend w))) ->
  In q (Backend.quotes (AuthStore.backend w)) ->
  quote_id q = quoteId -> quote_organization_id q = org_id o ->
  let d := QuotesPage.build_updateData (AuthStore.user (AuthStore.store w))
             (QuotesPage.quotes p) (AuthStore.now w) quoteId newStatus
             reason in
  let q' := QuotesPage.update_row d (AuthStore.now w) q in
  let r := QuotesPage.handleStatusChange quoteId newStatus reason w p in
  In q' (Backend.quotes (AuthStore.backend (fst r)))
  /\ QuotesPage.find_quote (QuotesPage.quotes (snd r)) quoteId = Some q'
  /\ List.NoDup (map quote_id (Backend.quotes (AuthStore.backend (fst r))))
  /\ AuthStore.supabase (fst r) = true
  /\ (forall query, Backend.fault (AuthStore.backend (fst r)) query = None)
  /\ AuthStore.store (fst r) = AuthStore.store w
  /\ AuthStore.now (fst r) = AuthStore.now w.
Proof.
  intros Hc Hf Ho Hne Hnd Hin Hid Horg d q' r.
  assert (r = (AuthStore.with_backend
                 (Backend.with_quotes
                    (QuotesPage.update_quotes d (AuthStore.now w) quoteId
                       (Backend.quotes (AuthStore.backend w)))
                    (AuthStore.backend w)) w,
               QuotesPage.mkPage
                 (QuotesPage.select_quotes
                    (Backend.with_quotes
                       (QuotesPage.update_quotes d (AuthStore.now w) quoteId
                          (Backend.quotes (AuthStore.backend w)))
                       (AuthStore.backend w))
                    (org_id o))
                 None false)) as ->.
  { unfold r, QuotesPage.handleStatusChange, QuotesPage.fetchData.
    rewrite Hc, (Hf Backend.quotes_update). simpl.
    rewrite Ho. simpl. apply truthy_str_true in Hne. rewrite Hne, Hc.
    by rewrite !Hf. }
  simpl.
  assert (In q' (QuotesPage.update_quotes d (AuthStore.now w) quoteId
                   (Backend.quotes (AuthStore.backend w)))) as Hin'.
  { unfold QuotesPage.update_quotes. apply in_map_iff. exists q.
    split; [|done]. by rewrite Hid, str_eq_refl. }
  assert (map quote_id
            (QuotesPage.update_quotes d (AuthStore.now w) quoteId
               (Backend.quotes (AuthStore.backend w)))
          = map quote_id (Backend.quotes (AuthStore.backend w))) as Hids.
  { unfold QuotesPage.update_quotes. rewrite List.map_map.
    apply map_ext. intros a. by destruct (Js.str_eq (quote_id a) quoteId). }
  repeat split; try done.
  - unfold QuotesPage.find_quote, QuotesPage.select_quotes. simpl.
    apply find_the_one.
    + apply in_order_by, filter_In. split; [done|].
      apply str_eq_true. by rewrite <- Horg.
    + apply str_eq_true. by rewrite <- Hid.
    + intros y Hy Hfy. apply in_order_by, filter_In in Hy as [Hy _].
      apply str_eq_true in Hfy.
      apply (unique_by_key quote_id _ y q' ltac:(by rewrite Hids) Hy Hin').
      simpl. congruence.
  - by rewrite Hids.
Qed.

(** X23: rejections accumulate in the notes.  When a quote is rejected
    with a reason and then, after the page has refreshed, rejected again
    with a second reason, its notes are the notes left by the first
    rejection (which end with the first reason), two line feeds (a blank
    line), and [Rejected: ] with the second reason. *)
Theorem rejections_accumulate (w : AuthStore.World) (p : QuotesPage.Page)
    (o : Organization) (q : Quote) (r1 r2 : string) :
  AuthStore.supabase w = true ->
  (forall query, Backend.fault (AuthStore.backend w) query = None) ->
  AuthStore.organization (AuthStore.store w) = Some o -> org_id o <> "" ->
  List.NoDup (map quote_id (Backend.quotes (AuthStore.backend w))) ->
  In q (Backend.quotes (AuthStore.backend w)) ->
  quote_organization_id q = org_id o ->
  r1 <> "" -> r2 <> "" ->
  let first :=
    QuotesPage.handleStatusChange (quote_id q) rejected (Some r1) w p in
  let second :=
    QuotesPage.handleStatusChange (quote_id q) rejected (Some r2)
      (fst first) (snd first) in
  exists q1 q2 n1 before,
    In q1 (Backend.quotes (AuthStore.backend (fst first)))
    /\ quote_id q1 = quote_id q
    /\ notes q1 = Some n1
    /\ n1 = before ++ "Rejected: " ++ r1
    /\ In q2 (Backend.quotes (AuthStore.backend (fst second)))
    /\ quote_id q2 = quote_id q
    /\ status q2 = rejected
    /\ notes q2
       = Some (n1 ++ String "010" (String "010" ("Rejected: " ++ r2))).
Proof.
  intros Hc Hf Ho Hne Hnd Hin Horg Hr1 Hr2 first second.
  destruct (cache_after_status_change (quote_id q) rejected (Some r1) w p o q
              Hc Hf Ho Hne Hnd Hin eq_refl Horg)
    as (Hin1 & Hfind1 & Hnd1 & Hc1 & Hf1 & Hs1 & Hn1).
  fold first in Hin1, Hfind1, Hnd1, Hc1, Hf1, Hs1, Hn1.
  set (d1 := QuotesPage.build_updateData (AuthStore.user (AuthStore.store w))
               (QuotesPage.quotes p) (AuthStore.now w) (quote_id q) rejected
               (Some r1)) in *.
  set (q1 := QuotesPage.update_row d1 (AuthStore.now w) q) in *.
  assert (exists before,
             notes q1 = Some (before ++ "Rejected: " ++ r1)) as [before Hn].
  { unfold q1, d1, QuotesPage.build_updateData. simpl.
    apply truthy_str_true in Hr1. rewrite Hr1. simpl.
    unfold QuotesPage.rejection_notes. eexists. f_equal.
    by rewrite <- append_assoc. }
  destruct (cache_after_status_change (quote_id q) rejected (Some r2)
              (fst first) (snd first) o q1)
    as (Hin2 & _); try done.
  { by rewrite Hs1. }
  fold second in Hin2.
  eexists q1, _, _, before. split; [exact Hin1|]. split; [done|].
  split; [exact Hn|]. split; [done|]. split; [exact Hin2|].
  split; [done|]. split; [done|].
  simpl. unfold QuotesPage.build_updateData.
  apply truthy_str_true in Hr2. rewrite Hr2. simpl.
  rewrite Hfind1. unfold QuotesPage.rejection_notes, QuotesPage.existingNotes.
  rewrite Hn.
  assert (Js.truthy_str (before ++ "Rejected: " ++ r1) = true) as ->.
  { apply truthy_str_true, append_nonempty. discriminate. }
  by rewrite (proj2 (truthy_str_true _))
    by (apply append_nonempty; discriminate).
Qed.

Lemma rejections_accumulate_witness :
  let q := sample_quote pending_approval "u-agent" in
  let first :=
    QuotesPage.handleStatusChange "q-1" rejected (Some "too dear")
      (manager_world q) (sample_page q) in
  let second :=
    QuotesPage.handleStatusChange "q-1" rejected (Some "still too dear")
      (fst first) (snd first) in
  exists q1 q2 n1 before,
    In q1 (Backend.quotes (AuthStore.backend (fst first)))
    /\ quote_id q1 = "q-1"
    /\ notes q1 = Some n1
    /\ n1 = before ++ "Rejected: " ++ "too dear"
    /\ In q2 (Backend.quotes (AuthStore.backend (fst second)))
    /\ quote_id q2 = "q-1"
    /\ status q2 = rejected
    /\ notes q2
       = Some (n1 ++ String "010"
                       (String "010" ("Rejected: " ++ "still too dear"))).
Proof.
  intros q.
  apply (rejections_accumulate (manager_world q) (sample_page q)
           (sample_org "org-a") q "too dear" "still too dear");
    try reflexivity; try discriminate.
  - simpl. apply List.NoDup_cons; [by intros [] | apply List.NoDup_nil].
  - by left.
Defined.

(** ** The items of the quote form *)

Lemma filter_index_past {A} (index start : nat) (l : list A) :
  (index < start)%nat ->
  filter_index (fun i => negb (Nat.eqb i index)) start l = l.
Proof.
  revert start. induction l as [|x l IH]; intros start Hlt; simpl; [done|].
  destruct (Nat.eqb start index) eqn:E; [apply Nat.eqb_eq in E; lia|].
  simpl. f_equal. apply IH. lia.
Qed.

Lemma filter_index_skip {A} (index start : nat) (l : list A) :
  (start <= index)%nat ->
  filter_index (fun i => negb (Nat.eqb i index)) start l
  = (take (index - start) l ++ drop (S (index - start)) l)%list.
Proof.
  revert start. induction l as [|x l IH]; intros start Hle; simpl.
  - by rewrite take_nil.
  - destruct (Nat.eqb start index) eqn:E; simpl.
    + apply Nat.eqb_eq in E as ->. rewrite Nat.sub_diag. simpl.
      rewrite drop_0. apply filter_index_past. lia.
    + apply Nat.eqb_neq in E.
      replace (index - start)%nat with (S (index - S start)) by lia.
      simpl. f_equal. apply IH. lia.
Qed.

(** X24: [removeQuoteItem] takes out the item at the index and keeps the
    others in their order; so the form has one item less when the index is
    one of the form, and the same items when it is not. *)
Theorem removeQuoteItem_at_index {number : Type} (index : nat)
    (quoteItems : list (@QuoteItemFormData number)) :
  removeQuoteItem index quoteItems
  = (take index quoteItems ++ drop (S index) quoteItems)%list
  /\ ((index < length quoteItems)%nat ->
      S (length (removeQuoteItem index quoteItems)) = length quoteItems)
  /\ ((length quoteItems <= index)%nat ->
      removeQuoteItem index quoteItems = quoteItems)
  /\ (forall j, (j < index)%nat ->
                removeQuoteItem index quoteItems !! j = quoteItems !! j)
  /\ (forall j, (index <= j)%nat ->
                removeQuoteItem index quoteItems !! j = quoteItems !! S j).
Proof.
  assert (removeQuoteItem index quoteItems
          = (take index quoteItems ++ drop (S index) quoteItems)%list) as ->.
  { unfold removeQuoteItem. rewrite filter_index_skip by lia.
    by rewrite Nat.sub_0_r. }
  split; [done|]. split; [|split; [|split]].
  - intros Hlt. rewrite length_app, length_take, length_drop. lia.
  - intros Hle. rewrite take_ge by done. rewrite drop_ge by lia.
    apply app_nil_r.
  - intros j Hj.
    destruct (decide (index <= length quoteItems)%nat).
    + rewrite lookup_app_l by (rewrite length_take; lia).
      by rewrite lookup_take_lt.
    + rewrite take_ge, drop_ge by lia. by rewrite app_nil_r.
  - intros j Hj.
    destruct (decide (index <= length quoteItems)%nat).
    + rewrite lookup_app_r by (rewrite length_take; lia).
      rewrite length_take, lookup_drop. f_equal. lia.
    + rewrite take_ge, drop_ge by lia. rewrite app_nil_r.
      rewrite !lookup_ge_None_2; [done | lia | lia].
Qed.

Lemma removeQuoteItem_at_index_witness :
  S (length (removeQuoteItem 1
               [ mkQuoteItemFormData "p-1" 1 100 0;
                 mkQuoteItemFormData "p-2" 2 250 10 ]))
  = 2%nat.
Proof.
  apply (proj1 (proj2 (removeQuoteItem_at_index 1
                         [ mkQuoteItemFormData "p-1" 1 100 0;
                           mkQuoteItemFormData "p-2" 2 250 10 ]))).
  simpl. lia.
Defined.

(** X25: adding an item and then removing the last item of the form gives
    the form back; the item added has no product, the quantity one, and
    zero as price and discount. *)
Theorem add_then_remove_item {number : Type} (zero one : number)
    (quoteItems : list (@QuoteItemFormData number)) :
  removeQuoteItem (length quoteItems) (addQuoteItem zero one quoteItems)
  = quoteItems
  /\ addQuoteItem zero one quoteItems !! length quoteItems
     = Some (mkQuoteItemFormData "" one zero zero)
  /\ length (addQuoteItem zero one quoteItems) = S (length quoteItems).
Proof.
  unfold addQuoteItem, removeQuoteItem. split; [|split].
  - rewrite filter_index_skip by lia. rewrite Nat.sub_0_r.
    rewrite take_app_length. rewrite drop_ge by (rewrite length_app; simpl; lia).
    apply app_nil_r.
  - by rewrite lookup_app_r, Nat.sub_diag by lia.
  - rewrite length_app. simpl. lia.
Qed.

(** X26: [updateQuoteItem] on an item of the form keeps the number of items
    and every other item, and changes the one field of the item at the
    index.  Selecting a product also sets the unit price to the price of
    the first product of the catalogue with that id, and leaves the price
    alone when the catalogue has no such product; no other field change
    touches the price. *)
Theorem updateQuoteItem_in_form {number : Type}
    (products : list (@Product number)) (index : nat)
    (fv : @FieldValue number) (quoteItems : list (@QuoteItemFormData number))
    (item : @QuoteItemFormData number) :
  quoteItems !! index = Some item ->
  exists updated item',
    updateQuoteItem products index fv quoteItems = Some updated
    /\ length updated = length quoteItems
    /\ (forall j, j <> index -> updated !! j = quoteItems !! j)
    /\ updated !! index = Some item'
    /\ item'
       = match fv with
         | Field_product_id v =>
             mkQuoteItemFormData v (quantity item)
               (match List.find (fun p => Js.str_eq (product_id p) v)
                        products
                with
                | Some product => price product
                | None => unit_price item
                end)
               (discount_percent item)
         | Field_quantity v =>
             mkQuoteItemFormData (item_product_id item) v (unit_price item)
                                 (discount_percent item)
         | Field_unit_price v =>
             mkQuoteItemFormData (item_product_id item) (quantity item) v
                                 (discount_percent item)
         | Field_discount_percent v =>
             mkQuoteItemFormData (item_product_id item) (quantity item)
                                 (unit_price item) v
         end.
Proof.
  intros Hi. unfold updateQuoteItem. rewrite Hi.
  eexists _, _. split; [reflexivity|].
  split; [apply length_insert|].
  split; [intros j Hj; by apply list_lookup_insert_ne|].
  split; [apply list_lookup_insert_eq; by apply lookup_lt_Some in Hi|].
  destruct fv; simpl; try reflexivity.
  by destruct (List.find _ products).
Qed.

Lemma updateQuoteItem_in_form_witness :
  exists updated item',
    updateQuoteItem [mkProduct "p-1" 100; mkProduct "p-2" 250] 0
      (Field_product_id "p-2") [mkQuoteItemFormData "" 1 0 0]
    = Some updated
    /\ updated !! 0%nat = Some item'
    /\ item' = mkQuoteItemFormData "p-2" 1 250 0.
Proof.
  destruct (updateQuoteItem_in_form
              [mkProduct "p-1" 100; mkProduct "p-2" 250] 0
              (Field_product_id "p-2") [mkQuoteItemFormData "" 1 0 0]
              (mkQuoteItemFormData "" 1 0 0) eq_refl)
    as (updated & item' & H1 & _ & _ & H2 & H3).
  by exists updated, item'.
Defined.

(** ** The SQL functions *)

Lemma role_hierarchy_range (r : string) :
  0 <= Sql.role_hierarchy r <= 3.
Proof.
  unfold Sql.role_hierarchy. repeat case_match; lia.
Qed.

(** X27: [user_has_role_in_org] follows the order of the roles: a member
    who passes for a role passes for every role ranked no higher, so a
    member who passes for admin passes for every required role.  An
    identity without an active membership in the organization passes for
    none. *)
Theorem user_has_role_in_org_monotone (b : Backend.t)
    (user_uuid org_uuid : string) :
  (forall r1 r2,
      Sql.role_hierarchy r1 <= Sql.role_hierarchy r2 ->
      Sql.user_has_role_in_org b user_uuid org_uuid r2 = true ->
      Sql.user_has_role_in_org b user_uuid org_uuid r1 = true)
  /\ (forall r,
         Sql.user_has_role_in_org b user_uuid org_uuid "admin" = true ->
         Sql.user_has_role_in_org b user_uuid org_uuid r = true)
  /\ ((forall m,
          In m (Backend.organization_users b) ->
          ~ (ou_user_id m = user_uuid /\ ou_organization_id m = org_uuid
             /\ ou_status m = "active")) ->
      forall r, Sql.user_has_role_in_org b user_uuid org_uuid r = false).
Proof.
  unfold Sql.user_has_role_in_org.
  split; [|split].
  - intros r1 r2 Hle. destruct (List.find _ _) as [m|]; [|done].
    rewrite !Z.leb_le. lia.
  - intros r. destruct (List.find _ _) as [m|]; [|done].
    rewrite !Z.leb_le. change (Sql.role_hierarchy "admin") with 3.
    pose proof (role_hierarchy_range r). lia.
  - intros Hno r. destruct (List.find _ _) as [m|] eqn:E; [|done].
    apply find_some in E as [Hin Hm]. exfalso. apply (Hno m Hin).
    apply andb_true_iff in Hm as [Hm H3].
    apply andb_true_iff in Hm as [H1 H2].
    by rewrite !str_eq_true in *.
Qed.

Lemma user_has_role_in_org_monotone_witness :
  Sql.user_has_role_in_org (AuthStore.backend admin_world) "u-admin" "org-a"
    "manager" = true
  /\ Sql.user_has_role_in_org (AuthStore.backend admin_world) "u-admin"
       "org-z" "agent" = false.
Proof.
  destruct (user_has_role_in_org_monotone (AuthStore.backend admin_world)
              "u-admin" "org-a") as (_ & Hadmin & _).
  destruct (user_has_role_in_org_monotone (AuthStore.backend admin_world)
              "u-admin" "org-z") as (_ & _ & Hnone).
  split.
  - apply Hadmin. reflexivity.
  - apply Hnone. intros m Hm (_ & Horg & _). simpl in Hm.
    repeat (destruct Hm as [<- | Hm]; [discriminate|]). destruct Hm.
Defined.

(** X28: a required role that is none of admin, manager and agent ranks
    lowest, so [user_has_role_in_org] lets every active member of the
    organization pass for it, whatever the member's role. *)
Theorem user_has_role_in_org_unknown_required (b : Backend.t)
    (user_uuid org_uuid required : string) :
  required <> "admin" -> required <> "manager" -> required <> "agent" ->
  (Sql.user_has_role_in_org b user_uuid org_uuid required = true
   <-> exists m,
         In m (Backend.organization_users b)
         /\ ou_user_id m = user_uuid /\ ou_organization_id m = org_uuid
         /\ ou_status m = "active").
Proof.
  intros Ha Hm Hg. unfold Sql.user_has_role_in_org.
  assert (Sql.role_hierarchy required = 0) as Hr.
  { unfold Sql.role_hierarchy.
    apply str_eq_false in Ha, Hm, Hg. by rewrite Ha, Hm, Hg. }
  split.
  - destruct (List.find _ _) as [m|] eqn:E; [|done]. intros _.
    apply find_some in E as [Hin Hf]. exists m. split; [done|].
    apply andb_true_iff in Hf as [Hf H3].
    apply andb_true_iff in Hf as [H1 H2].
    by rewrite !str_eq_true in *.
  - intros (m & Hin & H1 & H2 & H3).
    destruct (List.find _ _) as [m'|] eqn:E.
    + rewrite Hr. apply Z.leb_le. apply role_hierarchy_range.
    + apply (find_none _ _ E) in Hin.
      by rewrite H1, H2, H3, !str_eq_refl in Hin.
Qed.

Lemma user_has_role_in_org_unknown_required_witness :
  Sql.user_has_role_in_org (AuthStore.backend admin_world) "u-agent" "org-a"
    "owner" = true.
Proof.
  apply (user_has_role_in_org_unknown_required
           (AuthStore.backend admin_world) "u-agent" "org-a" "owner");
    try discriminate.
  exists (sample_membership "u-agent" "org-a" "agent" "active" 110).
  simpl. tauto.
Defined.

(** X29: for a member with one of the three roles, the ranking of
    [user_has_role_in_org] and the capability table of [getPermissions]
    draw the same lines: the member passes for manager exactly when the
    role has the capabilities to approve and send quotes, to manage
    products and clients and to see the audit log, passes for admin
    exactly when the role may manage users, and always passes for agent. *)
Theorem role_hierarchy_matches_capabilities (b : Backend.t)
    (m : OrganizationUser) :
  List.NoDup (map (fun m => (ou_user_id m, ou_organization_id m))
                  (Backend.organization_users b)) ->
  In m (Backend.organization_users b) ->
  ou_status m = "active" ->
  ou_role m = "admin" \/ ou_role m = "manager" \/ ou_role m = "agent" ->
  let passes r :=
    Sql.user_has_role_in_org b (ou_user_id m) (ou_organization_id m) r in
  let grants field :=
    Supabase.capability field (Supabase.getPermissions (ou_role m)) in
  passes "agent" = true
  /\ (passes "manager" = true <-> grants can_approve_quotes = Some true)
  /\ (passes "manager" = true <-> grants can_send_quotes = Some true)
  /\ (passes "manager" = true <-> grants can_manage_products = Some true)
  /\ (passes "manager" = true <-> grants can_manage_clients = Some true)
  /\ (passes "manager" = true <-> grants can_view_audit_logs = Some true)
  /\ (passes "admin" = true <-> grants can_manage_users = Some true).
Proof.
  intros Hnd Hin Hs Hrole. simpl. unfold Sql.user_has_role_in_org.
  rewrite (find_the_one _ _ m); [| done | by rewrite Hs, !str_eq_refl |].
  - destruct Hrole as [-> | [-> | ->]]; repeat split; done.
  - intros y Hy Hfy. apply andb_true_iff in Hfy as [Hfy _].
    apply andb_true_iff in Hfy as [H1 H2]. apply str_eq_true in H1, H2.
    apply (unique_by_key _ _ y m Hnd Hy Hin). simpl. congruence.
Qed.

Lemma role_hierarchy_matches_capabilities_witness :
  Sql.user_has_role_in_org (AuthStore.backend admin_world) "u-manager"
    "org-a" "manager" = true
  <-> Supabase.capability can_approve_quotes
        (Supabase.getPermissions "manager") = Some true.
Proof.
  apply (proj1 (proj2 (role_hierarchy_matches_capabilities
                         (AuthStore.backend admin_world)
                         (sample_membership "u-manager" "org-a" "manager"
                            "active" 130)
                         (healthy_membership_unique _ _ admin_world_healthy)
                         ltac:(simpl; tauto) eq_refl
                         ltac:(right; left; reflexivity)))).
Defined.

From Stdlib Require Import Sorted.

Lemma insert_by_sorted {A} (key : A -> Z) (x : A) (l : list A) :
  StronglySorted (fun a b => key a <= key b) l ->
  StronglySorted (fun a b => key a <= key b) (Backend.insert_by key x l).
Proof.
  induction 1 as [|y l Hl IH Hy]; simpl.
  - apply SSorted_cons; [apply SSorted_nil | apply List.Forall_nil].
  - destruct (key x <? key y) eqn:E.
    + apply Z.ltb_lt in E. apply SSorted_cons.
      * by apply SSorted_cons.
      * apply List.Forall_cons; [lia|].
        eapply List.Forall_impl; [|exact Hy]. simpl. intros a Ha. lia.
    + apply Z.ltb_ge in E. apply SSorted_cons; [done|].
      apply List.Forall_forall. intros a Ha.
      apply in_insert_by in Ha as [-> | Ha]; [done|].
      by apply (proj1 (List.Forall_forall _ _) Hy).
Qed.

(** X30: [get_user_organizations] returns the memberships of the identity
    oldest first, and it returns exactly the active memberships of that
    identity whose organization exists: no pending or inactive membership
    and no membership of somebody else is ever listed. *)
Theorem get_user_organizations_rows (b : Backend.t) (user_uuid : string) :
  StronglySorted (fun r1 r2 => joined_at r1 <= joined_at r2)
    (Backend.get_user_organizations b user_uuid)
  /\ (forall row,
         In row (Backend.get_user_organizations b user_uuid) ->
         user_status row = "active"
         /\ exists m o,
              In m (Backend.organization_users b)
              /\ In o (Backend.organizations b)
              /\ ou_user_id m = user_uuid
              /\ ou_status m = "active"
              /\ org_id o = ou_organization_id m
              /\ organization_id row = ou_organization_id m
              /\ organization_name row = org_name o
              /\ user_role row = ou_role m
              /\ joined_at row = ou_joined_at m)
  /\ (forall m o,
         In m (Backend.organization_users b) ->
         In o (Backend.organizations b) ->
         ou_user_id m = user_uuid -> ou_status m = "active" ->
         org_id o = ou_organization_id m ->
         exists row,
           In row (Backend.get_user_organizations b user_uuid)
           /\ organization_id row = ou_organization_id m
           /\ user_role row = ou_role m).
Proof.
  split; [|split].
  - unfold Backend.get_user_organizations, Backend.order_by.
    induction (Backend.joined_memberships b user_uuid) as [|x l IH]; simpl.
    + apply SSorted_nil.
    + by apply insert_by_sorted.
  - intros row H. apply in_get_user_organizations in H
      as (m & o & Hm & Ho & Hu & Hs & Hid & ->).
    simpl. split; [done|]. exists m, o. by repeat split.
  - intros m o Hm Ho Hu Hs Hid. eexists. split.
    + apply in_get_user_organizations. exists m, o. by repeat split.
    + by split.
Qed.

Lemma get_user_organizations_rows_witness :
  exists row,
    In row (Backend.get_user_organizations (AuthStore.backend admin_world)
              "u-admin")
    /\ organization_id row = "org-b" /\ user_role row = "agent".
Proof.
  apply (proj2 (proj2 (get_user_organizations_rows
                         (AuthStore.backend admin_world) "u-admin"))
           (sample_membership "u-admin" "org-b" "agent" "active" 150)
           (sample_org "org-b")); try reflexivity; simpl; tauto.
Defined.
